(** * Mali gralloc: format catalog, format selection, allocation geometry,
      ION backing store and buffer access

    A shallow embedding of the allocator core of the Mali gralloc module
    (format_info.cpp, mali_gralloc_formats.cpp, mali_gralloc_bufferallocation.cpp,
    mali_gralloc_ion.cpp, mali_gralloc_bufferaccess.cpp) together with the
    properties of its specification.

    Conventions.
    - C integers are values of [Z]; every conversion and every wrap-around of
      a fixed-width type is written out with the functions of [CInt].
    - An access outside an array, a division by zero and the like have no
      defined result in C: the embedded function returns [None] there.
    - [assert] is compiled out in Android builds (NDEBUG); the asserted
      conditions are embedded as definitions of their own.
    - Constants that come from headers which are not part of the sources at
      hand (mali_gralloc_formats.h, gralloc1.h, graphics.h, ion.h and the
      build configuration) are the fields of the class [Platform]. *)

From Stdlib Require Import ZArith List Bool Lia.
From Stdlib Require String.
Import ListNotations.
Open Scope Z_scope.

(** ** C integer types *)

Module CInt.

Definition wrap (bits x : Z) : Z := x mod 2 ^ bits.

  (** Conversion to uint8_t, uint16_t, uint32_t, uint64_t. *)
Definition to_uint8 (x : Z) : Z := wrap 8 x.
Definition to_uint16 (x : Z) : Z := wrap 16 x.
Definition to_uint32 (x : Z) : Z := wrap 32 x.
Definition to_uint64 (x : Z) : Z := wrap 64 x.

  (** Conversion to a 32-bit two's complement int. *)
Definition to_int32 (x : Z) : Z :=
    let u := wrap 32 x in if u <? 2 ^ 31 then u else u - 2 ^ 32.

Definition UINT64_MAX : Z := 2 ^ 64 - 1.

  (** [~m] on a uint64_t. *)
Definition not64 (m : Z) : Z := Z.ldiff UINT64_MAX m.

  (** A C condition [if (x & m)]. *)
Definition tst (x m : Z) : bool := negb (Z.land x m =? 0).

End CInt.

Import CInt.

(** ** Error plumbing: the option monad *)

Definition obind {A B : Type} (o : option A) (k : A -> option B) : option B :=
  match o with
  | Some a => k a
  | None => None
  end.

Notation "'do!' x <- c ; k" := (obind c (fun x => k))
  (at level 10, x pattern, c at level 100, k at level 200).

(** ** Producer and consumer roles (mali_gralloc_formats.h) *)

Inductive mali_gralloc_producer_type : Type :=
| MALI_GRALLOC_PRODUCER_UNKNOWN
| MALI_GRALLOC_PRODUCER_CPU
| MALI_GRALLOC_PRODUCER_GPU
| MALI_GRALLOC_PRODUCER_GPU_OR_DISPLAY
| MALI_GRALLOC_PRODUCER_DISPLAY
| MALI_GRALLOC_PRODUCER_DISPLAY_AEU
| MALI_GRALLOC_PRODUCER_VIDEO_DECODER
| MALI_GRALLOC_PRODUCER_CAMERA.

Inductive mali_gralloc_consumer_type : Type :=
| MALI_GRALLOC_CONSUMER_UNKNOWN
| MALI_GRALLOC_CONSUMER_CPU
| MALI_GRALLOC_CONSUMER_GPU_OR_DISPLAY
| MALI_GRALLOC_CONSUMER_GPU_EXCL
| MALI_GRALLOC_CONSUMER_DISPLAY_EXCL
| MALI_GRALLOC_CONSUMER_VIDEO_ENCODER.

Inductive mali_gralloc_format_type : Type :=
| MALI_GRALLOC_FORMAT_TYPE_USAGE
| MALI_GRALLOC_FORMAT_TYPE_INTERNAL.

(** ** Constants of the platform headers and of the build

    Every field stands for the macro or enumerator of that name and is a
    value of its C type. *)

Class Platform : Type := {
  (* mali_gralloc_formats.h: layout of a 64-bit internal format *)
  MALI_GRALLOC_INTFMT_FMT_MASK : Z;
  MALI_GRALLOC_INTFMT_EXT_MASK : Z;
  MALI_GRALLOC_INTFMT_AFBCENABLE_MASK : Z;
  MALI_GRALLOC_INTFMT_AFBC_BASIC : Z;
  MALI_GRALLOC_INTFMT_AFBC_SPLITBLK : Z;
  MALI_GRALLOC_INTFMT_AFBC_WIDEBLK : Z;
  MALI_GRALLOC_INTFMT_AFBC_TILED_HEADERS : Z;
  MALI_GRALLOC_INTFMT_AFBC_EXTRAWIDEBLK : Z;
  MALI_GRALLOC_INTFMT_AFBC_DOUBLE_BODY : Z;
  GRALLOC_PRIVATE_FORMAT_UNWRAP : Z -> Z;
  (* mali_gralloc_formats.h: integer values of the role enumerators *)
  producer_value : mali_gralloc_producer_type -> Z;
  consumer_value : mali_gralloc_consumer_type -> Z;
  (* mali_gralloc_formats.h: capability bits of a hardware block *)
  MALI_GRALLOC_FORMAT_CAPABILITY_OPTIONS_PRESENT : Z;
  MALI_GRALLOC_FORMAT_CAPABILITY_AFBC_BASIC : Z;
  MALI_GRALLOC_FORMAT_CAPABILITY_AFBC_SPLITBLK : Z;
  MALI_GRALLOC_FORMAT_CAPABILITY_AFBC_WIDEBLK : Z;
  MALI_GRALLOC_FORMAT_CAPABILITY_AFBC_YUV_NOREAD : Z;
  MALI_GRALLOC_FORMAT_CAPABILITY_AFBC_YUV_NOWRITE : Z;
  MALI_GRALLOC_FORMAT_CAPABILITY_AFBC_TILED_HEADERS : Z;
  MALI_GRALLOC_FORMAT_CAPABILITY_AFBC_MULTIPLANE_READ : Z;
  MALI_GRALLOC_FORMAT_CAPABILITY_AFBC_DOUBLE_BODY : Z;
  MALI_GRALLOC_FORMAT_CAPABILITY_PIXFMT_RGBA1010102 : Z;
  MALI_GRALLOC_FORMAT_CAPABILITY_PIXFMT_RGBA16161616 : Z;
  MALI_GRALLOC_FORMAT_CAPABILITY_AFBCENABLE_MASK : Z;
  (* mali_gralloc_formats.h: base formats *)
  MALI_GRALLOC_FORMAT_INTERNAL_RGB_565 : Z;
  MALI_GRALLOC_FORMAT_INTERNAL_RGB_888 : Z;
  MALI_GRALLOC_FORMAT_INTERNAL_RGBA_8888 : Z;
  MALI_GRALLOC_FORMAT_INTERNAL_BGRA_8888 : Z;
  MALI_GRALLOC_FORMAT_INTERNAL_RGBX_8888 : Z;
  MALI_GRALLOC_FORMAT_INTERNAL_RGBA_1010102 : Z;
  MALI_GRALLOC_FORMAT_INTERNAL_RGBA_16161616 : Z;
  MALI_GRALLOC_FORMAT_INTERNAL_Y8 : Z;
  MALI_GRALLOC_FORMAT_INTERNAL_Y16 : Z;
  MALI_GRALLOC_FORMAT_INTERNAL_YUV420_8BIT_I : Z;
  MALI_GRALLOC_FORMAT_INTERNAL_NV12 : Z;
  MALI_GRALLOC_FORMAT_INTERNAL_NV21 : Z;
  MALI_GRALLOC_FORMAT_INTERNAL_YV12 : Z;
  MALI_GRALLOC_FORMAT_INTERNAL_YUV420_10BIT_I : Z;
  MALI_GRALLOC_FORMAT_INTERNAL_Y0L2 : Z;
  MALI_GRALLOC_FORMAT_INTERNAL_P010 : Z;
  MALI_GRALLOC_FORMAT_INTERNAL_Y210 : Z;
  MALI_GRALLOC_FORMAT_INTERNAL_P210 : Z;
  MALI_GRALLOC_FORMAT_INTERNAL_YUV444_10BIT_I : Z;
  MALI_GRALLOC_FORMAT_INTERNAL_Y410 : Z;
  MALI_GRALLOC_FORMAT_INTERNAL_RAW16 : Z;
  MALI_GRALLOC_FORMAT_INTERNAL_RAW12 : Z;
  MALI_GRALLOC_FORMAT_INTERNAL_RAW10 : Z;
  MALI_GRALLOC_FORMAT_INTERNAL_BLOB : Z;
  MALI_GRALLOC_FORMAT_INTERNAL_YUV422_8BIT : Z;
  MALI_GRALLOC_FORMAT_INTERNAL_YUV420_888 : Z;
  MALI_GRALLOC_FORMAT_INTERNAL_DEPTH_16 : Z;
  MALI_GRALLOC_FORMAT_INTERNAL_DEPTH_24 : Z;
  MALI_GRALLOC_FORMAT_INTERNAL_DEPTH_24_STENCIL_8 : Z;
  MALI_GRALLOC_FORMAT_INTERNAL_DEPTH_32F : Z;
  MALI_GRALLOC_FORMAT_INTERNAL_DEPTH_32F_STENCIL_8 : Z;
  MALI_GRALLOC_FORMAT_INTERNAL_STENCIL_8 : Z;
  (* system/graphics.h *)
  HAL_PIXEL_FORMAT_YV12 : Z;
  HAL_PIXEL_FORMAT_YCrCb_420_SP : Z;
  HAL_PIXEL_FORMAT_YCbCr_422_I : Z;
  HAL_PIXEL_FORMAT_YCbCr_422_SP : Z;
  HAL_PIXEL_FORMAT_IMPLEMENTATION_DEFINED : Z;
  HAL_PIXEL_FORMAT_YCbCr_420_888 : Z;
  HAL_PIXEL_FORMAT_YCbCr_422_888 : Z;
  HAL_PIXEL_FORMAT_YCbCr_444_888 : Z;
  HAL_PIXEL_FORMAT_DEPTH_16 : Z;
  HAL_PIXEL_FORMAT_DEPTH_24 : Z;
  HAL_PIXEL_FORMAT_DEPTH_24_STENCIL_8 : Z;
  HAL_PIXEL_FORMAT_DEPTH_32F : Z;
  HAL_PIXEL_FORMAT_DEPTH_32F_STENCIL_8 : Z;
  HAL_PIXEL_FORMAT_STENCIL_8 : Z;
  (* hardware/gralloc1.h, through mali_gralloc_usages.h *)
  GRALLOC_USAGE_SW_READ_OFTEN : Z;
  GRALLOC_USAGE_HW_FB : Z;
  GRALLOC_USAGE_PROTECTED : Z;
  GRALLOC_USAGE_HW_RENDER : Z;
  GRALLOC_USAGE_HW_CAMERA_MASK : Z;
  GRALLOC_USAGE_HW_TEXTURE : Z;
  GRALLOC_USAGE_HW_VIDEO_ENCODER : Z;
  GRALLOC_USAGE_HW_COMPOSER : Z;
  GRALLOC1_PRODUCER_USAGE_PRIVATE_0 : Z;
  GRALLOC1_PRODUCER_USAGE_PRIVATE_1 : Z;
  GRALLOC1_PRODUCER_USAGE_PRIVATE_2 : Z;
  GRALLOC1_PRODUCER_USAGE_PRIVATE_3 : Z;
  GRALLOC1_PRODUCER_USAGE_PRIVATE_18 : Z;
  GRALLOC1_PRODUCER_USAGE_PRIVATE_19 : Z;
  (* linux/ion.h, asm/ion_uniphier.h *)
  ION_HEAP_TYPE_SYSTEM : Z;
  ION_HEAP_TYPE_SYSTEM_CONTIG : Z;
  ION_HEAP_TYPE_CARVEOUT : Z;
  ION_HEAP_TYPE_DMA : Z;
  ION_HEAP_TYPE_CUSTOM : Z;
  ION_HEAP_TYPE_COMPOUND_PAGE : Z;
  ION_HEAP_ID_FB : Z;
  ION_FLAG_CACHED : Z;
  ION_FLAG_CACHED_NEEDS_SYNC : Z;
  ION_NUM_HEAP_IDS : Z;
  ION_HEAP_SECURE_MASK_defined : bool;
  (* build configuration *)
  PLATFORM_SDK_VERSION : Z;
  MALI_DISPLAY_VERSION : Z;
  GRALLOC_DISP_W : Z;
  GRALLOC_DISP_H : Z;
  GRALLOC_USE_GRALLOC1_API : bool;
  GRALLOC_USE_ION_COMPOUND_PAGE_HEAP : bool;
  GRALLOC_USE_ION_DMA_HEAP : bool;
  GRALLOC_USE_LEGACY_ION_API : bool;
  LP64 : bool
}.

(** The values of the AOSP and Arm headers, for an Android 9 build of a
    64-bit target without display dimensions. *)
#[export] Instance aosp : Platform := {|
  MALI_GRALLOC_INTFMT_FMT_MASK := 0xffffffff;
  MALI_GRALLOC_INTFMT_EXT_MASK := 0xffffffff00000000;
  MALI_GRALLOC_INTFMT_AFBCENABLE_MASK := 2 ^ 32;
  MALI_GRALLOC_INTFMT_AFBC_BASIC := 2 ^ 32;
  MALI_GRALLOC_INTFMT_AFBC_SPLITBLK := 2 ^ 33;
  MALI_GRALLOC_INTFMT_AFBC_WIDEBLK := 2 ^ 34;
  MALI_GRALLOC_INTFMT_AFBC_TILED_HEADERS := 2 ^ 35;
  MALI_GRALLOC_INTFMT_AFBC_EXTRAWIDEBLK := 2 ^ 36;
  MALI_GRALLOC_INTFMT_AFBC_DOUBLE_BODY := 2 ^ 37;
  GRALLOC_PRIVATE_FORMAT_UNWRAP := fun x =>
    Z.lor (Z.land x 0x0fffffff) (Z.shiftl (Z.land x 0xf0000000) 4);
  producer_value := fun p =>
    match p with
    | MALI_GRALLOC_PRODUCER_UNKNOWN => 0
    | MALI_GRALLOC_PRODUCER_CPU => 1
    | MALI_GRALLOC_PRODUCER_GPU => 2
    | MALI_GRALLOC_PRODUCER_GPU_OR_DISPLAY => 3
    | MALI_GRALLOC_PRODUCER_DISPLAY => 4
    | MALI_GRALLOC_PRODUCER_DISPLAY_AEU => 5
    | MALI_GRALLOC_PRODUCER_VIDEO_DECODER => 6
    | MALI_GRALLOC_PRODUCER_CAMERA => 7
    end;
  consumer_value := fun c =>
    match c with
    | MALI_GRALLOC_CONSUMER_UNKNOWN => 0
    | MALI_GRALLOC_CONSUMER_CPU => 1
    | MALI_GRALLOC_CONSUMER_GPU_OR_DISPLAY => 2
    | MALI_GRALLOC_CONSUMER_GPU_EXCL => 3
    | MALI_GRALLOC_CONSUMER_DISPLAY_EXCL => 4
    | MALI_GRALLOC_CONSUMER_VIDEO_ENCODER => 5
    end;
  MALI_GRALLOC_FORMAT_CAPABILITY_OPTIONS_PRESENT := 2 ^ 0;
  MALI_GRALLOC_FORMAT_CAPABILITY_AFBC_BASIC := 2 ^ 1;
  MALI_GRALLOC_FORMAT_CAPABILITY_AFBC_SPLITBLK := 2 ^ 2;
  MALI_GRALLOC_FORMAT_CAPABILITY_AFBC_WIDEBLK := 2 ^ 3;
  MALI_GRALLOC_FORMAT_CAPABILITY_AFBC_YUV_NOREAD := 2 ^ 5;
  MALI_GRALLOC_FORMAT_CAPABILITY_AFBC_YUV_NOWRITE := 2 ^ 6;
  MALI_GRALLOC_FORMAT_CAPABILITY_AFBC_TILED_HEADERS := 2 ^ 7;
  MALI_GRALLOC_FORMAT_CAPABILITY_AFBC_MULTIPLANE_READ := 2 ^ 9;
  MALI_GRALLOC_FORMAT_CAPABILITY_AFBC_DOUBLE_BODY := 2 ^ 10;
  MALI_GRALLOC_FORMAT_CAPABILITY_PIXFMT_RGBA1010102 := 2 ^ 32;
  MALI_GRALLOC_FORMAT_CAPABILITY_PIXFMT_RGBA16161616 := 2 ^ 33;
  MALI_GRALLOC_FORMAT_CAPABILITY_AFBCENABLE_MASK := 2 ^ 1;
  MALI_GRALLOC_FORMAT_INTERNAL_RGB_565 := 4;
  MALI_GRALLOC_FORMAT_INTERNAL_RGB_888 := 3;
  MALI_GRALLOC_FORMAT_INTERNAL_RGBA_8888 := 1;
  MALI_GRALLOC_FORMAT_INTERNAL_BGRA_8888 := 5;
  MALI_GRALLOC_FORMAT_INTERNAL_RGBX_8888 := 2;
  MALI_GRALLOC_FORMAT_INTERNAL_RGBA_1010102 := 0x2b;
  MALI_GRALLOC_FORMAT_INTERNAL_RGBA_16161616 := 0x16;
  MALI_GRALLOC_FORMAT_INTERNAL_Y8 := 0x20203859;
  MALI_GRALLOC_FORMAT_INTERNAL_Y16 := 0x20363159;
  MALI_GRALLOC_FORMAT_INTERNAL_YUV420_8BIT_I := 0x108;
  MALI_GRALLOC_FORMAT_INTERNAL_NV12 := 0x100;
  MALI_GRALLOC_FORMAT_INTERNAL_NV21 := 0x101;
  MALI_GRALLOC_FORMAT_INTERNAL_YV12 := 0x32315659;
  MALI_GRALLOC_FORMAT_INTERNAL_YUV420_10BIT_I := 0x109;
  MALI_GRALLOC_FORMAT_INTERNAL_Y0L2 := 0x103;
  MALI_GRALLOC_FORMAT_INTERNAL_P010 := 0x104;
  MALI_GRALLOC_FORMAT_INTERNAL_Y210 := 0x106;
  MALI_GRALLOC_FORMAT_INTERNAL_P210 := 0x105;
  MALI_GRALLOC_FORMAT_INTERNAL_YUV444_10BIT_I := 0x10a;
  MALI_GRALLOC_FORMAT_INTERNAL_Y410 := 0x107;
  MALI_GRALLOC_FORMAT_INTERNAL_RAW16 := 0x20;
  MALI_GRALLOC_FORMAT_INTERNAL_RAW12 := 0x26;
  MALI_GRALLOC_FORMAT_INTERNAL_RAW10 := 0x25;
  MALI_GRALLOC_FORMAT_INTERNAL_BLOB := 0x21;
  MALI_GRALLOC_FORMAT_INTERNAL_YUV422_8BIT := 0x102;
  MALI_GRALLOC_FORMAT_INTERNAL_YUV420_888 := 0x23;
  MALI_GRALLOC_FORMAT_INTERNAL_DEPTH_16 := 0x30;
  MALI_GRALLOC_FORMAT_INTERNAL_DEPTH_24 := 0x31;
  MALI_GRALLOC_FORMAT_INTERNAL_DEPTH_24_STENCIL_8 := 0x32;
  MALI_GRALLOC_FORMAT_INTERNAL_DEPTH_32F := 0x33;
  MALI_GRALLOC_FORMAT_INTERNAL_DEPTH_32F_STENCIL_8 := 0x34;
  MALI_GRALLOC_FORMAT_INTERNAL_STENCIL_8 := 0x35;
  HAL_PIXEL_FORMAT_YV12 := 0x32315659;
  HAL_PIXEL_FORMAT_YCrCb_420_SP := 0x11;
  HAL_PIXEL_FORMAT_YCbCr_422_I := 0x14;
  HAL_PIXEL_FORMAT_YCbCr_422_SP := 0x10;
  HAL_PIXEL_FORMAT_IMPLEMENTATION_DEFINED := 0x22;
  HAL_PIXEL_FORMAT_YCbCr_420_888 := 0x23;
  HAL_PIXEL_FORMAT_YCbCr_422_888 := 0x27;
  HAL_PIXEL_FORMAT_YCbCr_444_888 := 0x28;
  HAL_PIXEL_FORMAT_DEPTH_16 := 0x30;
  HAL_PIXEL_FORMAT_DEPTH_24 := 0x31;
  HAL_PIXEL_FORMAT_DEPTH_24_STENCIL_8 := 0x32;
  HAL_PIXEL_FORMAT_DEPTH_32F := 0x33;
  HAL_PIXEL_FORMAT_DEPTH_32F_STENCIL_8 := 0x34;
  HAL_PIXEL_FORMAT_STENCIL_8 := 0x35;
  GRALLOC_USAGE_SW_READ_OFTEN := 0x6;
  GRALLOC_USAGE_HW_FB := 2 ^ 12;
  GRALLOC_USAGE_PROTECTED := 2 ^ 14;
  GRALLOC_USAGE_HW_RENDER := 2 ^ 9;
  GRALLOC_USAGE_HW_CAMERA_MASK := 2 ^ 17 + 2 ^ 18;
  GRALLOC_USAGE_HW_TEXTURE := 2 ^ 8;
  GRALLOC_USAGE_HW_VIDEO_ENCODER := 2 ^ 16;
  GRALLOC_USAGE_HW_COMPOSER := 2 ^ 11;
  GRALLOC1_PRODUCER_USAGE_PRIVATE_0 := 2 ^ 28;
  GRALLOC1_PRODUCER_USAGE_PRIVATE_1 := 2 ^ 29;
  GRALLOC1_PRODUCER_USAGE_PRIVATE_2 := 2 ^ 30;
  GRALLOC1_PRODUCER_USAGE_PRIVATE_3 := 2 ^ 31;
  GRALLOC1_PRODUCER_USAGE_PRIVATE_18 := 2 ^ 49;
  GRALLOC1_PRODUCER_USAGE_PRIVATE_19 := 2 ^ 48;
  ION_HEAP_TYPE_SYSTEM := 0;
  ION_HEAP_TYPE_SYSTEM_CONTIG := 1;
  ION_HEAP_TYPE_CARVEOUT := 2;
  ION_HEAP_TYPE_DMA := 4;
  ION_HEAP_TYPE_CUSTOM := 5;
  ION_HEAP_TYPE_COMPOUND_PAGE := 7;
  ION_HEAP_ID_FB := 1;
  ION_FLAG_CACHED := 1;
  ION_FLAG_CACHED_NEEDS_SYNC := 2;
  ION_NUM_HEAP_IDS := 32;
  ION_HEAP_SECURE_MASK_defined := false;
  PLATFORM_SDK_VERSION := 28;
  MALI_DISPLAY_VERSION := 0;
  GRALLOC_DISP_W := 0;
  GRALLOC_DISP_H := 0;
  GRALLOC_USE_GRALLOC1_API := true;
  GRALLOC_USE_ION_COMPOUND_PAGE_HEAP := false;
  GRALLOC_USE_ION_DMA_HEAP := false;
  GRALLOC_USE_LEGACY_ION_API := false;
  LP64 := true
|}.

(** mali_gralloc_usages.h *)
Definition GRALLOC_USAGE_PRIVATE_MASK : Z := 0xffff0000f0000000.
Definition GRALLOC_USAGE_SW_WRITE_MASK : Z := 0x000000F0.
Definition GRALLOC_USAGE_SW_READ_MASK : Z := 0x0000000F.
Definition GRALLOC_USAGE_EXTERNAL_DISP : Z := 0x00002000.

Section Usages.
Context {P : Platform}.

Definition MALI_GRALLOC_USAGE_FRONTBUFFER : Z := GRALLOC1_PRODUCER_USAGE_PRIVATE_0.
Definition MALI_GRALLOC_USAGE_FORCE_BACKBUFFER : Z := GRALLOC1_PRODUCER_USAGE_PRIVATE_1.
Definition MALI_GRALLOC_USAGE_NO_AFBC : Z :=
    Z.lor GRALLOC1_PRODUCER_USAGE_PRIVATE_1 GRALLOC1_PRODUCER_USAGE_PRIVATE_2.
Definition MALI_GRALLOC_USAGE_AFBC_PADDING : Z := GRALLOC1_PRODUCER_USAGE_PRIVATE_2.
Definition MALI_GRALLOC_USAGE_PRIVATE_FORMAT : Z := GRALLOC1_PRODUCER_USAGE_PRIVATE_3.
Definition MALI_GRALLOC_USAGE_YUV_CONF_0 : Z := 0.
Definition MALI_GRALLOC_USAGE_YUV_CONF_1 : Z := GRALLOC1_PRODUCER_USAGE_PRIVATE_18.
Definition MALI_GRALLOC_USAGE_YUV_CONF_2 : Z := GRALLOC1_PRODUCER_USAGE_PRIVATE_19.
Definition MALI_GRALLOC_USAGE_YUV_CONF_3 : Z :=
  Z.lor GRALLOC1_PRODUCER_USAGE_PRIVATE_18 GRALLOC1_PRODUCER_USAGE_PRIVATE_19.
Definition MALI_GRALLOC_USAGE_YUV_CONF_MASK : Z := MALI_GRALLOC_USAGE_YUV_CONF_3.

Definition GRALLOC_USAGE_SW_MASK : Z :=
    Z.lor GRALLOC_USAGE_SW_READ_MASK GRALLOC_USAGE_SW_WRITE_MASK.
End Usages.

(** mali_gralloc_buffer.h *)
Definition MAX_PLANES : nat := 3.

(** errno.h and the gralloc1_error_t of hardware/gralloc1.h *)
Definition EINVAL : Z := 22.
Definition GRALLOC1_ERROR_NONE : Z := 0.
Definition GRALLOC1_ERROR_UNSUPPORTED : Z := 7.

(** ** The format catalog (format_info.h, format_info.cpp) *)

Module Catalog.

Record format_info_t : Type := mk_format {
    id : Z;                 (* uint32_t *)
    npln : Z;               (* uint8_t *)
    ncmp : Z;
    bps : Z;
    bpp_afbc : list Z;      (* uint8_t [MAX_PLANES] *)
    bpp : list Z;           (* uint8_t [MAX_PLANES] *)
    hsub : Z;
    vsub : Z;
    tile_size : Z;          (* uint16_t *)
    has_alpha : bool;
    is_yuv : bool;
    afbc : bool;
    linear : bool;
    flex : bool;
    pwa : Z
  }.

  (** An element of a [uint8_t x[MAX_PLANES]] member. *)
Definition at_plane (a : list Z) (plane : nat) : Z := nth plane a 0.

Definition PWA_DEFAULT : Z := 1.

Section Table.
Context {P : Platform}.

Definition formats_rgb : list format_info_t :=
      [ mk_format MALI_GRALLOC_FORMAT_INTERNAL_RGB_565 1 3 6 [16;0;0] [16;0;0] 1 1 1 false false true true false PWA_DEFAULT;
        mk_format MALI_GRALLOC_FORMAT_INTERNAL_RGB_888 1 3 8 [24;0;0] [24;0;0] 1 1 1 false false true true true PWA_DEFAULT;
        mk_format MALI_GRALLOC_FORMAT_INTERNAL_RGBA_8888 1 4 8 [32;0;0] [32;0;0] 1 1 1 true false true true true PWA_DEFAULT;
        mk_format MALI_GRALLOC_FORMAT_INTERNAL_BGRA_8888 1 4 8 [32;0;0] [32;0;0] 1 1 1 true false true true true PWA_DEFAULT;
        mk_format MALI_GRALLOC_FORMAT_INTERNAL_RGBX_8888 1 3 8 [32;0;0] [32;0;0] 1 1 1 false false true true true PWA_DEFAULT ].

    (* #if PLATFORM_SDK_VERSION >= 26 *)
Definition formats_sdk26 : list format_info_t :=
      [ mk_format MALI_GRALLOC_FORMAT_INTERNAL_RGBA_1010102 1 4 10 [32;0;0] [32;0;0] 1 1 1 true false true true false PWA_DEFAULT;
        mk_format MALI_GRALLOC_FORMAT_INTERNAL_RGBA_16161616 1 4 16 [64;0;0] [64;0;0] 1 1 1 true false false true true PWA_DEFAULT ].

Definition formats_yuv : list format_info_t :=
      [ mk_format MALI_GRALLOC_FORMAT_INTERNAL_Y8 1 1 8 [8;0;0] [8;0;0] 2 2 1 false true true true true 16;
        mk_format MALI_GRALLOC_FORMAT_INTERNAL_Y16 1 1 16 [16;0;0] [16;0;0] 2 2 1 false true true true true 16;
        (* 420 (8-bit) *)
        mk_format MALI_GRALLOC_FORMAT_INTERNAL_YUV420_8BIT_I 1 3 8 [12;0;0] [0;0;0] 2 2 1 false true true false false PWA_DEFAULT;
        mk_format MALI_GRALLOC_FORMAT_INTERNAL_NV12 2 3 8 [8;16;0] [8;16;0] 2 2 1 false true true true true PWA_DEFAULT;
        mk_format MALI_GRALLOC_FORMAT_INTERNAL_NV21 2 3 8 [8;16;0] [8;16;0] 2 2 1 false true true true true PWA_DEFAULT;
        mk_format HAL_PIXEL_FORMAT_YCrCb_420_SP 2 3 8 [8;16;0] [8;16;0] 2 2 1 false true true true true PWA_DEFAULT;
        mk_format MALI_GRALLOC_FORMAT_INTERNAL_YV12 3 3 8 [8;8;8] [8;8;8] 2 2 1 false true true true true 16;
        (* 422 (8-bit) *)
        mk_format HAL_PIXEL_FORMAT_YCbCr_422_I 1 3 8 [16;0;0] [16;0;0] 2 1 1 false true true true true PWA_DEFAULT;
        mk_format HAL_PIXEL_FORMAT_YCbCr_422_SP 2 3 8 [8;16;0] [8;16;0] 2 1 1 false true true true true PWA_DEFAULT;
        (* 420 (10-bit) *)
        mk_format MALI_GRALLOC_FORMAT_INTERNAL_YUV420_10BIT_I 1 3 10 [15;0;0] [0;0;0] 2 2 1 false true true false false PWA_DEFAULT;
        mk_format MALI_GRALLOC_FORMAT_INTERNAL_Y0L2 1 4 10 [16;0;0] [16;0;0] 2 2 2 true true false true false PWA_DEFAULT;
        mk_format MALI_GRALLOC_FORMAT_INTERNAL_P010 2 3 10 [10;20;0] [16;32;0] 2 2 1 false true true true true PWA_DEFAULT;
        (* 422 (10-bit) *)
        mk_format MALI_GRALLOC_FORMAT_INTERNAL_Y210 1 3 10 [20;0;0] [32;0;0] 2 1 1 false true true true true PWA_DEFAULT;
        mk_format MALI_GRALLOC_FORMAT_INTERNAL_P210 2 3 10 [10;20;0] [16;32;0] 2 1 1 false true true true true PWA_DEFAULT;
        (* 444 (10-bit) *)
        mk_format MALI_GRALLOC_FORMAT_INTERNAL_YUV444_10BIT_I 1 3 10 [30;0;0] [0;0;0] 1 1 1 false true true false false PWA_DEFAULT;
        mk_format MALI_GRALLOC_FORMAT_INTERNAL_Y410 1 4 10 [32;0;0] [32;0;0] 1 1 1 true true false true false PWA_DEFAULT;
        (* Other *)
        mk_format MALI_GRALLOC_FORMAT_INTERNAL_RAW16 1 1 16 [16;0;0] [16;0;0] 2 2 1 false false false true false 16;
        mk_format MALI_GRALLOC_FORMAT_INTERNAL_RAW12 1 1 12 [12;0;0] [12;0;0] 4 2 1 false false false true false 4;
        mk_format MALI_GRALLOC_FORMAT_INTERNAL_RAW10 1 1 10 [10;0;0] [10;0;0] 4 2 1 false false false true false 4;
        mk_format MALI_GRALLOC_FORMAT_INTERNAL_BLOB 1 1 8 [8;0;0] [8;0;0] 1 1 1 false false false true false PWA_DEFAULT ].

    (* #if PLATFORM_SDK_VERSION >= 28: depth and stencil *)
Definition formats_sdk28 : list format_info_t :=
      [ mk_format HAL_PIXEL_FORMAT_DEPTH_16 1 1 16 [0;0;0] [16;0;0] 1 1 1 false false false true false PWA_DEFAULT;
        mk_format HAL_PIXEL_FORMAT_DEPTH_24 1 1 24 [0;0;0] [24;0;0] 1 1 1 false false false true false PWA_DEFAULT;
        mk_format HAL_PIXEL_FORMAT_DEPTH_24_STENCIL_8 1 2 24 [0;0;0] [32;0;0] 1 1 1 false false false true false PWA_DEFAULT;
        mk_format HAL_PIXEL_FORMAT_DEPTH_32F 1 1 32 [0;0;0] [32;0;0] 1 1 1 false false false true false PWA_DEFAULT;
        mk_format HAL_PIXEL_FORMAT_DEPTH_32F_STENCIL_8 1 2 32 [0;0;0] [40;0;0] 1 1 1 false false false true false PWA_DEFAULT;
        mk_format HAL_PIXEL_FORMAT_STENCIL_8 1 1 8 [0;0;0] [8;0;0] 1 1 1 false false false true false PWA_DEFAULT ].

Definition formats : list format_info_t :=
      formats_rgb
      ++ (if 26 <=? PLATFORM_SDK_VERSION then formats_sdk26 else [])
      ++ formats_yuv
      ++ (if 28 <=? PLATFORM_SDK_VERSION then formats_sdk28 else []).

Definition num_formats : nat := length formats.

    (** [formats[format_idx]]: defined inside the table only. *)
Definition formats_at (format_idx : nat) : option format_info_t :=
      nth_error formats format_idx.

    (** The loop
        [for (format_idx = 0; format_idx < num_formats; format_idx++)
           if (formats[format_idx].id == key) break;]
        started at [format_idx] over the rest [fs] of the table; its value is
        the final [format_idx]. *)
Fixpoint scan_from (fs : list format_info_t) (format_idx : nat) (key : Z) : nat :=
      match fs with
      | [] => format_idx
      | f :: rest =>
          if id f =? key then format_idx else scan_from rest (S format_idx) key
      end.

Definition format_scan (key : Z) : nat := scan_from formats 0 key.

    (** format_info.cpp: the key is compared after a cast to uint32_t, and
        an index that ran off the table is turned into -1. *)
Definition get_format_index (base_format : Z) : Z :=
      let format_idx := format_scan (to_uint32 base_format) in
      if (num_formats <=? format_idx)%nat then -1 else Z.of_nat format_idx.

End Table.

End Catalog.

Import Catalog.

(** ** Format selection (mali_gralloc_formats.cpp) *)

Module Select.

Definition producer_eqb (a b : mali_gralloc_producer_type) : bool :=
  match a, b with
  | MALI_GRALLOC_PRODUCER_UNKNOWN, MALI_GRALLOC_PRODUCER_UNKNOWN
  | MALI_GRALLOC_PRODUCER_CPU, MALI_GRALLOC_PRODUCER_CPU
  | MALI_GRALLOC_PRODUCER_GPU, MALI_GRALLOC_PRODUCER_GPU
  | MALI_GRALLOC_PRODUCER_GPU_OR_DISPLAY, MALI_GRALLOC_PRODUCER_GPU_OR_DISPLAY
  | MALI_GRALLOC_PRODUCER_DISPLAY, MALI_GRALLOC_PRODUCER_DISPLAY
  | MALI_GRALLOC_PRODUCER_DISPLAY_AEU, MALI_GRALLOC_PRODUCER_DISPLAY_AEU
  | MALI_GRALLOC_PRODUCER_VIDEO_DECODER, MALI_GRALLOC_PRODUCER_VIDEO_DECODER
  | MALI_GRALLOC_PRODUCER_CAMERA, MALI_GRALLOC_PRODUCER_CAMERA => true
  | _, _ => false
  end.

Definition consumer_eqb (a b : mali_gralloc_consumer_type) : bool :=
  match a, b with
  | MALI_GRALLOC_CONSUMER_UNKNOWN, MALI_GRALLOC_CONSUMER_UNKNOWN
  | MALI_GRALLOC_CONSUMER_CPU, MALI_GRALLOC_CONSUMER_CPU
  | MALI_GRALLOC_CONSUMER_GPU_OR_DISPLAY, MALI_GRALLOC_CONSUMER_GPU_OR_DISPLAY
  | MALI_GRALLOC_CONSUMER_GPU_EXCL, MALI_GRALLOC_CONSUMER_GPU_EXCL
  | MALI_GRALLOC_CONSUMER_DISPLAY_EXCL, MALI_GRALLOC_CONSUMER_DISPLAY_EXCL
  | MALI_GRALLOC_CONSUMER_VIDEO_ENCODER, MALI_GRALLOC_CONSUMER_VIDEO_ENCODER => true
  | _, _ => false
  end.

(** The capability masks that determine_format_capabilities leaves in the
    four static variables: the [caps_mask] of each hardware block. They are
    probed from the driver libraries at run time, hence an input here. *)
Record runtime_caps : Type := {
  gpu_runtime_caps : Z;
  vpu_runtime_caps : Z;
  dpu_runtime_caps : Z;
  cam_runtime_caps : Z
}.

Definition GRALLOC_AFBC_MIN_SIZE : Z := 75.

(** [x |= bit] under a condition. *)
Definition or_if (c : bool) (x bit : Z) : Z := if c then Z.lor x bit else x.

(** [x &= ~m] on uint64_t. *)
Definition clear (x m : Z) : Z := Z.land x (not64 m).

Section Selection.
Context {P : Platform}.
Variable caps : runtime_caps.

(** The result is an [int]: the uint64_t is converted on return. *)
Definition map_flex_formats (req_format : Z) : Z :=
  let req_format :=
    if (req_format =? HAL_PIXEL_FORMAT_IMPLEMENTATION_DEFINED)
       || (req_format =? HAL_PIXEL_FORMAT_YCbCr_420_888)
    then MALI_GRALLOC_FORMAT_INTERNAL_NV12
    else req_format (* YCbCr_422_888, YCbCr_444_888: to be determined *) in
  let req_format :=
    if req_format =? MALI_GRALLOC_FORMAT_INTERNAL_YUV422_8BIT
    then HAL_PIXEL_FORMAT_YCbCr_422_I
    else req_format in
  to_int32 req_format.

Definition comparable_components (old_format new_format : format_info_t) : bool :=
  if (ncmp new_format =? ncmp old_format)
     && (bps new_format =? bps old_format)
     && Bool.eqb (is_yuv new_format) (is_yuv old_format)
  then true
  else if is_yuv old_format && has_alpha old_format
          && ((ncmp new_format =? 3) && is_yuv new_format && negb (has_alpha new_format))
  then true
  else false.

(** First index of the table that satisfies [p], as the loops with [break]
    find it. *)
Fixpoint find_index (p : format_info_t -> bool) (fs : list format_info_t) (i : nat)
  : option nat :=
  match fs with
  | [] => None
  | f :: rest => if p f then Some i else find_index p rest (S i)
  end.

(** [req_format_mapped] is an [int] here; the table is read at the index
    the scan stopped at, without a bound check. *)
Definition is_afbc_supported (req_format_mapped : Z) : option bool :=
  let format_idx :=
    format_scan (Z.land (to_uint64 req_format_mapped) MALI_GRALLOC_INTFMT_FMT_MASK) in
  do! f <- formats_at format_idx;
  let format_idx :=
    if negb (afbc f)
    then match find_index (fun g => comparable_components f g && afbc g) formats 0 with
         | Some i => i
         | None => format_idx
         end
    else format_idx in
  do! f <- formats_at format_idx;
  Some (afbc f).

(** The table is read at the index the scan stopped at, without a bound
    check. *)
Definition is_android_yuv_format (req_format_mapped : Z) : option bool :=
  let format_idx := format_scan req_format_mapped in
  do! f <- formats_at format_idx;
  Some (is_yuv f).

Definition is_afbc_format (internal_format : Z) : bool :=
  tst internal_format MALI_GRALLOC_FORMAT_CAPABILITY_AFBCENABLE_MASK.

Definition is_subsampled_yuv (base_format : Z) : bool :=
  existsb (Z.eqb base_format)
    [ MALI_GRALLOC_FORMAT_INTERNAL_YV12; HAL_PIXEL_FORMAT_YCrCb_420_SP;
      MALI_GRALLOC_FORMAT_INTERNAL_NV12; MALI_GRALLOC_FORMAT_INTERNAL_NV21;
      HAL_PIXEL_FORMAT_YCbCr_422_I; MALI_GRALLOC_FORMAT_INTERNAL_Y0L2;
      MALI_GRALLOC_FORMAT_INTERNAL_P010; MALI_GRALLOC_FORMAT_INTERNAL_P210;
      MALI_GRALLOC_FORMAT_INTERNAL_Y210; MALI_GRALLOC_FORMAT_INTERNAL_YUV422_8BIT;
      MALI_GRALLOC_FORMAT_INTERNAL_YUV420_888; MALI_GRALLOC_FORMAT_INTERNAL_YUV420_8BIT_I;
      MALI_GRALLOC_FORMAT_INTERNAL_YUV420_10BIT_I; HAL_PIXEL_FORMAT_YCbCr_422_SP ].

Definition is_yuv_format (base_format : Z) : bool :=
  if existsb (Z.eqb base_format)
       [ MALI_GRALLOC_FORMAT_INTERNAL_Y8; MALI_GRALLOC_FORMAT_INTERNAL_Y16;
         MALI_GRALLOC_FORMAT_INTERNAL_Y410 ]
  then true
  else is_subsampled_yuv base_format.

(* #if PLATFORM_SDK_VERSION >= 28 *)
Definition is_depth_or_stencil_format (req_format : Z) : bool :=
  existsb (Z.eqb req_format)
    [ MALI_GRALLOC_FORMAT_INTERNAL_DEPTH_16; MALI_GRALLOC_FORMAT_INTERNAL_DEPTH_24;
      MALI_GRALLOC_FORMAT_INTERNAL_DEPTH_24_STENCIL_8; MALI_GRALLOC_FORMAT_INTERNAL_DEPTH_32F;
      MALI_GRALLOC_FORMAT_INTERNAL_DEPTH_32F_STENCIL_8; MALI_GRALLOC_FORMAT_INTERNAL_STENCIL_8 ].

Definition apply_gpu_producer_limitations (req_format_mapped producer_runtime_mask : Z)
  : option Z :=
  do! yuv <- is_android_yuv_format req_format_mapped;
  if yuv
  then if tst (gpu_runtime_caps caps) MALI_GRALLOC_FORMAT_CAPABILITY_AFBC_YUV_NOWRITE
       then Some (clear producer_runtime_mask MALI_GRALLOC_FORMAT_CAPABILITY_AFBCENABLE_MASK)
       else Some (clear producer_runtime_mask
                    (Z.lor MALI_GRALLOC_FORMAT_CAPABILITY_AFBC_SPLITBLK
                           MALI_GRALLOC_FORMAT_CAPABILITY_AFBC_WIDEBLK))
  else Some producer_runtime_mask.

Definition apply_video_consumer_limitations (req_format_mapped consumer_runtime_mask : Z)
  : option Z :=
  do! yuv <- is_android_yuv_format req_format_mapped;
  if yuv
  then if tst (vpu_runtime_caps caps) MALI_GRALLOC_FORMAT_CAPABILITY_AFBC_YUV_NOREAD
       then Some (clear consumer_runtime_mask MALI_GRALLOC_FORMAT_CAPABILITY_AFBCENABLE_MASK)
       else Some consumer_runtime_mask
  else Some (clear consumer_runtime_mask MALI_GRALLOC_FORMAT_CAPABILITY_AFBCENABLE_MASK).

Definition apply_display_consumer_limitations
  (req_format_mapped buffer_size display_consumer_runtime_mask : Z) : option Z :=
  let afbc_allowed :=
    if (MALI_DISPLAY_VERSION =? 550) || (MALI_DISPLAY_VERSION =? 650)
    then if negb (GRALLOC_DISP_W =? 0) && negb (GRALLOC_DISP_H =? 0)
         then GRALLOC_AFBC_MIN_SIZE
              <=? Z.quot (to_int32 (buffer_size * 100)) (GRALLOC_DISP_W * GRALLOC_DISP_H)
         else true
    else true in
  if negb afbc_allowed
  then Some (clear display_consumer_runtime_mask MALI_GRALLOC_FORMAT_CAPABILITY_AFBCENABLE_MASK)
  else
    do! yuv <- is_android_yuv_format req_format_mapped;
    if yuv
    then Some (clear (clear display_consumer_runtime_mask
                        MALI_GRALLOC_FORMAT_CAPABILITY_AFBC_SPLITBLK)
                     MALI_GRALLOC_FORMAT_CAPABILITY_AFBC_WIDEBLK)
    else if req_format_mapped =? MALI_GRALLOC_FORMAT_INTERNAL_RGB_565
    then Some (clear display_consumer_runtime_mask MALI_GRALLOC_FORMAT_CAPABILITY_AFBC_SPLITBLK)
    else Some display_consumer_runtime_mask.


(** The rejection of the 10-bit and 16-bit RGBA formats that closes every
    producer/consumer case of determine_best_format
    (#if PLATFORM_SDK_VERSION >= 26): [no1010102] and [no16161616] are the
    conditions on the capability masks of that case. *)
Definition reject_unsupported_rgba
  (req_format : Z) (no1010102 no16161616 : bool) (internal_format : Z) : Z :=
  if 26 <=? PLATFORM_SDK_VERSION
  then if (req_format =? MALI_GRALLOC_FORMAT_INTERNAL_RGBA_1010102) && no1010102
       then 0
       else if (req_format =? MALI_GRALLOC_FORMAT_INTERNAL_RGBA_16161616) && no16161616
       then 0
       else internal_format
  else internal_format.

(** [req_format] is an [int]. *)
Definition determine_best_format
  (req_format : Z) (producer : mali_gralloc_producer_type)
  (consumer : mali_gralloc_consumer_type)
  (producer_runtime_mask consumer_runtime_mask : Z) : Z :=
  let internal_format := to_uint64 req_format in
  let dpu_mask := dpu_runtime_caps caps in
  let gpu_mask := gpu_runtime_caps caps in
  let vpu_mask := vpu_runtime_caps caps in
  let has m c := tst m c in
  if producer_eqb producer MALI_GRALLOC_PRODUCER_UNKNOWN
     && consumer_eqb consumer MALI_GRALLOC_CONSUMER_UNKNOWN
  then internal_format
  else if producer_eqb producer MALI_GRALLOC_PRODUCER_UNKNOWN
          || (producer_eqb producer MALI_GRALLOC_PRODUCER_GPU
              && has (gpu_runtime_caps caps) MALI_GRALLOC_FORMAT_CAPABILITY_OPTIONS_PRESENT)
  then
    let gpu_mask := Z.land gpu_mask producer_runtime_mask in
    if consumer_eqb consumer MALI_GRALLOC_CONSUMER_GPU_OR_DISPLAY
    then
      let gpu_mask := Z.land gpu_mask consumer_runtime_mask in
      let dpu_mask := Z.land dpu_mask consumer_runtime_mask in
      let internal_format :=
        or_if (has gpu_mask MALI_GRALLOC_FORMAT_CAPABILITY_AFBC_BASIC
               && has dpu_mask MALI_GRALLOC_FORMAT_CAPABILITY_AFBC_BASIC)
              internal_format MALI_GRALLOC_INTFMT_AFBC_BASIC in
      let internal_format :=
        or_if (has gpu_mask MALI_GRALLOC_FORMAT_CAPABILITY_AFBC_SPLITBLK
               && has dpu_mask MALI_GRALLOC_FORMAT_CAPABILITY_AFBC_SPLITBLK)
              internal_format MALI_GRALLOC_INTFMT_AFBC_SPLITBLK in
      let internal_format :=
        or_if (has gpu_mask MALI_GRALLOC_FORMAT_CAPABILITY_AFBC_WIDEBLK
               && has dpu_mask MALI_GRALLOC_FORMAT_CAPABILITY_AFBC_WIDEBLK)
              internal_format MALI_GRALLOC_INTFMT_AFBC_WIDEBLK in
      let internal_format :=
        or_if (has gpu_mask MALI_GRALLOC_FORMAT_CAPABILITY_AFBC_TILED_HEADERS
               && has dpu_mask MALI_GRALLOC_FORMAT_CAPABILITY_AFBC_TILED_HEADERS)
              internal_format MALI_GRALLOC_INTFMT_AFBC_TILED_HEADERS in
      reject_unsupported_rgba req_format
        (negb (has gpu_mask MALI_GRALLOC_FORMAT_CAPABILITY_PIXFMT_RGBA1010102))
        (negb (has gpu_mask MALI_GRALLOC_FORMAT_CAPABILITY_PIXFMT_RGBA16161616))
        internal_format
    else if consumer_eqb consumer MALI_GRALLOC_CONSUMER_GPU_EXCL
            || consumer_eqb consumer MALI_GRALLOC_CONSUMER_UNKNOWN
    then
      let gpu_mask := Z.land gpu_mask consumer_runtime_mask in
      let internal_format :=
        or_if (has gpu_mask MALI_GRALLOC_FORMAT_CAPABILITY_AFBC_BASIC)
              internal_format MALI_GRALLOC_INTFMT_AFBC_BASIC in
      let internal_format :=
        or_if (has gpu_mask MALI_GRALLOC_FORMAT_CAPABILITY_AFBC_TILED_HEADERS)
              internal_format MALI_GRALLOC_INTFMT_AFBC_TILED_HEADERS in
      reject_unsupported_rgba req_format
        (negb (has gpu_mask MALI_GRALLOC_FORMAT_CAPABILITY_PIXFMT_RGBA1010102))
        (negb (has gpu_mask MALI_GRALLOC_FORMAT_CAPABILITY_PIXFMT_RGBA16161616))
        internal_format
    else if consumer_eqb consumer MALI_GRALLOC_CONSUMER_VIDEO_ENCODER
    then
      let vpu_mask := Z.land vpu_mask consumer_runtime_mask in
      let internal_format :=
        if (internal_format =? HAL_PIXEL_FORMAT_YV12)
           || (internal_format =? MALI_GRALLOC_FORMAT_INTERNAL_NV12)
        then
          let internal_format :=
            or_if (has gpu_mask MALI_GRALLOC_FORMAT_CAPABILITY_AFBC_BASIC
                   && has vpu_mask MALI_GRALLOC_FORMAT_CAPABILITY_AFBC_BASIC)
                  internal_format MALI_GRALLOC_INTFMT_AFBC_BASIC in
          or_if (has gpu_mask MALI_GRALLOC_FORMAT_CAPABILITY_AFBC_TILED_HEADERS
                 && has vpu_mask MALI_GRALLOC_FORMAT_CAPABILITY_AFBC_TILED_HEADERS)
                internal_format MALI_GRALLOC_INTFMT_AFBC_TILED_HEADERS
        else internal_format in
      reject_unsupported_rgba req_format
        (negb (has gpu_mask MALI_GRALLOC_FORMAT_CAPABILITY_PIXFMT_RGBA1010102)
         || negb (has vpu_mask MALI_GRALLOC_FORMAT_CAPABILITY_PIXFMT_RGBA1010102))
        (negb (has gpu_mask MALI_GRALLOC_FORMAT_CAPABILITY_PIXFMT_RGBA16161616)
         || negb (has vpu_mask MALI_GRALLOC_FORMAT_CAPABILITY_PIXFMT_RGBA16161616))
        internal_format
    else internal_format
  else if producer_eqb producer MALI_GRALLOC_PRODUCER_VIDEO_DECODER
          && has (vpu_runtime_caps caps) MALI_GRALLOC_FORMAT_CAPABILITY_OPTIONS_PRESENT
  then
    let vpu_mask := Z.land vpu_mask producer_runtime_mask in
    if consumer_eqb consumer MALI_GRALLOC_CONSUMER_GPU_OR_DISPLAY
    then
      let gpu_mask := Z.land gpu_mask consumer_runtime_mask in
      let dpu_mask := Z.land dpu_mask consumer_runtime_mask in
      let internal_format :=
        if internal_format =? HAL_PIXEL_FORMAT_YV12
        then
          let internal_format :=
            or_if (has vpu_mask MALI_GRALLOC_FORMAT_CAPABILITY_AFBC_BASIC
                   && has gpu_mask MALI_GRALLOC_FORMAT_CAPABILITY_AFBC_BASIC
                   && has dpu_mask MALI_GRALLOC_FORMAT_CAPABILITY_AFBC_BASIC)
                  internal_format MALI_GRALLOC_INTFMT_AFBC_BASIC in
          or_if (has vpu_mask MALI_GRALLOC_FORMAT_CAPABILITY_AFBC_TILED_HEADERS
                 && has gpu_mask MALI_GRALLOC_FORMAT_CAPABILITY_AFBC_TILED_HEADERS
                 && has dpu_mask MALI_GRALLOC_FORMAT_CAPABILITY_AFBC_TILED_HEADERS)
                internal_format MALI_GRALLOC_INTFMT_AFBC_TILED_HEADERS
        else internal_format in
      reject_unsupported_rgba req_format
        (negb (has vpu_mask MALI_GRALLOC_FORMAT_CAPABILITY_PIXFMT_RGBA1010102)
         || negb (has gpu_mask MALI_GRALLOC_FORMAT_CAPABILITY_PIXFMT_RGBA1010102))
        (negb (has vpu_mask MALI_GRALLOC_FORMAT_CAPABILITY_PIXFMT_RGBA16161616)
         || negb (has gpu_mask MALI_GRALLOC_FORMAT_CAPABILITY_PIXFMT_RGBA16161616))
        internal_format
    else if consumer_eqb consumer MALI_GRALLOC_CONSUMER_GPU_EXCL
    then
      let gpu_mask := Z.land gpu_mask consumer_runtime_mask in
      let internal_format :=
        if internal_format =? HAL_PIXEL_FORMAT_YV12
        then
          let internal_format :=
            or_if (has gpu_mask MALI_GRALLOC_FORMAT_CAPABILITY_AFBC_BASIC
                   && has vpu_mask MALI_GRALLOC_FORMAT_CAPABILITY_AFBC_BASIC)
                  internal_format MALI_GRALLOC_INTFMT_AFBC_BASIC in
          or_if (has gpu_mask MALI_GRALLOC_FORMAT_CAPABILITY_AFBC_TILED_HEADERS
                 && has vpu_mask MALI_GRALLOC_FORMAT_CAPABILITY_AFBC_TILED_HEADERS)
                internal_format MALI_GRALLOC_INTFMT_AFBC_TILED_HEADERS
        else internal_format in
      reject_unsupported_rgba req_format
        (negb (has gpu_mask MALI_GRALLOC_FORMAT_CAPABILITY_PIXFMT_RGBA1010102)
         || negb (has vpu_mask MALI_GRALLOC_FORMAT_CAPABILITY_PIXFMT_RGBA1010102))
        (negb (has gpu_mask MALI_GRALLOC_FORMAT_CAPABILITY_PIXFMT_RGBA16161616)
         || negb (has vpu_mask MALI_GRALLOC_FORMAT_CAPABILITY_PIXFMT_RGBA16161616))
        internal_format
    else if consumer_eqb consumer MALI_GRALLOC_CONSUMER_VIDEO_ENCODER
    then
      reject_unsupported_rgba req_format
        (negb (has vpu_mask MALI_GRALLOC_FORMAT_CAPABILITY_PIXFMT_RGBA1010102))
        (negb (has vpu_mask MALI_GRALLOC_FORMAT_CAPABILITY_PIXFMT_RGBA16161616))
        internal_format
    else internal_format
  else if producer_eqb producer MALI_GRALLOC_PRODUCER_CAMERA
          && has (cam_runtime_caps caps) MALI_GRALLOC_FORMAT_CAPABILITY_OPTIONS_PRESENT
  then internal_format (* every consumer: to be decided *)
  else if producer_eqb producer MALI_GRALLOC_PRODUCER_DISPLAY_AEU
          && consumer_eqb consumer MALI_GRALLOC_CONSUMER_DISPLAY_EXCL
          && has (dpu_runtime_caps caps) MALI_GRALLOC_FORMAT_CAPABILITY_OPTIONS_PRESENT
  then
    let dpu_mask := Z.land (Z.land dpu_mask producer_runtime_mask) consumer_runtime_mask in
    if has dpu_mask MALI_GRALLOC_FORMAT_CAPABILITY_AFBC_BASIC
    then
      or_if (has dpu_mask MALI_GRALLOC_FORMAT_CAPABILITY_AFBC_TILED_HEADERS)
            (Z.lor internal_format MALI_GRALLOC_INTFMT_AFBC_BASIC)
            MALI_GRALLOC_INTFMT_AFBC_TILED_HEADERS
    else internal_format
  else internal_format.

(** The base formats that the switch of decode_internal_format accepts. *)
Definition decodable_base_formats : list Z :=
  [ MALI_GRALLOC_FORMAT_INTERNAL_RGBA_8888; MALI_GRALLOC_FORMAT_INTERNAL_RGBX_8888;
    MALI_GRALLOC_FORMAT_INTERNAL_RGB_888; MALI_GRALLOC_FORMAT_INTERNAL_RGB_565;
    MALI_GRALLOC_FORMAT_INTERNAL_BGRA_8888 ]
  ++ (if 26 <=? PLATFORM_SDK_VERSION
      then [ MALI_GRALLOC_FORMAT_INTERNAL_RGBA_1010102;
             MALI_GRALLOC_FORMAT_INTERNAL_RGBA_16161616 ]
      else [])
  ++ [ MALI_GRALLOC_FORMAT_INTERNAL_YV12; MALI_GRALLOC_FORMAT_INTERNAL_Y8;
       MALI_GRALLOC_FORMAT_INTERNAL_Y16; MALI_GRALLOC_FORMAT_INTERNAL_RAW16;
       MALI_GRALLOC_FORMAT_INTERNAL_RAW12; MALI_GRALLOC_FORMAT_INTERNAL_RAW10;
       MALI_GRALLOC_FORMAT_INTERNAL_BLOB; MALI_GRALLOC_FORMAT_INTERNAL_NV12;
       MALI_GRALLOC_FORMAT_INTERNAL_NV21; MALI_GRALLOC_FORMAT_INTERNAL_YUV422_8BIT;
       MALI_GRALLOC_FORMAT_INTERNAL_Y0L2; MALI_GRALLOC_FORMAT_INTERNAL_P010;
       MALI_GRALLOC_FORMAT_INTERNAL_P210; MALI_GRALLOC_FORMAT_INTERNAL_Y210;
       MALI_GRALLOC_FORMAT_INTERNAL_Y410; HAL_PIXEL_FORMAT_YCbCr_422_I;
       HAL_PIXEL_FORMAT_YCrCb_420_SP; HAL_PIXEL_FORMAT_YCbCr_422_SP;
       MALI_GRALLOC_FORMAT_INTERNAL_YUV420_8BIT_I;
       MALI_GRALLOC_FORMAT_INTERNAL_YUV420_10BIT_I;
       MALI_GRALLOC_FORMAT_INTERNAL_YUV444_10BIT_I ]
  ++ (if 28 <=? PLATFORM_SDK_VERSION
      then [ MALI_GRALLOC_FORMAT_INTERNAL_DEPTH_16; MALI_GRALLOC_FORMAT_INTERNAL_DEPTH_24;
             MALI_GRALLOC_FORMAT_INTERNAL_DEPTH_24_STENCIL_8;
             MALI_GRALLOC_FORMAT_INTERNAL_DEPTH_32F;
             MALI_GRALLOC_FORMAT_INTERNAL_DEPTH_32F_STENCIL_8;
             MALI_GRALLOC_FORMAT_INTERNAL_STENCIL_8 ]
      else []).

(** The two enumerators are the only values of [type] here, so the last
    branch of the source (any other value: 0) has no counterpart. *)
Definition decode_internal_format (req_format : Z) (type : mali_gralloc_format_type) : Z :=
  let internal_format :=
    match type with
    | MALI_GRALLOC_FORMAT_TYPE_USAGE =>
        to_uint64 (GRALLOC_PRIVATE_FORMAT_UNWRAP (to_int32 req_format))
    | MALI_GRALLOC_FORMAT_TYPE_INTERNAL => req_format
    end in
  let base_format := Z.land internal_format MALI_GRALLOC_INTFMT_FMT_MASK in
  let mapped_base_format := to_uint64 (map_flex_formats (to_uint32 base_format)) in
  if existsb (Z.eqb mapped_base_format) decodable_base_formats
  then if negb (mapped_base_format =? base_format)
       then Z.lor (Z.land internal_format MALI_GRALLOC_INTFMT_EXT_MASK) mapped_base_format
       else internal_format
  else 0.

Definition all_of (usage bits : Z) : bool := Z.land usage bits =? bits.

Definition determine_producer (usage : Z) : bool * mali_gralloc_producer_type :=
  if tst usage GRALLOC_USAGE_SW_MASK
  then (false, MALI_GRALLOC_PRODUCER_CPU)
  else if all_of usage (Z.lor (Z.lor GRALLOC_USAGE_HW_RENDER GRALLOC_USAGE_HW_COMPOSER)
                              GRALLOC_USAGE_HW_VIDEO_ENCODER)
  then (true, MALI_GRALLOC_PRODUCER_GPU_OR_DISPLAY)
  else if tst usage GRALLOC_USAGE_HW_RENDER
  then (true, MALI_GRALLOC_PRODUCER_GPU)
  else if tst usage GRALLOC_USAGE_HW_CAMERA_MASK
  then (true, MALI_GRALLOC_PRODUCER_CAMERA)
  else if all_of usage (Z.lor (Z.lor GRALLOC_USAGE_HW_TEXTURE GRALLOC_USAGE_HW_COMPOSER)
                              GRALLOC_USAGE_EXTERNAL_DISP)
  then (true, MALI_GRALLOC_PRODUCER_VIDEO_DECODER)
  else if all_of usage (Z.lor GRALLOC_USAGE_HW_COMPOSER GRALLOC_USAGE_HW_VIDEO_ENCODER)
  then (true, MALI_GRALLOC_PRODUCER_DISPLAY)
  else if usage =? GRALLOC_USAGE_HW_COMPOSER
  then (true, MALI_GRALLOC_PRODUCER_DISPLAY_AEU)
  else (true, MALI_GRALLOC_PRODUCER_UNKNOWN).

Definition determine_consumer (usage : Z) : bool * mali_gralloc_consumer_type :=
  if tst usage GRALLOC_USAGE_SW_MASK
  then (false, MALI_GRALLOC_CONSUMER_CPU)
  else if tst usage GRALLOC_USAGE_HW_FB
  then (true, MALI_GRALLOC_CONSUMER_GPU_OR_DISPLAY)
  else if tst usage GRALLOC_USAGE_HW_VIDEO_ENCODER
  then (true, MALI_GRALLOC_CONSUMER_VIDEO_ENCODER)
  else if all_of usage (Z.lor GRALLOC_USAGE_HW_TEXTURE GRALLOC_USAGE_HW_COMPOSER)
          && tst (dpu_runtime_caps caps) MALI_GRALLOC_FORMAT_CAPABILITY_OPTIONS_PRESENT
  then (true, MALI_GRALLOC_CONSUMER_GPU_OR_DISPLAY)
  else if tst usage GRALLOC_USAGE_HW_TEXTURE
  then (true, MALI_GRALLOC_CONSUMER_GPU_EXCL)
  else if usage =? GRALLOC_USAGE_HW_COMPOSER
  then (true, MALI_GRALLOC_CONSUMER_DISPLAY_EXCL)
  else (true, MALI_GRALLOC_CONSUMER_UNKNOWN).

(** The last disjunct of the source compares the consumer with the
    enumerator MALI_GRALLOC_PRODUCER_UNKNOWN: a comparison of the integer
    values. *)
Definition validate_depth_stencil_usage
  (internal_format : Z) (producer : mali_gralloc_producer_type)
  (consumer : mali_gralloc_consumer_type) : Z :=
  if negb (producer_eqb producer MALI_GRALLOC_PRODUCER_GPU
           || producer_eqb producer MALI_GRALLOC_PRODUCER_CPU
           || producer_eqb producer MALI_GRALLOC_PRODUCER_UNKNOWN)
     || negb (consumer_eqb consumer MALI_GRALLOC_CONSUMER_GPU_EXCL
              || consumer_eqb consumer MALI_GRALLOC_CONSUMER_CPU
              || consumer_eqb consumer MALI_GRALLOC_CONSUMER_UNKNOWN)
     || (producer_eqb producer MALI_GRALLOC_PRODUCER_UNKNOWN
         && (consumer_value consumer =? producer_value MALI_GRALLOC_PRODUCER_UNKNOWN))
  then 0
  else internal_format.

(** mali_gralloc_select_format from the call of determine_best_format to
    its end, once the producer, the consumer and the two run-time masks are
    known. *)
Definition select_with_masks
  (req_format_mapped usage : Z) (producer : mali_gralloc_producer_type)
  (consumer : mali_gralloc_consumer_type)
  (producer_runtime_mask consumer_runtime_mask : Z) : Z :=
  let internal_format :=
    determine_best_format (to_int32 req_format_mapped) producer consumer
                          producer_runtime_mask consumer_runtime_mask in
  let internal_format :=
    if existsb (Z.eqb req_format_mapped)
         [ MALI_GRALLOC_FORMAT_INTERNAL_RAW10; MALI_GRALLOC_FORMAT_INTERNAL_RAW12;
           MALI_GRALLOC_FORMAT_INTERNAL_RAW16; MALI_GRALLOC_FORMAT_INTERNAL_Y8;
           MALI_GRALLOC_FORMAT_INTERNAL_Y16 ]
    then if (negb (producer_eqb producer MALI_GRALLOC_PRODUCER_CPU)
             && negb (producer_eqb producer MALI_GRALLOC_PRODUCER_CAMERA)
             && negb (producer_eqb producer MALI_GRALLOC_PRODUCER_UNKNOWN))
            || (negb (consumer_eqb consumer MALI_GRALLOC_CONSUMER_CPU)
                && negb (consumer_eqb consumer MALI_GRALLOC_CONSUMER_UNKNOWN))
         then 0
         else internal_format
    else internal_format in
  let internal_format :=
    if (28 <=? PLATFORM_SDK_VERSION)
       && is_depth_or_stencil_format (to_int32 req_format_mapped)
    then validate_depth_stencil_usage internal_format producer consumer
    else internal_format in
  if tst usage MALI_GRALLOC_USAGE_FRONTBUFFER
  then
    let internal_format :=
      if (producer_eqb producer MALI_GRALLOC_PRODUCER_UNKNOWN
          || producer_eqb producer MALI_GRALLOC_PRODUCER_GPU)
         && (consumer_eqb consumer MALI_GRALLOC_CONSUMER_UNKNOWN
             || consumer_eqb consumer MALI_GRALLOC_CONSUMER_GPU_EXCL)
         && tst (gpu_runtime_caps caps) MALI_GRALLOC_FORMAT_CAPABILITY_AFBC_DOUBLE_BODY
         && (tst internal_format MALI_GRALLOC_INTFMT_AFBC_BASIC
             && tst internal_format MALI_GRALLOC_INTFMT_AFBC_TILED_HEADERS)
      then clear (clear (Z.lor internal_format MALI_GRALLOC_INTFMT_AFBC_DOUBLE_BODY)
                        MALI_GRALLOC_INTFMT_AFBC_WIDEBLK)
                 MALI_GRALLOC_INTFMT_AFBC_EXTRAWIDEBLK
      else internal_format in
    if Z.land internal_format MALI_GRALLOC_INTFMT_AFBC_DOUBLE_BODY =? 0
    then Z.land internal_format MALI_GRALLOC_INTFMT_FMT_MASK
    else internal_format
  else internal_format.

(** [buffer_size] is an [int]; the other integers are uint64_t. The result
    is [None] when a catalog scan read the table out of bounds. *)
Definition mali_gralloc_select_format
  (req_format : Z) (type : mali_gralloc_format_type) (usage buffer_size : Z) : option Z :=
  if tst usage MALI_GRALLOC_USAGE_PRIVATE_FORMAT
     || match type with MALI_GRALLOC_FORMAT_TYPE_INTERNAL => true | _ => false end
  then Some (decode_internal_format req_format type)
  else
    let req_format_mapped :=
      to_uint64 (map_flex_formats (Z.land req_format MALI_GRALLOC_INTFMT_FMT_MASK)) in
    let '(known_producer, producer) := determine_producer usage in
    let '(known_consumer, consumer) := determine_consumer usage in
    if negb known_producer || negb known_consumer
    then Some req_format_mapped
    else
      let producer_runtime_mask := UINT64_MAX in
      let consumer_runtime_mask := UINT64_MAX in
      if all_of usage MALI_GRALLOC_USAGE_NO_AFBC
      then
        do! yuv <- is_android_yuv_format req_format_mapped;
        if yuv
        then Some 0
        else Some (select_with_masks req_format_mapped usage producer consumer
                     (clear producer_runtime_mask MALI_GRALLOC_FORMAT_CAPABILITY_AFBCENABLE_MASK)
                     (clear consumer_runtime_mask MALI_GRALLOC_FORMAT_CAPABILITY_AFBCENABLE_MASK))
      else
        do! supported <- is_afbc_supported (to_int32 req_format_mapped);
        if negb supported
        then Some (select_with_masks req_format_mapped usage producer consumer
                     (clear producer_runtime_mask MALI_GRALLOC_FORMAT_CAPABILITY_AFBCENABLE_MASK)
                     (clear consumer_runtime_mask MALI_GRALLOC_FORMAT_CAPABILITY_AFBCENABLE_MASK))
        else
          do! producer_runtime_mask <-
            (if producer_eqb producer MALI_GRALLOC_PRODUCER_GPU
                || producer_eqb producer MALI_GRALLOC_PRODUCER_GPU_OR_DISPLAY
             then apply_gpu_producer_limitations req_format_mapped producer_runtime_mask
             else Some producer_runtime_mask);
          do! consumer_runtime_mask <-
            (if consumer_eqb consumer MALI_GRALLOC_CONSUMER_VIDEO_ENCODER
             then apply_video_consumer_limitations req_format_mapped consumer_runtime_mask
             else if consumer_eqb consumer MALI_GRALLOC_CONSUMER_GPU_OR_DISPLAY
                     || consumer_eqb consumer MALI_GRALLOC_CONSUMER_DISPLAY_EXCL
             then apply_display_consumer_limitations req_format_mapped buffer_size
                                                     consumer_runtime_mask
             else Some consumer_runtime_mask);
          Some (select_with_masks req_format_mapped usage producer consumer
                  producer_runtime_mask consumer_runtime_mask).

End Selection.

End Select.

Import Select.

(** ** Allocation type and geometry (mali_gralloc_bufferallocation.cpp) *)

Module Geometry.

Definition AFBC_PIXELS_PER_BLOCK : Z := 16.
Definition AFBC_HEADER_BUFFER_BYTES_PER_BLOCKENTRY : Z := 16.

(** AFBC superblock type. *)
Inductive AllocBaseType : Type :=
| UNCOMPRESSED       (* No compression. *)
| AFBC               (* AFBC basic (16x16). *)
| AFBC_WIDEBLK       (* AFBC wide-block (32x8). *)
| AFBC_EXTRAWIDEBLK. (* AFBC extra-wide-block (64x4). *)

Record alloc_type_t : Type := mk_alloc_type {
  primary_type : AllocBaseType;
  is_multi_plane : bool;
  is_tiled : bool;
  is_padded : bool;
  is_frontbuffer_safe : bool
}.

Definition is_afbc (t : alloc_type_t) : bool :=
  match primary_type t with
  | UNCOMPRESSED => false
  | _ => true
  end.

Record rect_t : Type := mk_rect { width : Z; height : Z }.

Record plane_info_t : Type := mk_plane_info {
  offset : Z;        (* uint32_t *)
  byte_stride : Z;   (* uint32_t *)
  alloc_width : Z;   (* uint32_t *)
  alloc_height : Z   (* uint32_t *)
}.

(** Modelled from the spec: GRALLOC_ALIGN of gralloc_helper.h, which is not
    among the sources. The spec has it round a value up to the next multiple
    of the alignment; as a macro over integers that is the expression below,
    evaluated in the type of its operands. *)
Definition GRALLOC_ALIGN (value base : Z) : Z := ((value + base - 1) / base) * base.

(** GRALLOC_ALIGN on unsigned 32-bit operands: every operation wraps, and
    an alignment of zero divides by zero. *)
Definition align_u32 (value base : Z) : option Z :=
  if base =? 0
  then None
  else Some (to_uint32 (to_uint32 (to_uint32 (value + base - 1) / base) * base)).

(** GRALLOC_ALIGN on [int] operands with a positive constant alignment. *)
Definition align_int (value base : Z) : Z :=
  to_int32 (Z.quot (to_int32 (value + base - 1)) base * base).

Definition afbc_buffer_align (is_tiled : bool) (size : Z) : Z :=
  let AFBC_BODY_BUFFER_BYTE_ALIGNMENT := 1024 in
  let buffer_byte_alignment :=
    if is_tiled then 4 * AFBC_BODY_BUFFER_BYTE_ALIGNMENT
    else AFBC_BODY_BUFFER_BYTE_ALIGNMENT in
  align_int size buffer_byte_alignment.

(** Obtain AFBC superblock dimensions from type. *)
Definition get_afbc_sb_size_base (alloc_base_type : AllocBaseType) : rect_t :=
  match alloc_base_type with
  | UNCOMPRESSED => mk_rect 0 0
  | AFBC => mk_rect 16 16
  | AFBC_WIDEBLK => mk_rect 32 8
  | AFBC_EXTRAWIDEBLK => mk_rect 64 4
  end.

(** Obtain AFBC superblock dimensions for specific plane. *)
Definition get_afbc_sb_size (alloc_type : alloc_type_t) (plane : nat) : rect_t :=
  if (0 <? plane)%nat && is_afbc alloc_type && is_multi_plane alloc_type
  then get_afbc_sb_size_base AFBC_EXTRAWIDEBLK
  else get_afbc_sb_size_base (primary_type alloc_type).

Definition max2 (a b : Z) : Z := if b <? a then a else b.
Definition max3 (a b c : Z) : Z := if max2 a b <? c then c else max2 a b.
Definition max4 (a b c d : Z) : Z := if max3 a b c <? d then d else max3 a b c.

Section Geometry.
Context {P : Platform}.

(** The result is [None] when [format_idx] is outside the table, else the
    returned flag and the allocation type written through the pointer. *)
Definition get_alloc_type (internal_format : Z) (format_idx : nat) (usage : Z)
  : option (bool * alloc_type_t) :=
  do! f <- formats_at format_idx;
  let t := mk_alloc_type UNCOMPRESSED (1 <? npln f) false false false in
  if tst internal_format MALI_GRALLOC_INTFMT_AFBCENABLE_MASK
  then
    let primary :=
      if tst internal_format MALI_GRALLOC_INTFMT_AFBC_WIDEBLK then AFBC_WIDEBLK
      else if tst internal_format MALI_GRALLOC_INTFMT_AFBC_EXTRAWIDEBLK then AFBC_EXTRAWIDEBLK
      else AFBC in
    let t := mk_alloc_type primary (is_multi_plane t) false false false in
    let t :=
      if tst internal_format MALI_GRALLOC_INTFMT_AFBC_TILED_HEADERS
      then
        let multi :=
          if (1 <? npln f)
             && (Z.land internal_format MALI_GRALLOC_INTFMT_AFBC_EXTRAWIDEBLK =? 0)
          then false
          else is_multi_plane t in
        mk_alloc_type primary multi true false
          (tst internal_format MALI_GRALLOC_INTFMT_AFBC_DOUBLE_BODY)
      else mk_alloc_type primary false false false false in
    if tst internal_format MALI_GRALLOC_INTFMT_AFBC_EXTRAWIDEBLK && negb (is_tiled t)
    then Some (false, t)
    else if (npln f =? 1)
            && tst internal_format MALI_GRALLOC_INTFMT_AFBC_WIDEBLK
            && tst internal_format MALI_GRALLOC_INTFMT_AFBC_EXTRAWIDEBLK
    then Some (false, t)
    else
      let t :=
        if tst usage MALI_GRALLOC_USAGE_AFBC_PADDING
        then mk_alloc_type (primary_type t) (is_multi_plane t) (is_tiled t) true
                           (is_frontbuffer_safe t)
        else t in
      Some (true, t)
  else Some (true, t).

(** Obtain plane allocation dimensions (in pixels): the new [*width] and
    [*height], both uint32_t. *)
Definition get_pixel_w_h (width height : Z) (format : format_info_t)
  (alloc_type : alloc_type_t) (plane : nat) (has_cpu_usage : bool) : option (Z * Z) :=
  let sb := get_afbc_sb_size alloc_type plane in
  do! width <- align_u32 width (hsub format);
  do! height <- align_u32 height (vsub format);
  (* sub-sample (sub-sampled) planes *)
  do! width <- (if (0 <? plane)%nat
                then if hsub format =? 0 then None else Some (width / hsub format)
                else Some width);
  do! height <- (if (0 <? plane)%nat
                 then if vsub format =? 0 then None else Some (height / vsub format)
                 else Some height);
  let pixel_align_w :=
    if has_cpu_usage
    then pwa format
    else if is_afbc alloc_type
    then
      let HEADER_STRIDE_ALIGN_IN_SUPER_BLOCKS := 0 in
      let num_sb_align := if is_padded alloc_type && negb (is_yuv format) then 4 else 0 in
      max2 HEADER_STRIDE_ALIGN_IN_SUPER_BLOCKS num_sb_align * Geometry.width sb
    else 0 in
  let afbc_tile :=
    if is_tiled alloc_type
    then mk_rect
           (to_uint16 (if 32 <? at_plane (bpp_afbc format) plane
                       then 4 * Geometry.width sb else 8 * Geometry.width sb))
           (to_uint16 (if 32 <? at_plane (bpp_afbc format) plane
                       then 4 * Geometry.height sb else 8 * Geometry.height sb))
    else sb in
  do! width <- align_u32 width
                 (to_uint32 (max4 1 pixel_align_w (tile_size format) (Geometry.width afbc_tile)));
  do! height <- align_u32 height
                  (to_uint32 (max3 1 (tile_size format) (Geometry.height afbc_tile)));
  Some (width, height).

(** The loop [while (b != 0) { r = a % b; a = b; b = r; }]: [b] decreases
    at every turn, so [fuel] turns are enough when [b < fuel]. *)
Fixpoint gcd_loop (fuel : nat) (a b : Z) : Z :=
  match fuel with
  | O => a
  | S fuel' => if b =? 0 then a else gcd_loop fuel' b (a mod b)
  end.

Definition gcd (a b : Z) : Z :=
  if a =? b
  then a
  else
    let '(a, b) := if a <? b then (b, a) else (a, b) in
    gcd_loop (S (Z.to_nat b)) a b.

(** [max] is the overload on [int]: both operands are converted. *)
Definition lcm (a b : Z) : Z :=
  if negb (a =? 0) && negb (b =? 0)
  then to_uint32 (a * b) / gcd a b
  else to_uint32 (max2 (to_int32 a) (to_int32 b)).

(** The new [*byte_stride]. *)
Definition update_yv12_stride (plane : nat) (luma_stride stride_align byte_stride : Z)
  : option Z :=
  match plane with
  | O => align_u32 luma_stride (to_uint32 (2 * stride_align))
  | S _ => Some (luma_stride / 2)
  end.

(** The condition of the first assertion of update_yv12_stride,
    the stride equals GRALLOC_ALIGN of itself to stride_align. *)
Definition update_yv12_stride_assert_aligned (byte_stride stride_align : Z) : option bool :=
  do! a <- align_u32 byte_stride stride_align;
  Some (byte_stride =? a).

(** The condition of the second assertion, written [byte_stride & 15 == 0]
    on the dereferenced stride: [==] binds tighter than [&] in C, so it is
    [byte_stride & (15 == 0)], an integer that [assert] compares with zero. *)
Definition update_yv12_stride_assert_16 (byte_stride : Z) : Z :=
  Z.land byte_stride (Z.b2z (15 =? 0)).

Definition c_true (condition : Z) : bool := negb (condition =? 0).

Definition get_plane (plane_info : list plane_info_t) (plane : nat) : plane_info_t :=
  nth plane plane_info (mk_plane_info 0 0 0 0).

Fixpoint set_plane (plane_info : list plane_info_t) (plane : nat) (v : plane_info_t)
  : list plane_info_t :=
  match plane_info, plane with
  | [], _ => []
  | _ :: rest, O => v :: rest
  | p :: rest, S n => p :: set_plane rest n v
  end.

(** "Calculate byte stride (per plane)": the new [plane_info], after the
    stride of [plane] is stored. *)
Definition calc_byte_stride (alloc_type : alloc_type_t) (format : format_info_t)
  (has_cpu_usage has_hw_usage : bool) (plane : nat) (alloc_width : Z)
  (plane_info : list plane_info_t) : option (list plane_info_t) :=
  let store stride pi :=
    set_plane pi plane
      (mk_plane_info (offset (get_plane pi plane)) stride
                     (alloc_width) (alloc_height (get_plane pi plane))) in
  if is_afbc alloc_type
  then Some (store (to_uint32 (alloc_width * at_plane (bpp_afbc format) plane) / 8) plane_info)
  else
    let plane_info :=
      store (to_uint32 (alloc_width * at_plane (bpp format) plane) / 8) plane_info in
    let hw_align := if has_hw_usage then (if is_yuv format then 128 else 64) else 0 in
    let cpu_align :=
      if has_cpu_usage
      then to_uint32 (Z.quot (at_plane (bpp format) plane * pwa format) 8)
      else 0 in
    let stride_align := lcm hw_align cpu_align in
    do! stride <- align_u32 (byte_stride (get_plane plane_info plane)) stride_align;
    let plane_info := store stride plane_info in
    if (id format =? MALI_GRALLOC_FORMAT_INTERNAL_YV12) && has_hw_usage && has_cpu_usage
    then
      do! stride <- update_yv12_stride plane (byte_stride (get_plane plane_info 0))
                                       stride_align
                                       (byte_stride (get_plane plane_info plane));
      Some (store stride plane_info)
    else Some plane_info.

(** "Calculate body size (per plane)", an [int]. *)
Definition calc_body_size (alloc_type : alloc_type_t) (format : format_info_t)
  (plane : nat) (sb_num : Z) (p : plane_info_t) : Z :=
  if is_afbc alloc_type
  then
    let sb := get_afbc_sb_size alloc_type plane in
    let sb_bytes :=
      align_int (Z.quot (at_plane (bpp_afbc format) plane * width sb * height sb) 8) 128 in
    let body_size := to_int32 (to_uint32 (sb_num * to_uint32 sb_bytes)) in
    let body_size :=
      if (1 <? npln format) && (plane <? 2)%nat
      then afbc_buffer_align (is_tiled alloc_type) body_size
      else body_size in
    if is_frontbuffer_safe alloc_type
    then
      let back_buffer_size := afbc_buffer_align (is_tiled alloc_type) body_size in
      to_int32 (body_size + back_buffer_size)
    else body_size
  else to_int32 (to_uint32 (byte_stride p * alloc_height p)).

(** "Calculate header size (per plane)", an [int]. *)
Definition calc_header_size (alloc_type : alloc_type_t) (sb_num : Z) : Z :=
  if is_afbc alloc_type
  then afbc_buffer_align (is_tiled alloc_type)
         (to_int32 (to_uint32 (sb_num * AFBC_HEADER_BUFFER_BYTES_PER_BLOCKENTRY)))
  else 0.

(** Conversion to size_t. *)
Definition to_size_t (x : Z) : Z := wrap (if LP64 then 64 else 32) x.

(** The state of the loop of calc_allocation_size: what [*pixel_stride],
    [*size] and [plane_info] hold. *)
Record calc_state : Type := mk_calc {
  calc_pixel_stride : Z;
  calc_size : Z;
  calc_plane_info : list plane_info_t
}.

(** One turn of the loop over the planes. *)
Definition calc_plane (width height : Z) (alloc_type : alloc_type_t)
  (format : format_info_t) (has_cpu_usage has_hw_usage : bool)
  (st : calc_state) (plane : nat) : option calc_state :=
  if (MAX_PLANES <=? plane)%nat
  then None
  else
    let plane_info := calc_plane_info st in
    do! wh <- get_pixel_w_h (to_uint32 width) (to_uint32 height) format alloc_type plane
                            has_cpu_usage;
    let '(w, h) := wh in
    let plane_info :=
      set_plane plane_info plane
        (mk_plane_info (offset (get_plane plane_info plane))
                       (byte_stride (get_plane plane_info plane)) w h) in
    do! plane_info <- calc_byte_stride alloc_type format has_cpu_usage has_hw_usage
                                       plane w plane_info;
    let p := get_plane plane_info plane in
    do! pixel_stride <-
      (match plane with
       | O =>
           if negb (is_afbc alloc_type) && has_cpu_usage
           then if at_plane (bpp format) plane =? 0
                then None
                else Some (to_int32 (to_uint32 (byte_stride p * 8) / at_plane (bpp format) plane))
           else Some 0
       | S _ => Some (calc_pixel_stride st)
       end);
    let sb_num :=
      to_uint32 (alloc_width p * alloc_height p)
      / (AFBC_PIXELS_PER_BLOCK * AFBC_PIXELS_PER_BLOCK) in
    let body_size := calc_body_size alloc_type format plane sb_num p in
    let header_size := calc_header_size alloc_type sb_num in
    let plane_info :=
      match plane with
      | O => plane_info
      | S _ =>
          set_plane plane_info plane
            (mk_plane_info (to_uint32 (calc_size st)) (byte_stride p)
                           (alloc_width p) (alloc_height p))
      end in
    Some (mk_calc pixel_stride
                  (to_size_t (calc_size st + to_int32 (body_size + header_size)))
                  plane_info).

Fixpoint calc_planes (width height : Z) (alloc_type : alloc_type_t)
  (format : format_info_t) (has_cpu_usage has_hw_usage : bool)
  (planes : list nat) (st : calc_state) : option calc_state :=
  match planes with
  | [] => Some st
  | plane :: rest =>
      do! st <- calc_plane width height alloc_type format has_cpu_usage has_hw_usage st plane;
      calc_planes width height alloc_type format has_cpu_usage has_hw_usage rest st
  end.

(** [width] and [height] are [int]; [pixel_stride] and [plane_info] are
    what the output locations hold on entry. *)
Definition calc_allocation_size (width height : Z) (alloc_type : alloc_type_t)
  (format : format_info_t) (has_cpu_usage has_hw_usage : bool)
  (pixel_stride : Z) (plane_info : list plane_info_t) : option calc_state :=
  let plane_info :=
    set_plane plane_info 0
      (mk_plane_info 0 (byte_stride (get_plane plane_info 0))
                     (alloc_width (get_plane plane_info 0))
                     (alloc_height (get_plane plane_info 0))) in
  calc_planes width height alloc_type format has_cpu_usage has_hw_usage
              (seq 0 (Z.to_nat (npln format)))
              (mk_calc pixel_stride 0 plane_info).

(** Validate selected format against requested: [height] is the height of
    the buffer descriptor. *)
Definition validate_format (format : format_info_t) (alloc_type : alloc_type_t)
  (height : Z) : bool :=
  if (if is_afbc alloc_type
      then negb (afbc format)
           || ((npln format =? 1) && is_multi_plane alloc_type)
           || ((1 <? npln format) && negb (is_multi_plane alloc_type))
      else negb (linear format))
  then false
  else if (id format =? MALI_GRALLOC_FORMAT_INTERNAL_BLOB) && negb (height =? 1)
  then false
  else true.

End Geometry.

End Geometry.

Import Geometry.

(** ** Single-plane fallback and dimension adjustment (mali_gralloc_formats.cpp) *)

Module Fallback.

Section Fallback.
Context {P : Platform}.
Variable caps : runtime_caps.

(** The returned flag and the new [*format_idx]; [None] when the table is
    read outside its bounds. *)
Definition convert_yuv_to_afbc_single_plane (format_idx : nat) : option (bool * nat) :=
  do! f <- formats_at format_idx;
  let rval := false in
  if negb (is_yuv f)
  then Some (rval, format_idx)
  else if (npln f =? 1) && afbc f
  then Some (true, format_idx)
  else
    match find_index
            (fun g => (npln g =? 1) && afbc g && (bps g =? bps f)
                      && (hsub g =? hsub f) && (vsub g =? vsub f)
                      && Bool.eqb (is_yuv g) (is_yuv f)
                      && comparable_components f g)
            formats 0 with
    | Some i => Some (true, i)
    | None => Some (rval, format_idx)
    end.

(** The returned flag and the new [*format_idx]. In the branch of a failed
    conversion the source declares a new variable, [bool res = false;],
    inside the block: the [res] that is returned is not assigned. *)
Definition afbc_format_fallback (format_idx : nat) (usage : Z) (force : bool)
  : option (bool * nat) :=
  let res := true in
  let '(_, producer) := determine_producer usage in
  let '(_, consumer) := determine_consumer caps usage in
  let producer_mp_support := producer_eqb producer MALI_GRALLOC_PRODUCER_UNKNOWN in
  let consumer_mp_support :=
    consumer_eqb consumer MALI_GRALLOC_CONSUMER_UNKNOWN
    || consumer_eqb consumer MALI_GRALLOC_CONSUMER_GPU_EXCL in
  let is_multiplane_supported :=
    producer_mp_support && consumer_mp_support
    && tst (gpu_runtime_caps caps) MALI_GRALLOC_FORMAT_CAPABILITY_AFBC_MULTIPLANE_READ in
  if force || negb is_multiplane_supported
  then
    do! f <- formats_at format_idx;
    if (1 <? npln f) || negb (afbc f)
    then
      do! converted <- convert_yuv_to_afbc_single_plane format_idx;
      let '(found, new_idx) := converted in
      if found
      then Some (res, new_idx)
      else
        let res_of_inner_block := false in
        Some (res, new_idx)
    else Some (res, format_idx)
  else Some (res, format_idx).

(** The new [*width] and [*height], both [int]. *)
Definition mali_gralloc_adjust_dimensions (internal_format usage width height : Z)
  : Z * Z :=
  let '(_, producer) := determine_producer usage in
  let height :=
    if producer_eqb producer MALI_GRALLOC_PRODUCER_VIDEO_DECODER
       && tst internal_format MALI_GRALLOC_INTFMT_AFBC_BASIC
       && existsb (Z.eqb (Z.land internal_format MALI_GRALLOC_INTFMT_FMT_MASK))
            [ MALI_GRALLOC_FORMAT_INTERNAL_YUV420_8BIT_I; HAL_PIXEL_FORMAT_YCrCb_420_SP;
              MALI_GRALLOC_FORMAT_INTERNAL_NV12; MALI_GRALLOC_FORMAT_INTERNAL_NV21;
              MALI_GRALLOC_FORMAT_INTERNAL_YV12; MALI_GRALLOC_FORMAT_INTERNAL_YUV420_10BIT_I;
              MALI_GRALLOC_FORMAT_INTERNAL_Y0L2 ]
    then to_int32 (height + 16)
    else height in
  if (producer_eqb producer MALI_GRALLOC_PRODUCER_GPU
      || producer_eqb producer MALI_GRALLOC_PRODUCER_GPU_OR_DISPLAY)
     && tst internal_format MALI_GRALLOC_INTFMT_AFBC_BASIC
  then (align_int width 16, align_int height 16)
  else (width, height).

End Fallback.

End Fallback.

(** ** Buffer descriptors and handles
      (mali_gralloc_bufferdescriptor.h, mali_gralloc_buffer.h) *)

Module Descriptor.

Record buffer_descriptor_t : Type := mk_descriptor {
  width : Z;
  height : Z;
  producer_usage : Z;    (* uint64_t *)
  consumer_usage : Z;    (* uint64_t *)
  hal_format : Z;        (* uint64_t *)
  layer_count : Z;       (* uint32_t *)
  format_type : mali_gralloc_format_type;
  size : Z;              (* size_t *)
  pixel_stride : Z;      (* int *)
  old_byte_stride : Z;   (* int *)
  old_alloc_width : Z;   (* int *)
  old_alloc_height : Z;  (* int *)
  internal_format : Z;   (* uint64_t *)
  alloc_format : Z;      (* uint64_t *)
  plane_info : list plane_info_t
}.

Definition usage (d : buffer_descriptor_t) : Z :=
  Z.lor (producer_usage d) (consumer_usage d).

End Descriptor.

Module Handle.

Definition PRIV_FLAGS_FRAMEBUFFER : Z := 0x00000001.
Definition PRIV_FLAGS_USES_ION_COMPOUND_HEAP : Z := 0x00000002.
Definition PRIV_FLAGS_USES_ION : Z := 0x00000004.
Definition PRIV_FLAGS_USES_ION_DMA_HEAP : Z := 0x00000008.

Definition sNumFds : Z := 2.
Definition sMagic : Z := 0x3141592.

(** Pointers are addresses; NULL is 0 and MAP_FAILED is (void * )-1. *)
Definition NULL : Z := 0.
Definition MAP_FAILED : Z := -1.

Inductive mali_gralloc_yuv_info : Type :=
| MALI_YUV_NO_INFO
| MALI_YUV_BT601_NARROW
| MALI_YUV_BT601_WIDE
| MALI_YUV_BT709_NARROW
| MALI_YUV_BT709_WIDE.

Record private_handle_t : Type := mk_handle {
  (* native_handle *)
  version : Z;
  numFds : Z;
  numInts : Z;
  share_fd : Z;
  share_attr_fd : Z;
  magic : Z;
  flags : Z;
  width : Z;
  height : Z;
  req_format : Z;
  producer_usage : Z;
  consumer_usage : Z;
  internal_format : Z;
  stride : Z;
  byte_stride : Z;
  internalWidth : Z;
  internalHeight : Z;
  alloc_format : Z;
  plane_info : list plane_info_t;
  size : Z;                  (* int *)
  layer_count : Z;
  base : Z;                  (* void * *)
  backing_store_id : Z;
  backing_store_size : Z;    (* int *)
  writeOwner : Z;
  allocating_pid : Z;
  remote_pid : Z;
  ref_count : Z;
  attr_base : Z;
  yuv_info : mali_gralloc_yuv_info;
  fd : Z;
  offset : Z;
  min_pgsz : Z
}.

(** sizeof(native_handle) and NUM_INTS_IN_PRIVATE_HANDLE depend on the
    layout of the structures: an input of the model. *)
Record layout : Type := {
  sizeof_native_handle : Z;
  NUM_INTS_IN_PRIVATE_HANDLE : Z
}.

(** The second constructor of private_handle_t, used for ION buffers. The
    parameters [_size], [_req_format], [_width], [_height], [_stride],
    [_internal_width], [_internal_height], [_byte_stride] and
    [_backing_store_size] are [int], [_layer_count] is stored in a uint32_t;
    [pid] is what getpid() returns. *)
Definition new_private_handle_t (L : layout) (pid : Z)
  (_flags _size _min_pgsz _consumer_usage _producer_usage _shared_fd _req_format
   _internal_format _alloc_format _width _height _stride _internal_width
   _internal_height _byte_stride _backing_store_size _layer_count : Z)
  (_plane_info : list plane_info_t) : private_handle_t :=
  {| version := sizeof_native_handle L;
     numFds := sNumFds;
     numInts := NUM_INTS_IN_PRIVATE_HANDLE L;
     share_fd := _shared_fd;
     share_attr_fd := -1;
     magic := sMagic;
     flags := to_int32 _flags;
     width := to_int32 _width;
     height := to_int32 _height;
     req_format := to_int32 _req_format;
     producer_usage := _producer_usage;
     consumer_usage := _consumer_usage;
     internal_format := _internal_format;
     stride := to_int32 _stride;
     byte_stride := to_int32 _byte_stride;
     internalWidth := to_int32 _internal_width;
     internalHeight := to_int32 _internal_height;
     alloc_format := _alloc_format;
     plane_info := firstn MAX_PLANES _plane_info;
     size := to_int32 _size;
     layer_count := to_uint32 _layer_count;
     base := NULL;
     backing_store_id := 0;
     backing_store_size := to_int32 _backing_store_size;
     writeOwner := 0;
     allocating_pid := pid;
     remote_pid := -1;
     ref_count := 1;
     attr_base := MAP_FAILED;
     yuv_info := MALI_YUV_NO_INFO;
     fd := -1;
     offset := 0;
     min_pgsz := _min_pgsz |}.

Definition set_base (h : private_handle_t) (v : Z) : private_handle_t :=
  {| version := version h; numFds := numFds h; numInts := numInts h;
     share_fd := share_fd h; share_attr_fd := share_attr_fd h; magic := magic h;
     flags := flags h; width := width h; height := height h;
     req_format := req_format h; producer_usage := producer_usage h;
     consumer_usage := consumer_usage h; internal_format := internal_format h;
     stride := stride h; byte_stride := byte_stride h;
     internalWidth := internalWidth h; internalHeight := internalHeight h;
     alloc_format := alloc_format h; plane_info := plane_info h; size := size h;
     layer_count := layer_count h; base := v;
     backing_store_id := backing_store_id h;
     backing_store_size := backing_store_size h; writeOwner := writeOwner h;
     allocating_pid := allocating_pid h; remote_pid := remote_pid h;
     ref_count := ref_count h; attr_base := attr_base h; yuv_info := yuv_info h;
     fd := fd h; offset := offset h; min_pgsz := min_pgsz h |}.

Definition set_writeOwner (h : private_handle_t) (v : Z) : private_handle_t :=
  {| version := version h; numFds := numFds h; numInts := numInts h;
     share_fd := share_fd h; share_attr_fd := share_attr_fd h; magic := magic h;
     flags := flags h; width := width h; height := height h;
     req_format := req_format h; producer_usage := producer_usage h;
     consumer_usage := consumer_usage h; internal_format := internal_format h;
     stride := stride h; byte_stride := byte_stride h;
     internalWidth := internalWidth h; internalHeight := internalHeight h;
     alloc_format := alloc_format h; plane_info := plane_info h; size := size h;
     layer_count := layer_count h; base := base h;
     backing_store_id := backing_store_id h;
     backing_store_size := backing_store_size h; writeOwner := v;
     allocating_pid := allocating_pid h; remote_pid := remote_pid h;
     ref_count := ref_count h; attr_base := attr_base h; yuv_info := yuv_info h;
     fd := fd h; offset := offset h; min_pgsz := min_pgsz h |}.

Definition set_identity (h : private_handle_t) (info : mali_gralloc_yuv_info)
  (store_id : Z) : private_handle_t :=
  {| version := version h; numFds := numFds h; numInts := numInts h;
     share_fd := share_fd h; share_attr_fd := share_attr_fd h; magic := magic h;
     flags := flags h; width := width h; height := height h;
     req_format := req_format h; producer_usage := producer_usage h;
     consumer_usage := consumer_usage h; internal_format := internal_format h;
     stride := stride h; byte_stride := byte_stride h;
     internalWidth := internalWidth h; internalHeight := internalHeight h;
     alloc_format := alloc_format h; plane_info := plane_info h; size := size h;
     layer_count := layer_count h; base := base h;
     backing_store_id := store_id;
     backing_store_size := backing_store_size h; writeOwner := writeOwner h;
     allocating_pid := allocating_pid h; remote_pid := remote_pid h;
     ref_count := ref_count h; attr_base := attr_base h; yuv_info := info;
     fd := fd h; offset := offset h; min_pgsz := min_pgsz h |}.

(** memset((void * )hnd, 0, sizeof( *hnd)) *)
Definition zeroed : private_handle_t :=
  {| version := 0; numFds := 0; numInts := 0; share_fd := 0; share_attr_fd := 0;
     magic := 0; flags := 0; width := 0; height := 0; req_format := 0;
     producer_usage := 0; consumer_usage := 0; internal_format := 0; stride := 0;
     byte_stride := 0; internalWidth := 0; internalHeight := 0; alloc_format := 0;
     plane_info := repeat (mk_plane_info 0 0 0 0) MAX_PLANES; size := 0;
     layer_count := 0; base := 0; backing_store_id := 0; backing_store_size := 0;
     writeOwner := 0; allocating_pid := 0; remote_pid := 0; ref_count := 0;
     attr_base := 0; yuv_info := MALI_YUV_NO_INFO; fd := 0; offset := 0;
     min_pgsz := 0 |}.

(** private_handle_t::validate on a buffer_handle_t; [None] is the null
    pointer. The result is 0 or -EINVAL. *)
Definition validate (L : layout) (h : option private_handle_t) : Z :=
  match h with
  | None => - EINVAL
  | Some hnd =>
      if negb (version hnd =? sizeof_native_handle L)
         || negb (numInts hnd =? NUM_INTS_IN_PRIVATE_HANDLE L)
         || negb (numFds hnd =? sNumFds)
         || negb (magic hnd =? sMagic)
      then - EINVAL
      else 0
  end.

Definition is_multi_plane (h : private_handle_t) : bool :=
  negb (Geometry.byte_stride (get_plane (plane_info h) 1) =? 0).

End Handle.

(** ** ION backing store (mali_gralloc_ion.cpp) *)

Module Ion.

Import String Handle.

Definition SZ_4K : Z := 0x00001000.
Definition SZ_2M : Z := 0x00200000.

Record ion_heap_data : Type := mk_heap {
  name : String.string;
  type : Z;
  heap_id : Z
}.

(** The members of private_module_t that the allocator reads and writes.
    [heap_info] is an array of ION_NUM_HEAP_IDS elements that starts out
    zeroed: an element past the end of the list is [zero_heap]. *)
Record mali_gralloc_module : Type := mk_module {
  ion_client : Z;
  use_legacy_ion : bool;
  secure_heap_exists : bool;
  heap_cnt : Z;
  heap_info : list ion_heap_data
}.

Definition zero_heap : ion_heap_data := mk_heap String.EmptyString 0 0.

(** What the process asked of the kernel, the latest request first. *)
Inductive event : Type :=
| ION_ALLOC (size heap_mask flags : Z) (shared_fd : option Z)
| DUP (oldfd newfd : Z)
| CLOSE (fd : Z)
| MMAP (length fd addr : Z)
| MUNMAP (addr length : Z).

Definition trace : Type := list event.

(** The requests for backing memory that the kernel granted. *)
Definition is_backing_allocation (e : event) : bool :=
  match e with
  | ION_ALLOC _ _ _ (Some _) => true
  | _ => false
  end.

Definition backing_allocations (t : trace) : list event := filter is_backing_allocation t.

(** The size asked for by a request for backing memory. *)
Definition requested_size (e : event) : option Z :=
  match e with
  | ION_ALLOC size _ _ _ => Some size
  | _ => None
  end.

(** Every request of [new] asks for [size] bytes of backing memory. *)
Definition asks_for (size : Z) (new : trace) : Prop :=
  Forall (fun e => requested_size e = Some size) new.

(** The kernel and libion, as far as the allocator observes them: the
    answer to a request is a function of the requests made so far.
    ion_alloc_fd answers with a descriptor (it returns 0) or fails (it
    returns a negative value). *)
Record kernel : Type := {
  ion_open : trace -> Z;
  ion_is_legacy : trace -> Z;
  ion_query_heap_cnt : trace -> Z * Z;
  ion_query_get_heaps : trace -> Z -> Z * list ion_heap_data;
  ion_alloc_fd : trace -> Z -> Z -> Z -> option Z;
  dup : trace -> Z -> Z;
  mmap : trace -> Z -> Z -> Z;
  getpid : Z
}.

Definition HEAP_MASK_FROM_ID (id : Z) : Z := Z.shiftl 1 id.
Definition HEAP_MASK_FROM_TYPE (type : Z) : Z := Z.shiftl 1 type.

Definition ION_HEAP_TYPE_INVALID : Z := Z.lnot 0.

(** Replace element [i] of an array of handles. *)
Fixpoint set_handle {A : Type} (l : list A) (i : nat) (v : A) : list A :=
  match l, i with
  | [], _ => []
  | _ :: rest, O => v :: rest
  | x :: rest, S n => x :: set_handle rest n v
  end.

Section Ion.
Context {P : Platform}.
Variable K : kernel.
Variable L : layout.

Definition ION_HEAP_TYPE_SECURE : Z := ION_HEAP_TYPE_CUSTOM + 1.

(** The out-parameters are pointers: [None] is a null pointer, [Some v] a
    location that holds [v]. The result is what the two locations hold
    afterwards. *)
Definition set_ion_flags (heap_type usage : Z) (priv_heap_flag ion_flags : option Z)
  : option Z * option Z :=
  let priv_heap_flag :=
    match priv_heap_flag with
    | Some v =>
        if GRALLOC_USE_ION_DMA_HEAP && (heap_type =? ION_HEAP_TYPE_DMA)
        then Some PRIV_FLAGS_USES_ION_DMA_HEAP
        else Some v
    | None => None
    end in
  let ion_flags :=
    match ion_flags with
    | Some v =>
        if (negb GRALLOC_USE_ION_DMA_HEAP || negb (heap_type =? ION_HEAP_TYPE_DMA))
           && (Z.land usage GRALLOC_USAGE_SW_READ_MASK =? GRALLOC_USAGE_SW_READ_OFTEN)
        then Some (Z.lor ION_FLAG_CACHED ION_FLAG_CACHED_NEEDS_SYNC)
        else Some v
    | None => None
    end in
  (priv_heap_flag, ion_flags).

(** The state of the two do-while loops of alloc_from_ion_heap. *)
Record attempt : Type := mk_attempt {
  ret : Z;
  shared_fd : Z;
  system_heap_exist : bool;
  requests : trace
}.

(** [do { ... i++; } while ((ret < 0) && (i < m->heap_cnt));] over the
    enumerated heaps, asking every heap of type [heap_type] in turn. The
    index grows at every turn, so [heap_cnt] further turns are enough. *)
Fixpoint try_heaps (m : mali_gralloc_module) (heap_type size flags : Z)
  (fuel i : nat) (a : attempt) : attempt :=
  let h := nth i (heap_info m) zero_heap in
  let a :=
    if heap_type =? type h
    then
      let mask := HEAP_MASK_FROM_ID (heap_id h) in
      match ion_alloc_fd K (requests a) size mask flags with
      | Some fd =>
          mk_attempt 0 fd (system_heap_exist a)
                     (ION_ALLOC size mask flags (Some fd) :: requests a)
      | None =>
          mk_attempt (-1) (shared_fd a) (system_heap_exist a)
                     (ION_ALLOC size mask flags None :: requests a)
      end
    else a in
  let a :=
    mk_attempt (ret a) (shared_fd a)
               (system_heap_exist a || (type h =? ION_HEAP_TYPE_SYSTEM)) (requests a) in
  match fuel with
  | O => a
  | S fuel' =>
      if (ret a <? 0) && (Z.of_nat (S i) <? heap_cnt m)
      then try_heaps m heap_type size flags fuel' (S i) a
      else a
  end.

(** One request with the legacy interface, the mask made of the heap type. *)
Definition try_legacy (heap_type size flags : Z) (a : attempt) : attempt :=
  let mask := HEAP_MASK_FROM_TYPE heap_type in
  match ion_alloc_fd K (requests a) size mask flags with
  | Some fd =>
      mk_attempt 0 fd (system_heap_exist a)
                 (ION_ALLOC size mask flags (Some fd) :: requests a)
  | None =>
      mk_attempt (-1) (shared_fd a) (system_heap_exist a)
                 (ION_ALLOC size mask flags None :: requests a)
  end.

Definition min_pgsz_of (heap_type size : Z) : Z :=
  if heap_type =? ION_HEAP_TYPE_SYSTEM
  then SZ_4K
  else if (heap_type =? ION_HEAP_TYPE_SYSTEM_CONTIG)
          || (heap_type =? ION_HEAP_TYPE_CARVEOUT)
          || (GRALLOC_USE_ION_DMA_HEAP && (heap_type =? ION_HEAP_TYPE_DMA))
  then if GRALLOC_USE_ION_DMA_HEAP then to_int32 size
       else if GRALLOC_USE_ION_COMPOUND_PAGE_HEAP then SZ_2M
       else SZ_4K
  else if GRALLOC_USE_ION_COMPOUND_PAGE_HEAP && (heap_type =? ION_HEAP_TYPE_COMPOUND_PAGE)
  then SZ_2M
  else SZ_4K.

(** The result: the file handle or -1, what [*min_pgsz] holds afterwards,
    and the requests made. [size] is a size_t; [min_pgsz] is a pointer. *)
Definition alloc_from_ion_heap (m : mali_gralloc_module)
  (usage size heap_type flags : Z) (min_pgsz : option Z) (t : trace)
  : Z * option Z * trace :=
  match min_pgsz with
  | None => (-1, min_pgsz, t)
  | Some _ =>
      if (ion_client m <? 0) || (size <=? 0) || (heap_type =? ION_HEAP_TYPE_INVALID)
      then (-1, min_pgsz, t)
      else
        let modern := negb GRALLOC_USE_LEGACY_ION_API && negb (use_legacy_ion m) in
        let start := mk_attempt (-1) (-1) false t in
        let a :=
          if modern
          then try_heaps m heap_type size flags (Z.to_nat (heap_cnt m)) 0 start
          else try_legacy heap_type size flags start in
        if ret a <? 0
        then
          (* fall back to the system heap if possible *)
          if heap_type =? ION_HEAP_TYPE_SECURE
          then (-1, min_pgsz, requests a)
          else if heap_type =? ION_HEAP_TYPE_SYSTEM
          then (-1, min_pgsz, requests a)
          else
            let heap_type := ION_HEAP_TYPE_SYSTEM in
            let flags :=
              match snd (set_ion_flags heap_type usage None (Some flags)) with
              | Some f => f
              | None => flags
              end in
            if modern && negb (system_heap_exist a)
            then (-1, min_pgsz, requests a)
            else
              let a :=
                if modern
                then try_heaps m heap_type size flags (Z.to_nat (heap_cnt m)) 0 a
                else try_legacy heap_type size flags a in
              if negb (ret a =? 0)
              then (-1, min_pgsz, requests a)
              else (shared_fd a, Some (min_pgsz_of heap_type size), requests a)
        else (shared_fd a, Some (min_pgsz_of heap_type size), requests a)
  end.

Definition pick_ion_heap (m : mali_gralloc_module) (usage : Z) : Z :=
  if tst usage GRALLOC_USAGE_PROTECTED
  then if secure_heap_exists m then ION_HEAP_TYPE_SECURE else ION_HEAP_TYPE_INVALID
  else if tst usage GRALLOC_USAGE_HW_FB
  then ION_HEAP_ID_FB
  else if negb (tst usage GRALLOC_USAGE_HW_VIDEO_ENCODER)
          && tst usage (Z.lor GRALLOC_USAGE_HW_FB GRALLOC_USAGE_HW_COMPOSER)
  then if GRALLOC_USE_ION_COMPOUND_PAGE_HEAP then ION_HEAP_TYPE_COMPOUND_PAGE
       else if GRALLOC_USE_ION_DMA_HEAP then ION_HEAP_TYPE_DMA
       else ION_HEAP_TYPE_SYSTEM
  else ION_HEAP_TYPE_SYSTEM.

(** The loop of check_buffers_sharable from descriptor [i] on. The local
    [ion_flags] of the loop body has no initialiser and set_ion_flags does
    not always write it: [indeterminate i] is what it holds at turn [i]. *)
Fixpoint sharable_from (m : mali_gralloc_module) (indeterminate : nat -> Z)
  (descriptors : list Descriptor.buffer_descriptor_t) (i : nat)
  (shared_backend_heap_type shared_ion_flags : Z) : bool :=
  match descriptors with
  | [] => true
  | bufDescriptor :: rest =>
      let usage := Descriptor.usage bufDescriptor in
      let heap_type := pick_ion_heap m usage in
      if heap_type =? ION_HEAP_TYPE_INVALID
      then false
      else
        let ion_flags :=
          match snd (set_ion_flags heap_type usage None (Some (indeterminate i))) with
          | Some f => f
          | None => indeterminate i
          end in
        if negb (shared_backend_heap_type =? ION_HEAP_TYPE_INVALID)
        then if negb (shared_backend_heap_type =? heap_type)
                || negb (shared_ion_flags =? ion_flags)
             then false
             else sharable_from m indeterminate rest (S i)
                                shared_backend_heap_type shared_ion_flags
        else sharable_from m indeterminate rest (S i) heap_type ion_flags
  end.

Definition check_buffers_sharable (m : mali_gralloc_module) (indeterminate : nat -> Z)
  (descriptors : list Descriptor.buffer_descriptor_t) : bool :=
  if (List.length descriptors <=? 1)%nat
  then false
  else sharable_from m indeterminate descriptors 0 ION_HEAP_TYPE_INVALID 0.

(** The loop of get_max_buffer_descriptor_index from descriptor [i] on. *)
Fixpoint max_index_from (descriptors : list Descriptor.buffer_descriptor_t)
  (i max_buffer_index : nat) (max_buffer_size : Z) : nat :=
  match descriptors with
  | [] => max_buffer_index
  | bufDescriptor :: rest =>
      if max_buffer_size <? Descriptor.size bufDescriptor
      then max_index_from rest (S i) i (Descriptor.size bufDescriptor)
      else max_index_from rest (S i) max_buffer_index max_buffer_size
  end.

Definition get_max_buffer_descriptor_index
  (descriptors : list Descriptor.buffer_descriptor_t) : nat :=
  max_index_from descriptors 0 0 0.

(** The result: the status, the module, and whether the secure heap was
    seen, after the queries. *)
Definition open_and_query_ion (m : mali_gralloc_module) (t : trace)
  : Z * mali_gralloc_module :=
  let client := ion_open K t in
  let m := mk_module client (use_legacy_ion m) (secure_heap_exists m)
                     (heap_cnt m) (heap_info m) in
  if client <? 0
  then (-1, m)
  else if GRALLOC_USE_LEGACY_ION_API
  then (0, mk_module client true
                     (secure_heap_exists m || ION_HEAP_SECURE_MASK_defined)
                     (heap_cnt m) (heap_info m))
  else
    let legacy := negb (ion_is_legacy K t =? 0) in
    let m := mk_module client legacy (secure_heap_exists m) 0 (heap_info m) in
    if negb legacy
    then
      let '(ret, cnt) := ion_query_heap_cnt K t in
      if ret =? 0
      then
        if ION_NUM_HEAP_IDS <? to_int32 cnt
        then (-1, m)
        else
          let '(ret, heap_data) := ion_query_get_heaps K t cnt in
          if ret =? 0
          then
            if ION_NUM_HEAP_IDS <? Z.of_nat (List.length heap_data)
            then (-1, m)
            else
              let secure h := String.eqb (name h) "ion_protected_heap"%string in
              let cached :=
                map (fun h => if secure h
                              then mk_heap (name h) ION_HEAP_TYPE_SECURE (heap_id h)
                              else h) heap_data in
              (0, mk_module client legacy
                            (secure_heap_exists m || existsb secure heap_data)
                            cnt
                            (cached ++ skipn (List.length cached) (heap_info m)))
          else if ret <? 0
          then (ret, m)
          else (0, mk_module client legacy (secure_heap_exists m) cnt (heap_info m))
      else if ret <? 0
      then (ret, m)
      else (0, mk_module client legacy (secure_heap_exists m) cnt (heap_info m))
    else (0, mk_module client legacy
                       (secure_heap_exists m || ION_HEAP_SECURE_MASK_defined)
                       0 (heap_info m)).

(** The handle afterwards and the requests made. *)
Definition mali_gralloc_ion_free (hnd : private_handle_t) (t : trace)
  : private_handle_t * trace :=
  if tst (flags hnd) PRIV_FLAGS_FRAMEBUFFER
  then (hnd, t)
  else if tst (flags hnd) PRIV_FLAGS_USES_ION
  then
    let t := if negb (base hnd =? 0) then MUNMAP (base hnd) (size hnd) :: t else t in
    (zeroed, CLOSE (share_fd hnd) :: t)
  else (hnd, t).

Fixpoint mali_gralloc_ion_free_internal (pHandle : list (option private_handle_t))
  (t : trace) : list (option private_handle_t) * trace :=
  match pHandle with
  | [] => ([], t)
  | None :: rest =>
      let '(rest, t) := mali_gralloc_ion_free_internal rest t in
      (None :: rest, t)
  | Some hnd :: rest =>
      let '(hnd, t) := mali_gralloc_ion_free hnd t in
      let '(rest, t) := mali_gralloc_ion_free_internal rest t in
      (Some hnd :: rest, t)
  end.

(** What mali_gralloc_ion_allocate leaves behind: the returned status, the
    module, the array [pHandle], [*shared_backend] and the requests. *)
Record allocation : Type := mk_allocation {
  status : Z;
  module_after : mali_gralloc_module;
  handles : list (option private_handle_t);
  shared_backend : bool;
  requests_after : trace
}.

Definition handle_for (bufDescriptor : Descriptor.buffer_descriptor_t)
  (priv_heap_flag min_pgsz tmp_fd backing_store_size : Z) : private_handle_t :=
  new_private_handle_t L (getpid K)
    (Z.lor PRIV_FLAGS_USES_ION priv_heap_flag)
    (Descriptor.size bufDescriptor) min_pgsz
    (Descriptor.consumer_usage bufDescriptor) (Descriptor.producer_usage bufDescriptor)
    tmp_fd (Descriptor.hal_format bufDescriptor)
    (Descriptor.internal_format bufDescriptor) (Descriptor.alloc_format bufDescriptor)
    (Descriptor.width bufDescriptor) (Descriptor.height bufDescriptor)
    (Descriptor.pixel_stride bufDescriptor)
    (Descriptor.old_alloc_width bufDescriptor) (Descriptor.old_alloc_height bufDescriptor)
    (Descriptor.old_byte_stride bufDescriptor)
    backing_store_size (Descriptor.layer_count bufDescriptor)
    (Descriptor.plane_info bufDescriptor).

(** The loop of the shared case from descriptor [i] on: every descriptor
    gets a handle on [shared_fd] or on a duplicate of it. The result is 0,
    or -1 after an error. *)
Fixpoint share_from (numDescriptors max_buffer_index : nat)
  (shared_fd priv_heap_flag min_pgsz max_size : Z)
  (descriptors : list Descriptor.buffer_descriptor_t) (i : nat)
  (pHandle : list (option private_handle_t)) (t : trace)
  : Z * list (option private_handle_t) * trace :=
  match descriptors with
  | [] => (0, pHandle, t)
  | bufDescriptor :: rest =>
      let tmp_fd := if (i =? max_buffer_index)%nat then shared_fd else dup K t shared_fd in
      let t := if (i =? max_buffer_index)%nat then t else DUP shared_fd tmp_fd :: t in
      if negb (i =? max_buffer_index)%nat && (tmp_fd <? 0)
      then
        let t := if (i <? max_buffer_index)%nat then CLOSE shared_fd :: t else t in
        let '(pHandle, t) := mali_gralloc_ion_free_internal (firstn numDescriptors pHandle) t in
        (-1, pHandle, t)
      else
        let hnd := handle_for bufDescriptor priv_heap_flag min_pgsz tmp_fd max_size in
        share_from numDescriptors max_buffer_index shared_fd priv_heap_flag min_pgsz
                   max_size rest (S i) (set_handle pHandle i (Some hnd)) t
  end.

(** The loop of the other case from descriptor [i] on: an allocation of
    its own for every descriptor. [priv_heap_flag], [ion_flags] and
    [min_pgsz] are locals of the function and keep their value from one
    turn to the next. *)
Fixpoint allocate_each (m : mali_gralloc_module) (numDescriptors : nat)
  (descriptors : list Descriptor.buffer_descriptor_t) (i : nat)
  (priv_heap_flag ion_flags min_pgsz : Z)
  (pHandle : list (option private_handle_t)) (t : trace)
  : Z * list (option private_handle_t) * trace :=
  match descriptors with
  | [] => (0, pHandle, t)
  | bufDescriptor :: rest =>
      let usage := Descriptor.usage bufDescriptor in
      let heap_type := pick_ion_heap m usage in
      if heap_type =? ION_HEAP_TYPE_INVALID
      then
        let '(pHandle, t) := mali_gralloc_ion_free_internal (firstn numDescriptors pHandle) t in
        (-1, pHandle, t)
      else
        let '(pf, fl) := set_ion_flags heap_type usage (Some priv_heap_flag) (Some ion_flags) in
        let priv_heap_flag := match pf with Some v => v | None => priv_heap_flag end in
        let ion_flags := match fl with Some v => v | None => ion_flags end in
        let '(shared_fd, pgsz, t) :=
          alloc_from_ion_heap m usage (Descriptor.size bufDescriptor) heap_type ion_flags
                              (Some min_pgsz) t in
        let min_pgsz := match pgsz with Some v => v | None => min_pgsz end in
        if shared_fd <? 0
        then
          let '(pHandle, t) := mali_gralloc_ion_free_internal (firstn numDescriptors pHandle) t in
          (-1, pHandle, t)
        else
          let hnd := handle_for bufDescriptor priv_heap_flag min_pgsz shared_fd
                                (Descriptor.size bufDescriptor) in
          allocate_each m numDescriptors rest (S i) priv_heap_flag ion_flags min_pgsz
                        (set_handle pHandle i (Some hnd)) t
  end.

(** The last loop: map every buffer that is not protected. The AFBC header
    initialisation (GRALLOC_INIT_AFBC) writes to the mapped memory only and
    has no counterpart here. *)
Fixpoint map_each (numDescriptors : nat)
  (descriptors : list Descriptor.buffer_descriptor_t) (i : nat)
  (pHandle : list (option private_handle_t)) (t : trace)
  : Z * list (option private_handle_t) * trace :=
  match descriptors with
  | [] => (0, pHandle, t)
  | bufDescriptor :: rest =>
      match nth i pHandle None with
      | None => (0, pHandle, t) (* not reached: the loops above filled the array *)
      | Some hnd =>
          if negb (tst (Descriptor.usage bufDescriptor) GRALLOC_USAGE_PROTECTED)
          then
            let cpu_ptr := mmap K t (Descriptor.size bufDescriptor) (share_fd hnd) in
            let t := MMAP (Descriptor.size bufDescriptor) (share_fd hnd) cpu_ptr :: t in
            if cpu_ptr =? MAP_FAILED
            then
              let '(pHandle, t) :=
                mali_gralloc_ion_free_internal (firstn numDescriptors pHandle) t in
              (-1, pHandle, t)
            else map_each numDescriptors rest (S i)
                          (set_handle pHandle i (Some (set_base hnd cpu_ptr))) t
          else map_each numDescriptors rest (S i) pHandle t
      end
  end.

(** [pHandle] is the array of the caller, of [numDescriptors] elements at
    least; [indeterminate] as in [sharable_from]. *)
Definition mali_gralloc_ion_allocate (m : mali_gralloc_module)
  (indeterminate : nat -> Z)
  (descriptors : list Descriptor.buffer_descriptor_t)
  (pHandle : list (option private_handle_t)) (t : trace) : allocation :=
  let numDescriptors := List.length descriptors in
  let '(opened, m) :=
    if ion_client m <? 0 then open_and_query_ion m t else (0, m) in
  if opened <? 0
  then mk_allocation opened m pHandle false t
  else
    let shared := check_buffers_sharable m indeterminate descriptors in
    let '(st, pHandle, t) :=
      if shared
      then
        let max_buffer_index := get_max_buffer_descriptor_index descriptors in
        let max_bufDescriptor :=
          nth max_buffer_index descriptors
              (Descriptor.mk_descriptor 0 0 0 0 0 0 MALI_GRALLOC_FORMAT_TYPE_USAGE
                                        0 0 0 0 0 0 0 []) in
        let usage := Descriptor.usage max_bufDescriptor in
        let heap_type := pick_ion_heap m usage in
        if heap_type =? ION_HEAP_TYPE_INVALID
        then (-1, pHandle, t)
        else
          let '(pf, fl) := set_ion_flags heap_type usage (Some 0) (Some 0) in
          let priv_heap_flag := match pf with Some v => v | None => 0 end in
          let ion_flags := match fl with Some v => v | None => 0 end in
          let '(shared_fd, pgsz, t) :=
            alloc_from_ion_heap m usage (Descriptor.size max_bufDescriptor) heap_type
                                ion_flags (Some 0) t in
          let min_pgsz := match pgsz with Some v => v | None => 0 end in
          if shared_fd <? 0
          then (-1, pHandle, t)
          else share_from numDescriptors max_buffer_index shared_fd priv_heap_flag
                          min_pgsz (Descriptor.size max_bufDescriptor)
                          descriptors 0 pHandle t
      else allocate_each m numDescriptors descriptors 0 0 0 0 pHandle t in
    if st <? 0
    then mk_allocation st m pHandle shared t
    else
      let '(st, pHandle, t) := map_each numDescriptors descriptors 0 pHandle t in
      mk_allocation st m pHandle shared t.

End Ion.

End Ion.

(** ** The allocation entry point (mali_gralloc_bufferallocation.cpp) *)

Module Alloc.

Import Handle Ion.

(** gralloc_buffer_attr_allocate and gralloc_buffer_attr_free of
    gralloc_buffer_priv.h, which are not among the sources: the status and
    the handle afterwards. *)
Record attr_service : Type := {
  gralloc_buffer_attr_allocate : private_handle_t -> Z * private_handle_t;
  gralloc_buffer_attr_free : private_handle_t -> Z * private_handle_t
}.

Section Alloc.
Context {P : Platform}.
Variable caps : runtime_caps.
Variable K : kernel.
Variable L : layout.
Variable A : attr_service.

(** [counter] is the static atomic counter, a uint32_t: the identifier and
    the counter afterwards. *)
Definition getUniqueId (counter : Z) : Z * Z :=
  (Z.lor (to_uint64 (Z.shiftl (to_uint64 (getpid K)) 32)) counter,
   to_uint32 (counter + 1)).

(** GRALLOC_ALIGN on a size_t. *)
Definition align_size_t (value base : Z) : Z :=
  to_size_t (to_size_t (to_size_t (value + base - 1) / base) * base).

(** One turn of the first loop of mali_gralloc_buffer_allocate, built
    without the legacy calculations (GRALLOC_USE_LEGACY_CALCS != 1): the
    status, 0 or -EINVAL, and the descriptor afterwards. *)
Definition prepare_descriptor (bufDescriptor : Descriptor.buffer_descriptor_t)
  : option (Z * Descriptor.buffer_descriptor_t) :=
  let d := bufDescriptor in
  let alloc_width := to_int32 (Descriptor.width d) in
  let alloc_height := to_int32 (Descriptor.height d) in
  let usage := Descriptor.usage d in
  do! internal_format <-
    mali_gralloc_select_format caps (Descriptor.hal_format d) (Descriptor.format_type d)
      usage (to_int32 (Descriptor.width d * Descriptor.height d));
  let d :=
    Descriptor.mk_descriptor
      (Descriptor.width d) (Descriptor.height d) (Descriptor.producer_usage d)
      (Descriptor.consumer_usage d) (Descriptor.hal_format d) (Descriptor.layer_count d)
      (Descriptor.format_type d) (Descriptor.size d) (Descriptor.pixel_stride d)
      (Descriptor.old_byte_stride d) (Descriptor.old_alloc_width d)
      (Descriptor.old_alloc_height d) internal_format (Descriptor.alloc_format d)
      (Descriptor.plane_info d) in
  if internal_format =? 0
  then Some (- EINVAL, d)
  else
    let format_idx := format_scan (Z.land internal_format MALI_GRALLOC_INTFMT_FMT_MASK) in
    if (num_formats <=? format_idx)%nat
    then Some (- EINVAL, d)
    else
      do! typed <- get_alloc_type internal_format format_idx usage;
      let '(ok, alloc_type) := typed in
      if negb ok
      then Some (- EINVAL, d)
      else
        do! fallback <-
          (match primary_type alloc_type with
           | UNCOMPRESSED => Some (true, format_idx)
           | _ => Fallback.afbc_format_fallback caps format_idx usage
                    (negb (Geometry.is_multi_plane alloc_type))
           end);
        let '(ok, format_idx) := fallback in
        if negb ok
        then Some (- EINVAL, d)
        else
          do! f <- formats_at format_idx;
          let alloc_format :=
            Z.lor (Z.land internal_format MALI_GRALLOC_INTFMT_EXT_MASK) (id f) in
          let d :=
            Descriptor.mk_descriptor
              (Descriptor.width d) (Descriptor.height d) (Descriptor.producer_usage d)
              (Descriptor.consumer_usage d) (Descriptor.hal_format d)
              (Descriptor.layer_count d) (Descriptor.format_type d) (Descriptor.size d)
              (Descriptor.pixel_stride d) (Descriptor.old_byte_stride d)
              (Descriptor.old_alloc_width d) (Descriptor.old_alloc_height d)
              internal_format alloc_format (Descriptor.plane_info d) in
          let alloc_type :=
            if npln f =? 1
            then mk_alloc_type (primary_type alloc_type) false (is_tiled alloc_type)
                               (is_padded alloc_type) (is_frontbuffer_safe alloc_type)
            else alloc_type in
          if negb (validate_format f alloc_type (Descriptor.height d))
          then Some (- EINVAL, d)
          else
            let '(alloc_width, alloc_height) :=
              Fallback.mali_gralloc_adjust_dimensions internal_format usage
                                                      alloc_width alloc_height in
            do! st <-
              calc_allocation_size alloc_width alloc_height alloc_type f
                (tst usage GRALLOC_USAGE_SW_MASK)
                (tst usage (not64 (Z.lor GRALLOC_USAGE_PRIVATE_MASK GRALLOC_USAGE_SW_MASK)))
                (Descriptor.pixel_stride d) (Descriptor.plane_info d);
            let p0 := get_plane (calc_plane_info st) 0 in
            let size := calc_size st in
            let size :=
              if 1 <? Descriptor.layer_count d
              then
                let size :=
                  if tst internal_format MALI_GRALLOC_INTFMT_AFBCENABLE_MASK
                  then if tst internal_format MALI_GRALLOC_INTFMT_AFBC_TILED_HEADERS
                       then align_size_t size 4096
                       else align_size_t size 128
                  else size in
                to_size_t (size * Descriptor.layer_count d)
              else size in
            Some (0,
                  Descriptor.mk_descriptor
                    (Descriptor.width d) (Descriptor.height d)
                    (Descriptor.producer_usage d) (Descriptor.consumer_usage d)
                    (Descriptor.hal_format d) (Descriptor.layer_count d)
                    (Descriptor.format_type d) size (calc_pixel_stride st)
                    (to_int32 (Geometry.byte_stride p0))
                    (to_int32 (Geometry.alloc_width p0))
                    (to_int32 (Geometry.alloc_height p0))
                    internal_format alloc_format (calc_plane_info st)).

(** The first loop: it returns at the first descriptor that fails. *)
Fixpoint prepare_descriptors (descriptors : list Descriptor.buffer_descriptor_t)
  : option (Z * list Descriptor.buffer_descriptor_t) :=
  match descriptors with
  | [] => Some (0, [])
  | d :: rest =>
      do! r <- prepare_descriptor d;
      let '(st, d) := r in
      if st <? 0
      then Some (st, d :: rest)
      else
        do! r <- prepare_descriptors rest;
        let '(st, rest) := r in
        Some (st, d :: rest)
  end.

Fixpoint mali_gralloc_buffer_free_internal (pHandle : list (option private_handle_t))
  (t : trace) : option (Z * list (option private_handle_t) * trace) :=
  match pHandle with
  | [] => Some (-1, [], t)
  | None :: _ => None
  | Some hnd :: rest =>
      let '(err, hnd) := gralloc_buffer_attr_free A hnd in
      let '(hnd, t) := mali_gralloc_ion_free hnd t in
      match rest with
      | [] => Some (err, [Some hnd], t)
      | _ =>
          do! r <- mali_gralloc_buffer_free_internal rest t;
          let '(err, rest, t) := r in
          Some (err, Some hnd :: rest, t)
      end
  end.

Definition yuv_info_for (f : format_info_t) (usage : Z) (current : mali_gralloc_yuv_info)
  : mali_gralloc_yuv_info :=
  if is_yuv f
  then
    let info :=
      if GRALLOC_USE_GRALLOC1_API
      then
        let conf := Z.land usage MALI_GRALLOC_USAGE_YUV_CONF_MASK in
        if conf =? MALI_GRALLOC_USAGE_YUV_CONF_0 then MALI_YUV_BT601_NARROW
        else if conf =? MALI_GRALLOC_USAGE_YUV_CONF_1 then MALI_YUV_BT601_WIDE
        else if conf =? MALI_GRALLOC_USAGE_YUV_CONF_2 then MALI_YUV_BT709_NARROW
        else if conf =? MALI_GRALLOC_USAGE_YUV_CONF_3 then MALI_YUV_BT709_WIDE
        else MALI_YUV_BT601_NARROW
      else MALI_YUV_BT601_NARROW in
    if bps f =? 10 then MALI_YUV_BT709_WIDE else info
  else current.

(** The second loop, from descriptor [i] on. *)
Fixpoint finish_handles (numDescriptors : nat) (shared : bool) (backing_store_id : Z)
  (descriptors : list Descriptor.buffer_descriptor_t) (i : nat)
  (pHandle : list (option private_handle_t)) (counter : Z) (t : trace)
  : option (Z * list (option private_handle_t) * Z * trace) :=
  match descriptors with
  | [] => Some (0, pHandle, counter, t)
  | bufDescriptor :: rest =>
      do! hnd <- nth i pHandle None;
      let usage := Descriptor.usage bufDescriptor in
      let '(err, hnd) := gralloc_buffer_attr_allocate A hnd in
      let pHandle := set_handle pHandle i (Some hnd) in
      if err <? 0
      then
        do! r <- mali_gralloc_buffer_free_internal (firstn numDescriptors pHandle) t;
        let '(_, pHandle, t) := r in
        Some (err, pHandle, counter, t)
      else
        let format_idx :=
          format_scan (Z.land (Descriptor.alloc_format bufDescriptor)
                              MALI_GRALLOC_INTFMT_FMT_MASK) in
        do! f <- formats_at format_idx;
        let info := yuv_info_for f usage (yuv_info hnd) in
        let '(store_id, counter) :=
          if shared then (backing_store_id, counter) else getUniqueId counter in
        finish_handles numDescriptors shared backing_store_id rest (S i)
                       (set_handle pHandle i (Some (set_identity hnd info store_id)))
                       counter t
  end.

Record buffer_allocation : Type := mk_buffer_allocation {
  result : Z;
  descriptors_after : list Descriptor.buffer_descriptor_t;
  buffers : list (option private_handle_t);
  shared : option bool;   (* written through [shared_backend] when not null *)
  counter_after : Z;
  ion_requests : trace
}.

(** [None] when the call has no defined behaviour (a table read out of
    bounds, a division by zero). *)
Definition mali_gralloc_buffer_allocate (m : mali_gralloc_module)
  (indeterminate : nat -> Z)
  (descriptors : list Descriptor.buffer_descriptor_t)
  (pHandle : list (option private_handle_t)) (counter : Z) (t : trace)
  : option buffer_allocation :=
  do! prepared <- prepare_descriptors descriptors;
  let '(st, descriptors) := prepared in
  if st <? 0
  then Some (mk_buffer_allocation st descriptors pHandle None counter t)
  else
    let a := mali_gralloc_ion_allocate K L m indeterminate descriptors pHandle t in
    if status a <? 0
    then Some (mk_buffer_allocation (status a) descriptors (handles a) None counter
                                    (requests_after a))
    else
      let '(backing_store_id, counter) :=
        if shared_backend a then getUniqueId counter else (0, counter) in
      do! r <- finish_handles (List.length descriptors) (shared_backend a) backing_store_id
                              descriptors 0 (handles a) counter (requests_after a);
      let '(st, pHandle, counter, t) := r in
      if st <? 0
      then Some (mk_buffer_allocation st descriptors pHandle None counter t)
      else Some (mk_buffer_allocation 0 descriptors pHandle (Some (shared_backend a))
                                      counter t).

End Alloc.

End Alloc.

(** ** Buffer access (mali_gralloc_bufferaccess.cpp), built with
      GRALLOC_USE_LEGACY_LOCK != 1 *)

Module Access.

Import Handle.

Record android_ycbcr : Type := mk_ycbcr {
  y : Z;
  cb : Z;
  cr : Z;
  ystride : Z;
  cstride : Z;
  chroma_step : Z;
  reserved : list Z
}.

Inductive android_flex_component_t : Type :=
| FLEX_COMPONENT_Y | FLEX_COMPONENT_Cb | FLEX_COMPONENT_Cr
| FLEX_COMPONENT_R | FLEX_COMPONENT_G | FLEX_COMPONENT_B | FLEX_COMPONENT_A.

Inductive android_flex_format_t : Type :=
| FLEX_FORMAT_INVALID | FLEX_FORMAT_Y | FLEX_FORMAT_YCbCr
| FLEX_FORMAT_RGB | FLEX_FORMAT_RGBA.

Record android_flex_plane_t : Type := mk_flex_plane {
  top_left : Z;
  component : android_flex_component_t;
  bits_per_component : Z;
  bits_used : Z;
  h_increment : Z;
  v_increment : Z;
  h_subsampling : Z;
  v_subsampling : Z
}.

Record android_flex_layout : Type := mk_flex_layout {
  format : android_flex_format_t;
  num_planes : Z;
  planes : list android_flex_plane_t
}.

Definition set_flex_plane_params (top_left : Z) (component : android_flex_component_t)
  (bits_per_component bits_used h_increment v_increment h_subsampling v_subsampling : Z)
  : android_flex_plane_t :=
  mk_flex_plane top_left component bits_per_component bits_used
                h_increment v_increment h_subsampling v_subsampling.

(** What a lock leaves behind: the status, the handle, and what the
    location behind the out-pointer holds ([None]: the pointer is null). *)
Record locked (A : Type) : Type := mk_locked {
  lock_status : Z;
  lock_handle : option private_handle_t;
  lock_out : option A
}.
Arguments mk_locked {A}.
Arguments lock_status {A}.
Arguments lock_handle {A}.
Arguments lock_out {A}.

Definition leave {A : Type} (status : Z) (hnd : private_handle_t) (out : option A)
  : locked A :=
  mk_locked status (Some hnd) out.

Section Access.
Context {P : Platform}.
Variable L : layout.
Variable lock_pid : Z.   (* getpid() *)

(** [l], [t], [w] and [h] are [int]. The status of an AFBC buffer depends
    on the API the module is built for. *)
Definition validate_lock_input_parameters (hnd : private_handle_t)
  (l t w h usage : Z) : Z :=
  if (l <? 0) || (t <? 0) || (w <? 0) || (h <? 0)
  then - EINVAL
  else if (to_int32 (l + w) <? 0) || (to_int32 (t + h) <? 0)
  then - EINVAL
  else if (height hnd <? to_int32 (t + h)) || (width hnd <? to_int32 (l + w))
  then - EINVAL
  else
    let is_registered_process :=
      (allocating_pid hnd =? lock_pid) || (remote_pid hnd =? lock_pid) in
    if negb is_registered_process || (base hnd =? NULL)
    then - EINVAL
    else if negb (Z.land (alloc_format hnd) MALI_GRALLOC_INTFMT_EXT_MASK =? 0)
    then if GRALLOC_USE_GRALLOC1_API then GRALLOC1_ERROR_UNSUPPORTED else - EINVAL
    else if negb GRALLOC_USE_GRALLOC1_API
            && (Z.land usage (Z.lor (producer_usage hnd) (consumer_usage hnd)) =? 0)
    then - EINVAL
    else 0.

Definition note_write_owner (hnd : private_handle_t) (usage : Z) : private_handle_t :=
  if tst (flags hnd) PRIV_FLAGS_USES_ION
  then set_writeOwner hnd (to_int32 (Z.land usage GRALLOC_USAGE_SW_WRITE_MASK))
  else hnd.

(** [buffer] is the handle the buffer_handle_t points to ([None]: null);
    [vaddr] is what the location behind the out-pointer holds. The result
    is [None] when the call has no defined behaviour. *)
Definition mali_gralloc_lock (buffer : option private_handle_t)
  (usage l t w h : Z) (vaddr : option Z) : option (locked Z) :=
  match buffer with
  | None => Some (mk_locked (validate L buffer) None vaddr)
  | Some hnd =>
      if validate L buffer <? 0
      then Some (leave (- EINVAL) hnd vaddr)
      else
        let status := validate_lock_input_parameters hnd l t w h usage in
        if negb (status =? 0)
        then Some (leave status hnd vaddr)
        else if (req_format hnd =? HAL_PIXEL_FORMAT_YCbCr_420_888)
                || (req_format hnd =? HAL_PIXEL_FORMAT_YCbCr_422_888)
                || (req_format hnd =? HAL_PIXEL_FORMAT_YCbCr_444_888)
        then Some (leave (- EINVAL) hnd vaddr)
        else
          let format_idx :=
            get_format_index (Z.land (alloc_format hnd) MALI_GRALLOC_INTFMT_FMT_MASK) in
          if format_idx =? -1
          then Some (leave (- EINVAL) hnd vaddr)
          else
            let hnd := note_write_owner hnd usage in
            if negb (Z.land usage GRALLOC_USAGE_SW_MASK =? 0)
            then match vaddr with
                 | None => Some (leave (- EINVAL) (set_writeOwner hnd 0) vaddr)
                 | Some _ => Some (leave 0 hnd (Some (base hnd)))
                 end
            else Some (leave 0 hnd vaddr)
  end.

(** The fence is waited for and closed before; that has no effect on the
    state of the model. *)
Definition mali_gralloc_lock_async (buffer : option private_handle_t)
  (usage l t w h : Z) (vaddr : option Z) (fence_fd : Z) : option (locked Z) :=
  mali_gralloc_lock buffer usage l t w h vaddr.

(** The validation of a null handle returns -EINVAL before the handle is
    read; a null [ycbcr] is dereferenced when no CPU usage is requested. *)
Definition mali_gralloc_lock_ycbcr (buffer : option private_handle_t)
  (usage l t w h : Z) (ycbcr : option android_ycbcr) : option (locked android_ycbcr) :=
  match buffer with
  | None => Some (mk_locked (validate L buffer) None ycbcr)
  | Some hnd =>
      if validate L buffer <? 0
      then Some (leave (- EINVAL) hnd ycbcr)
      else
        let base_format := Z.land (alloc_format hnd) MALI_GRALLOC_INTFMT_FMT_MASK in
        let status := validate_lock_input_parameters hnd l t w h usage in
        if negb (status =? 0)
        then Some (leave status hnd ycbcr)
        else
          let format_idx := get_format_index base_format in
          if format_idx =? -1
          then Some (leave (- EINVAL) hnd ycbcr)
          else
            do! f <- formats_at (Z.to_nat format_idx);
            if negb (is_yuv f)
            then Some (leave (- EINVAL) hnd ycbcr)
            else
              let hnd := note_write_owner hnd usage in
              let p n := get_plane (plane_info hnd) n in
              if tst usage GRALLOC_USAGE_SW_MASK
              then
                match ycbcr with
                | None => Some (leave (- EINVAL) hnd ycbcr)
                | Some old =>
                    let filled cb cr cstride chroma_step :=
                      Some (leave 0 hnd
                              (Some (mk_ycbcr (base hnd) cb cr
                                              (Geometry.byte_stride (p 0%nat))
                                              cstride chroma_step
                                              (map (fun _ => 0) (reserved old))))) in
                    if (base_format =? MALI_GRALLOC_FORMAT_INTERNAL_Y8)
                       || (base_format =? MALI_GRALLOC_FORMAT_INTERNAL_Y16)
                    then filled NULL NULL 0 0
                    else if base_format =? MALI_GRALLOC_FORMAT_INTERNAL_NV12
                    then filled (base hnd + Geometry.offset (p 1%nat))
                                (base hnd + Geometry.offset (p 1%nat) + 1)
                                (Geometry.byte_stride (p 1%nat)) 2
                    else if (base_format =? HAL_PIXEL_FORMAT_YCrCb_420_SP)
                            || (base_format =? MALI_GRALLOC_FORMAT_INTERNAL_NV21)
                    then filled (base hnd + Geometry.offset (p 1%nat) + 1)
                                (base hnd + Geometry.offset (p 1%nat))
                                (Geometry.byte_stride (p 1%nat)) 2
                    else if base_format =? MALI_GRALLOC_FORMAT_INTERNAL_YV12
                    then filled (base hnd + Geometry.offset (p 2%nat))
                                (base hnd + Geometry.offset (p 1%nat))
                                (Geometry.byte_stride (p 1%nat)) 1
                    else
                      (* the members written before the switch stay written *)
                      Some (leave (- EINVAL) hnd
                              (Some (mk_ycbcr (base hnd) (cb old) (cr old)
                                              (Geometry.byte_stride (p 0%nat))
                                              (cstride old) (chroma_step old)
                                              (reserved old))))
                end
              else
                match ycbcr with
                | None => None
                | Some old =>
                    Some (leave 0 hnd
                            (Some (mk_ycbcr NULL NULL NULL 0 0 0
                                            (map (fun _ => 0) (reserved old)))))
                end
  end.

(** The planes of a flex layout for [base_format], or [None] for a format
    the switch of mali_gralloc_lock_flex_async does not handle. Three
    consecutive planes in the order of the flex components. *)
Definition flex_planes (hnd : private_handle_t) (base_format : Z)
  : option (android_flex_format_t * list android_flex_plane_t) :=
  let b := base hnd in
  let p n := get_plane (plane_info hnd) n in
  let s n := Geometry.byte_stride (p n) in
  let o n := Geometry.offset (p n) in
  let yuv y_off y_bits y_used y_inc c_plane cb_off cr_off c_bits c_used c_inc hs vs :=
    Some (FLEX_FORMAT_YCbCr,
          [ set_flex_plane_params (b + y_off) FLEX_COMPONENT_Y y_bits y_used y_inc
                                  (s 0%nat) 1 1;
            set_flex_plane_params (b + cb_off) FLEX_COMPONENT_Cb c_bits c_used c_inc
                                  (s c_plane) hs vs;
            set_flex_plane_params (b + cr_off) FLEX_COMPONENT_Cr c_bits c_used c_inc
                                  (s c_plane) hs vs ]) in
  let rgb fmt comps bits inc :=
    Some (fmt,
          map (fun co => set_flex_plane_params (b + fst co) (snd co) bits bits inc
                                               (s 0%nat) 1 1) comps) in
  if base_format =? MALI_GRALLOC_FORMAT_INTERNAL_Y8
  then Some (FLEX_FORMAT_Y,
             [ set_flex_plane_params b FLEX_COMPONENT_Y 8 8 1 (s 0%nat) 1 1 ])
  else if base_format =? MALI_GRALLOC_FORMAT_INTERNAL_Y16
  then Some (FLEX_FORMAT_Y,
             [ set_flex_plane_params b FLEX_COMPONENT_Y 16 16 2 (s 0%nat) 1 1 ])
  else if base_format =? MALI_GRALLOC_FORMAT_INTERNAL_NV12
  then yuv 0 8 8 1 1%nat (o 1%nat) (o 1%nat + 1) 8 8 2 2 2
  else if (base_format =? HAL_PIXEL_FORMAT_YCrCb_420_SP)
          || (base_format =? MALI_GRALLOC_FORMAT_INTERNAL_NV21)
  then yuv 0 8 8 1 1%nat (o 1%nat + 1) (o 1%nat) 8 8 2 2 2
  else if base_format =? MALI_GRALLOC_FORMAT_INTERNAL_YV12
  then Some (FLEX_FORMAT_YCbCr,
             [ set_flex_plane_params b FLEX_COMPONENT_Y 8 8 1 (s 0%nat) 1 1;
               set_flex_plane_params (b + o 2%nat) FLEX_COMPONENT_Cb 8 8 1 (s 2%nat) 2 2;
               set_flex_plane_params (b + o 1%nat) FLEX_COMPONENT_Cr 8 8 1 (s 1%nat) 2 2 ])
  else if base_format =? MALI_GRALLOC_FORMAT_INTERNAL_P010
  then yuv 0 16 10 2 1%nat (o 1%nat) (o 1%nat + 2) 16 10 4 2 2
  else if base_format =? MALI_GRALLOC_FORMAT_INTERNAL_P210
  then yuv 0 16 10 2 1%nat (o 1%nat) (o 1%nat + 2) 16 10 4 2 1
  else if base_format =? HAL_PIXEL_FORMAT_YCbCr_422_I
  then yuv 0 8 8 2 0%nat 1 3 8 8 4 2 1
  else if base_format =? HAL_PIXEL_FORMAT_YCbCr_422_SP
  then yuv 0 8 8 1 1%nat (o 1%nat) (o 1%nat + 1) 8 8 2 2 1
  else if base_format =? MALI_GRALLOC_FORMAT_INTERNAL_Y210
  then yuv 0 16 10 4 0%nat 2 6 16 10 8 2 1
  else if (26 <=? PLATFORM_SDK_VERSION)
          && (base_format =? MALI_GRALLOC_FORMAT_INTERNAL_RGBA_16161616)
  then rgb FLEX_FORMAT_RGBA
           [(0, FLEX_COMPONENT_R); (2, FLEX_COMPONENT_G); (4, FLEX_COMPONENT_B);
            (6, FLEX_COMPONENT_A)] 16 8
  else if base_format =? MALI_GRALLOC_FORMAT_INTERNAL_RGBA_8888
  then rgb FLEX_FORMAT_RGBA
           [(0, FLEX_COMPONENT_R); (1, FLEX_COMPONENT_G); (2, FLEX_COMPONENT_B);
            (3, FLEX_COMPONENT_A)] 8 4
  else if base_format =? MALI_GRALLOC_FORMAT_INTERNAL_RGBX_8888
  then rgb FLEX_FORMAT_RGB
           [(0, FLEX_COMPONENT_R); (1, FLEX_COMPONENT_G); (2, FLEX_COMPONENT_B)] 8 4
  else if base_format =? MALI_GRALLOC_FORMAT_INTERNAL_RGB_888
  then rgb FLEX_FORMAT_RGB
           [(0, FLEX_COMPONENT_R); (1, FLEX_COMPONENT_G); (2, FLEX_COMPONENT_B)] 8 3
  else if base_format =? MALI_GRALLOC_FORMAT_INTERNAL_BGRA_8888
  then rgb FLEX_FORMAT_RGBA
           [(2, FLEX_COMPONENT_R); (1, FLEX_COMPONENT_G); (0, FLEX_COMPONENT_B);
            (3, FLEX_COMPONENT_A)] 8 4
  else None.

(** Built for the gralloc 1.0 API only. The handle is read without a
    validation: a null handle has no defined behaviour. *)
Definition mali_gralloc_lock_flex_async (buffer : option private_handle_t)
  (usage l t w h : Z) (flex_layout : android_flex_layout) (fence_fd : Z)
  : option (locked android_flex_layout) :=
  match buffer with
  | None => None
  | Some hnd =>
      let base_format := Z.land (alloc_format hnd) MALI_GRALLOC_INTFMT_FMT_MASK in
      let status := validate_lock_input_parameters hnd l t w h usage in
      if negb (status =? 0)
      then Some (leave status hnd (Some flex_layout))
      else
        let hnd := note_write_owner hnd usage in
        let format_idx := get_format_index base_format in
        if format_idx =? -1
        then Some (leave (- EINVAL) hnd (Some flex_layout))
        else
          do! f <- formats_at (Z.to_nat format_idx);
          if negb (flex f)
          then Some (leave GRALLOC1_ERROR_UNSUPPORTED hnd (Some flex_layout))
          else
            match flex_planes hnd base_format with
            | Some (fmt, ps) =>
                Some (leave GRALLOC1_ERROR_NONE hnd
                        (Some (mk_flex_layout fmt (ncmp f)
                                 (ps ++ skipn (List.length ps) (planes flex_layout)))))
            | None =>
                Some (leave GRALLOC1_ERROR_UNSUPPORTED hnd
                        (Some (mk_flex_layout (format flex_layout) (ncmp f)
                                              (planes flex_layout))))
            end
  end.

(** Built for the gralloc 1.0 API only: the status and what [*num_planes]
    holds afterwards. *)
Definition mali_gralloc_get_num_flex_planes (buffer : option private_handle_t)
  (num_planes : Z) : option (Z * Z) :=
  match buffer with
  | None => None
  | Some hnd =>
      let base_format := Z.land (alloc_format hnd) MALI_GRALLOC_INTFMT_FMT_MASK in
      if negb (Z.land (alloc_format hnd) MALI_GRALLOC_INTFMT_EXT_MASK =? 0)
      then Some (GRALLOC1_ERROR_UNSUPPORTED, num_planes)
      else
        let format_idx := get_format_index base_format in
        if format_idx =? -1
        then Some (- EINVAL, num_planes)
        else
          do! f <- formats_at (Z.to_nat format_idx);
          if negb (flex f)
          then Some (GRALLOC1_ERROR_UNSUPPORTED, num_planes)
          else Some (GRALLOC1_ERROR_NONE, ncmp f)
  end.

End Access.

End Access.

(** ** Concrete inputs for the examples *)

(** ** Unlocking and freeing
      (mali_gralloc_bufferaccess.cpp, mali_gralloc_ion.cpp,
       mali_gralloc_bufferallocation.cpp, mali_gralloc_buffer.h) *)

Module Release.

Import Handle.

Section Release.
Context {P : Platform}.
Variable L : layout.
Variable A : Alloc.attr_service.

(** private_handle_t::dynamicCast: the handle when it validates, else a
    null pointer. *)
Definition dynamicCast (h : option private_handle_t) : option private_handle_t :=
  if validate L h =? 0 then h else None.

(** mali_gralloc_ion_sync: the call of ion_sync_fd that is made, if any,
    as the pair of the client and the descriptor. [m] and [hnd] are
    pointers ([None]: null). *)
Definition mali_gralloc_ion_sync (m : option Ion.mali_gralloc_module)
  (hnd : option private_handle_t) : option (Z * Z) :=
  match m, hnd with
  | Some m, Some hnd =>
      if Z.land (flags hnd) PRIV_FLAGS_USES_ION =? PRIV_FLAGS_USES_ION
      then if negb (tst (flags hnd) PRIV_FLAGS_USES_ION_DMA_HEAP)
           then Some (Ion.ion_client m, share_fd hnd)
           else None
      else None
  | _, _ => None
  end.

(** mali_gralloc_unlock, built without the legacy lock: the status and the
    call of ion_sync_fd that is made, if any. *)
Definition mali_gralloc_unlock (m : option Ion.mali_gralloc_module)
  (buffer : option private_handle_t) : Z * option (Z * Z) :=
  if validate L buffer <? 0
  then (- EINVAL, None)
  else
    match buffer with
    | None => (- EINVAL, None)
    | Some hnd =>
        if tst (flags hnd) PRIV_FLAGS_USES_ION && negb (writeOwner hnd =? 0)
        then (0, mali_gralloc_ion_sync m (Some hnd))
        else (0, None)
    end.

(** mali_gralloc_unlock_async: the status, what [*fence_fd] holds
    afterwards, and the call of ion_sync_fd. *)
Definition mali_gralloc_unlock_async (m : option Ion.mali_gralloc_module)
  (buffer : option private_handle_t) : Z * Z * option (Z * Z) :=
  let fence_fd := -1 in
  let '(status, synced) := mali_gralloc_unlock m buffer in
  if status <? 0 then (- EINVAL, fence_fd, synced) else (0, fence_fd, synced).

(** mali_gralloc_buffer_free: the status, the handle afterwards and the
    requests made. *)
Definition mali_gralloc_buffer_free (pHandle : option private_handle_t) (t : Ion.trace)
  : Z * option private_handle_t * Ion.trace :=
  match pHandle with
  | None => (-1, None, t)
  | Some hnd =>
      let '(rval, hnd) := Alloc.gralloc_buffer_attr_free A hnd in
      let '(hnd, t) := Ion.mali_gralloc_ion_free hnd t in
      (rval, Some hnd, t)
  end.

End Release.

End Release.

(** ** The gralloc 1.0 entry points (mali_gralloc_public_interface.cpp) *)

Module Gralloc1.

Import Handle.

Definition GRALLOC1_ERROR_BAD_HANDLE : Z := 2.
Definition GRALLOC1_ERROR_BAD_VALUE : Z := 3.
Definition GRALLOC1_PRODUCER_USAGE_NONE : Z := 0.
Definition GRALLOC1_CONSUMER_USAGE_NONE : Z := 0.

Record gralloc1_rect_t : Type := mk_gralloc1_rect {
  left : Z;
  top : Z;
  width : Z;
  height : Z
}.

Section Gralloc1.
Context {P : Platform}.
Variable L : layout.
Variable lock_pid : Z.

(** Built without the legacy lock (GRALLOC_USE_LEGACY_LOCK != 1). *)
Definition mali_gralloc1_test_lock_usage (producerUsage consumerUsage : Z) : Z :=
  if producerUsage =? GRALLOC1_PRODUCER_USAGE_NONE
  then
    if Z.land consumerUsage GRALLOC_USAGE_SW_READ_MASK =? 0
    then GRALLOC1_ERROR_BAD_VALUE
    else GRALLOC1_ERROR_NONE
  else if consumerUsage =? GRALLOC1_CONSUMER_USAGE_NONE
  then
    if Z.land producerUsage (Z.lor GRALLOC_USAGE_SW_READ_MASK GRALLOC_USAGE_SW_WRITE_MASK)
       =? 0
    then GRALLOC1_ERROR_BAD_VALUE
    else GRALLOC1_ERROR_NONE
  else GRALLOC1_ERROR_BAD_VALUE.

(** [accessRegion] and [outData] are pointers ([None]: null). *)
Definition mali_gralloc1_lock_async (buffer : option private_handle_t)
  (producerUsage consumerUsage : Z) (accessRegion : option gralloc1_rect_t)
  (outData : option Z) (acquireFence : Z) : option (Access.locked Z) :=
  if validate L buffer <? 0
  then Some (Access.mk_locked GRALLOC1_ERROR_BAD_HANDLE buffer outData)
  else
    match accessRegion with
    | None => Some (Access.mk_locked GRALLOC1_ERROR_BAD_VALUE buffer outData)
    | Some region =>
        let status := mali_gralloc1_test_lock_usage producerUsage consumerUsage in
        if negb (status =? GRALLOC1_ERROR_NONE)
        then Some (Access.mk_locked status buffer outData)
        else
          do! r <- Access.mali_gralloc_lock_async L lock_pid buffer
                     (Z.lor producerUsage consumerUsage)
                     (left region) (top region) (width region) (height region)
                     outData acquireFence;
          let status := Access.lock_status r in
          Some (Access.mk_locked
                  (if negb (status =? 0)
                   then if status =? - EINVAL
                        then GRALLOC1_ERROR_BAD_VALUE
                        else GRALLOC1_ERROR_UNSUPPORTED
                   else GRALLOC1_ERROR_NONE)
                  (Access.lock_handle r) (Access.lock_out r))
    end.

End Gralloc1.

End Gralloc1.

(** ** Ranges of the table's fields

    What the entries of [formats] have in common, as far as the size
    computation reads them: at most three planes, sub-sampling factors from
    1 to 4, at most 64 bits per pixel, alignments of at most 16 pixels. *)

Module Ranges.

Definition bits_in_range (b : Z) : bool := (0 <=? b) && (b <=? 64).

Definition fields_in_range (f : format_info_t) : bool :=
  (0 <=? npln f) && (npln f <=? 3)
  && (1 <=? hsub f) && (hsub f <=? 4)
  && (1 <=? vsub f) && (vsub f <=? 4)
  && (0 <=? tile_size f) && (tile_size f <=? 16)
  && (0 <=? pwa f) && (pwa f <=? 16)
  && forallb bits_in_range (bpp f)
  && forallb bits_in_range (bpp_afbc f).

(** The largest width and height for which the 32-bit arithmetic of
    calc_allocation_size is followed below. *)
Definition MAX_DIMENSION : Z := 4096.

End Ranges.

Module Examples.

(** No hardware block advertises anything. *)
Definition no_caps : runtime_caps :=
  {| gpu_runtime_caps := 0; vpu_runtime_caps := 0;
     dpu_runtime_caps := 0; cam_runtime_caps := 0 |}.

(** A GPU with AFBC basic, tiled headers and double body. *)
Definition gpu_caps : runtime_caps :=
  {| gpu_runtime_caps := 2 ^ 0 + 2 ^ 1 + 2 ^ 7 + 2 ^ 10; vpu_runtime_caps := 0;
     dpu_runtime_caps := 0; cam_runtime_caps := 0 |}.

Definition no_planes : list plane_info_t := repeat (mk_plane_info 0 0 0 0) MAX_PLANES.

Definition linear_type : alloc_type_t := mk_alloc_type UNCOMPRESSED false false false false.

(** The handle structure of a 64-bit build: a 12-byte native_handle. *)
Definition lp64_layout : Handle.layout :=
  {| Handle.sizeof_native_handle := 12; Handle.NUM_INTS_IN_PRIVATE_HANDLE := 46 |}.

(** A kernel that grants every request: descriptor 7 for backing memory,
    a fresh descriptor for every duplicate, a fresh page for every mapping. *)
Definition granting_kernel : Ion.kernel :=
  {| Ion.ion_open := fun _ => 3;
     Ion.ion_is_legacy := fun _ => 1;
     Ion.ion_query_heap_cnt := fun _ => (0, 0);
     Ion.ion_query_get_heaps := fun _ _ => (0, []);
     Ion.ion_alloc_fd := fun _ _ _ _ => Some 7;
     Ion.dup := fun t _ => 8 + Z.of_nat (length t);
     Ion.mmap := fun t _ _ => 4096 * (1 + Z.of_nat (length t));
     Ion.getpid := 100 |}.

(** A kernel that has backing memory in the system heap only (mask 1). *)
Definition system_heap_kernel : Ion.kernel :=
  {| Ion.ion_open := fun _ => 3;
     Ion.ion_is_legacy := fun _ => 1;
     Ion.ion_query_heap_cnt := fun _ => (0, 0);
     Ion.ion_query_get_heaps := fun _ _ => (0, []);
     Ion.ion_alloc_fd := fun _ _ mask _ => if mask =? 1 then Some 7 else None;
     Ion.dup := fun t _ => 8 + Z.of_nat (length t);
     Ion.mmap := fun t _ _ => 4096 * (1 + Z.of_nat (length t));
     Ion.getpid := 100 |}.

(** A module whose ION client is open, with the legacy interface. *)
Definition legacy_module : Ion.mali_gralloc_module := Ion.mk_module 3 true false 0 [].

(** A kernel with the modern interface whose heap-count query fails with
    -EINVAL. *)
Definition failing_query_kernel : Ion.kernel :=
  {| Ion.ion_open := fun _ => 3;
     Ion.ion_is_legacy := fun _ => 0;
     Ion.ion_query_heap_cnt := fun _ => (- EINVAL, 0);
     Ion.ion_query_get_heaps := fun _ _ => (0, []);
     Ion.ion_alloc_fd := fun _ _ _ _ => Some 7;
     Ion.dup := fun t _ => 8 + Z.of_nat (length t);
     Ion.mmap := fun t _ _ => 4096 * (1 + Z.of_nat (length t));
     Ion.getpid := 100 |}.

(** A module whose ION client is not open yet. *)
Definition closed_module : Ion.mali_gralloc_module := Ion.mk_module (-1) false false 0 [].

(** A descriptor of 64x64 pixels, RGBA_8888, of the given usage and size. *)
Definition descriptor_of (usage size : Z) : Descriptor.buffer_descriptor_t :=
  Descriptor.mk_descriptor 64 64 usage usage 1 1 MALI_GRALLOC_FORMAT_TYPE_USAGE size
    64 256 64 64 1 1 no_planes.

(** An attribute region service that always succeeds. *)
Definition plain_attr : Alloc.attr_service :=
  {| Alloc.gralloc_buffer_attr_allocate := fun h => (0, h);
     Alloc.gralloc_buffer_attr_free := fun h => (0, h) |}.

(** A request for an RGBA_8888 buffer, as the client fills the descriptor. *)
Definition request_of (width height usage : Z) : Descriptor.buffer_descriptor_t :=
  Descriptor.mk_descriptor width height usage usage 1 1 MALI_GRALLOC_FORMAT_TYPE_USAGE 0
    0 0 0 0 0 0 no_planes.

(** mali_gralloc_buffer_allocate for a batch of requests, on a device
    without AFBC whose kernel grants every request. *)
Definition allocate_granted {P : Platform} (requests : list Descriptor.buffer_descriptor_t)
  : option Alloc.buffer_allocation :=
  Alloc.mali_gralloc_buffer_allocate no_caps granting_kernel lp64_layout plain_attr
    legacy_module (fun _ => 0) requests (map (fun _ => None) requests) 0 [].

(** A 64x64 RGBA_8888 buffer of process 100, uncompressed, in ION memory
    that is mapped at address 8192. *)
Definition rgba_handle : Handle.private_handle_t :=
  Handle.set_base
    (Handle.new_private_handle_t lp64_layout 100 Handle.PRIV_FLAGS_USES_ION 16384 4096
       (2 ^ 8) 3 5 1 1 1 64 64 64 64 64 256 16384 1 no_planes)
    8192.

(** A 64x64 RGBA_8888 buffer allocated with AFBC basic by process 100. *)
Definition afbc_handle {P : Platform} : Handle.private_handle_t :=
  Handle.new_private_handle_t lp64_layout 100 0 16384 4096 (2 ^ 8) (2 ^ 9) 5 1
    (1 + 2 ^ 32) (1 + 2 ^ 32) 64 64 64 64 64 256 16384 1 no_planes.

End Examples.

(** * Properties *)

(** ** C integer conversions *)

Lemma to_uint32_small x : 0 <= x < 2 ^ 32 -> to_uint32 x = x.
Proof. intros H. unfold to_uint32, wrap. now apply Z.mod_small. Qed.

Lemma to_uint64_small x : 0 <= x < 2 ^ 64 -> to_uint64 x = x.
Proof. intros H. unfold to_uint64, wrap. now apply Z.mod_small. Qed.

Lemma to_int32_small x : 0 <= x < 2 ^ 31 -> to_int32 x = x.
Proof.
  intros H. unfold to_int32, wrap.
  rewrite Z.mod_small by lia.
  destruct (Z.ltb_spec x (2 ^ 31)); lia.
Qed.

Lemma to_uint32_range x : 0 <= to_uint32 x < 2 ^ 32.
Proof. unfold to_uint32, wrap. apply Z.mod_pos_bound. lia. Qed.



(** ** Catalog scans *)

Lemma scan_from_le {P : Platform} fs i key :
  (i <= scan_from fs i key <= i + length fs)%nat.
Proof.
  revert i. induction fs as [|f rest IH]; intros i; simpl; [lia|].
  destruct (id f =? key); [lia|]. specialize (IH (S i)). lia.
Qed.

Lemma scan_from_miss {P : Platform} fs i key :
  (forall f, In f fs -> id f <> key) ->
  scan_from fs i key = (i + length fs)%nat.
Proof.
  revert i. induction fs as [|f rest IH]; intros i Hm; simpl; [lia|].
  destruct (Z.eqb_spec (id f) key) as [E|_].
  - exfalso. apply (Hm f); [now left | exact E].
  - rewrite IH; [lia|]. intros g Hg. apply Hm. now right.
Qed.

Lemma scan_from_hit {P : Platform} fs i key :
  (scan_from fs i key < i + length fs)%nat ->
  exists f, nth_error fs (scan_from fs i key - i) = Some f /\ id f = key.
Proof.
  revert i. induction fs as [|f rest IH]; intros i Hlt; simpl in *; [lia|].
  destruct (Z.eqb_spec (id f) key) as [E|_].
  - exists f. rewrite Nat.sub_diag. now split.
  - destruct (IH (S i)) as [g [Hg Hid]]; [lia|].
      exists g. split; [|exact Hid].
      pose proof (scan_from_le rest (S i) key) as Hle.
      replace (scan_from rest (S i) key - i)%nat
        with (S (scan_from rest (S i) key - S i)) by lia.
      exact Hg.
Qed.


Lemma formats_at_Some {P : Platform} i f :
  formats_at i = Some f -> (i < num_formats)%nat /\ In f formats.
Proof.
  unfold formats_at, num_formats. intros H. split.
  - apply nth_error_Some. congruence.
  - eapply nth_error_In; eauto.
Qed.

Lemma formats_at_lt {P : Platform} i :
  (i < num_formats)%nat -> exists f, formats_at i = Some f.
Proof.
  unfold formats_at, num_formats. intros H.
  destruct (nth_error formats i) eqn:E; [eauto|].
  apply nth_error_None in E. lia.
Qed.

(** A scan that stops inside the table stops at an entry with the key. *)
Lemma format_scan_found {P : Platform} key f :
  formats_at (format_scan key) = Some f -> id f = key.
Proof.
  intros H. destruct (formats_at_Some _ _ H) as [Hlt _].
  unfold format_scan, num_formats in *.
  destruct (scan_from_hit formats 0 key) as [g [Hg Hid]]; [lia|].
  rewrite Nat.sub_0_r in Hg. unfold formats_at in H. congruence.
Qed.

(** A key that no entry has makes the scan run to [num_formats]. *)
Lemma format_scan_absent {P : Platform} key :
  (forall f, In f formats -> id f <> key) -> format_scan key = num_formats.
Proof.
  intros H. unfold format_scan. rewrite scan_from_miss by exact H. reflexivity.
Qed.

(** With pairwise distinct identifiers the scan for the identifier of an
    entry stops at that entry. *)
Lemma scan_from_nodup {P : Platform} fs i g :
  NoDup (map id fs) -> In g fs ->
  exists k, nth_error fs k = Some g /\ scan_from fs i (id g) = (i + k)%nat.
Proof.
  revert i. induction fs as [|f rest IH]; intros i Hnd Hin; [destruct Hin|].
  simpl in Hnd. inversion Hnd as [|? ? Hnotin Hnd']; subst.
  simpl. destruct Hin as [->|Hin].
  - exists 0%nat. rewrite Z.eqb_refl. split; [reflexivity | lia].
  - destruct (Z.eqb_spec (id f) (id g)) as [E|_].
    + exfalso. apply Hnotin. rewrite E. now apply in_map.
    + destruct (IH (S i) Hnd' Hin) as [k [Hk Hs]].
      exists (S k). split; [exact Hk | lia].
Qed.

Lemma format_scan_entry {P : Platform} g :
  NoDup (map id formats) -> In g formats ->
  formats_at (format_scan (id g)) = Some g.
Proof.
  intros Hnd Hin. destruct (scan_from_nodup formats 0 g Hnd Hin) as [k [Hk Hs]].
  unfold formats_at, format_scan. now rewrite Hs.
Qed.

(** ** Bit masks *)

Ltac bits :=
  apply Z.bits_inj'; intros ?n ?Hn;
  repeat first [ rewrite Z.land_spec | rewrite Z.lor_spec | rewrite Z.ldiff_spec
               | rewrite Z.bits_0 ];
  repeat match goal with
         | |- context [Z.testbit ?a ?n] =>
             let b := fresh "b" in
             remember (Z.testbit a n) as b; destruct b
         end;
  try reflexivity.

Lemma tst_true x m : tst x m = true <-> Z.land x m <> 0.
Proof.
  unfold tst. destruct (Z.eqb_spec (Z.land x m) 0); simpl; split; intros; congruence.
Qed.

Lemma tst_false x m : tst x m = false <-> Z.land x m = 0.
Proof.
  unfold tst. destruct (Z.eqb_spec (Z.land x m) 0); simpl; split; intros; congruence.
Qed.




(** ** The second assertion of update_yv12_stride *)

(** C3. In update_yv12_stride a chroma plane ([plane > 0]) gets half the
    luma stride, and the condition of the second assertion, which parses as
    [byte_stride & (15 == 0)], is 0, that is false, for that stride and for
    every other one: it does not depend on the alignment of the stride. *)
Theorem yv12_chroma_assertion_is_constant_false :
  forall (plane : nat) (luma_stride stride_align byte_stride : Z),
    update_yv12_stride (S plane) luma_stride stride_align byte_stride
      = Some (luma_stride / 2)
    /\ update_yv12_stride_assert_16 (luma_stride / 2) = 0
    /\ (forall s, update_yv12_stride_assert_16 s = 0
                  /\ c_true (update_yv12_stride_assert_16 s) = false).
Proof.
  intros plane luma_stride stride_align byte_stride.
  assert (H : forall s, update_yv12_stride_assert_16 s = 0).
  { intros s. unfold update_yv12_stride_assert_16.
    change (Z.b2z (15 =? 0)) with 0. apply Z.land_0_r. }
  repeat split.
  - apply H.
  - apply H.
  - rewrite H. reflexivity.
Qed.

(** ** get_alloc_type *)




(** ** afbc_format_fallback *)

Lemma convert_yuv_defined {P : Platform} format_idx :
  (format_idx < num_formats)%nat ->
  exists r, Fallback.convert_yuv_to_afbc_single_plane format_idx = Some r.
Proof.
  intros H. destruct (formats_at_lt _ H) as [f Hf].
  unfold Fallback.convert_yuv_to_afbc_single_plane. rewrite Hf. cbn [obind].
  destruct (negb (is_yuv f)); [eauto|].
  destruct ((npln f =? 1) && afbc f); [eauto|].
  match goal with |- context [find_index ?p formats 0] =>
    destruct (find_index p formats 0) end; eauto.
Qed.

(** C8. afbc_format_fallback returns true on every call with an index of
    the table: the assignment of the failure branch goes to a variable of
    the inner block. In particular a forced fallback of a format that is
    multi-plane or without AFBC, for which the conversion finds no
    single-plane format, returns true and leaves the index as it was. *)
Theorem afbc_format_fallback_always_true {P : Platform} (caps : runtime_caps) :
  forall (format_idx : nat) (usage : Z) (force : bool),
    (format_idx < num_formats)%nat ->
    (exists new_idx,
        Fallback.afbc_format_fallback caps format_idx usage force = Some (true, new_idx))
    /\ (forall f,
           formats_at format_idx = Some f ->
           (1 <? npln f) || negb (afbc f) = true ->
           Fallback.convert_yuv_to_afbc_single_plane format_idx = Some (false, format_idx) ->
           Fallback.afbc_format_fallback caps format_idx usage true
           = Some (true, format_idx)).
Proof.
  intros format_idx usage force Hidx.
  destruct (formats_at_lt _ Hidx) as [f Hf].
  destruct (convert_yuv_defined _ Hidx) as [[found idx'] Hc].
  split.
  - unfold Fallback.afbc_format_fallback.
    destruct (determine_producer usage) as [kp producer].
    destruct (determine_consumer caps usage) as [kc consumer].
    destruct (force || negb _); [|eauto].
    rewrite Hf. cbn [obind].
    destruct ((1 <? npln f) || negb (afbc f)); [|eauto].
    rewrite Hc. cbn [obind]. destruct found; eauto.
  - intros g Hg Hmulti Hfail.
    unfold Fallback.afbc_format_fallback.
    destruct (determine_producer usage) as [kp producer].
    destruct (determine_consumer caps usage) as [kc consumer].
    cbn [orb]. rewrite Hg. cbn [obind]. rewrite Hmulti, Hfail. reflexivity.
Qed.

Lemma afbc_format_fallback_always_true_witness :
  Fallback.convert_yuv_to_afbc_single_plane (P := aosp) 6 = Some (false, 6%nat)
  /\ exists new_idx,
       Fallback.afbc_format_fallback (P := aosp) Examples.no_caps 6 0 true
       = Some (true, new_idx).
Proof.
  split; [reflexivity|].
  apply (afbc_format_fallback_always_true (P := aosp) Examples.no_caps 6 0 true).
  vm_compute. lia.
Defined.

(** ** Catalog scans without a bound check *)

(** C9 fails on the code. HAL_PIXEL_FORMAT_YCbCr_422_888 (0x27), which
    map_flex_formats passes through, matches no entry: the scan ends at
    [num_formats], is_android_yuv_format and is_afbc_supported read the
    table there, outside its bounds, and so does a format selection for a
    GPU texture of that format. get_format_index tests the index and
    answers -1. *)
Theorem scan_of_unknown_format_leaves_table :
  format_scan (P := aosp) 0x27 = num_formats (P := aosp)
  /\ formats_at (P := aosp) (format_scan (P := aosp) 0x27) = None
  /\ is_android_yuv_format (P := aosp) 0x27 = None
  /\ is_afbc_supported (P := aosp) 0x27 = None
  /\ get_format_index (P := aosp) 0x27 = -1
  /\ mali_gralloc_select_format (P := aosp) Examples.no_caps 0x27
       MALI_GRALLOC_FORMAT_TYPE_USAGE (GRALLOC_USAGE_HW_TEXTURE (Platform := aosp)) 0
     = None.
Proof. repeat split. Qed.

(** ** Locks of AFBC buffers *)

Section AfbcLocks.
Context {P : Platform}.
Variable L : Handle.layout.
Variable lock_pid : Z.

Lemma validate_lock_rejects_afbc hnd l t w h usage :
  Z.land (Handle.alloc_format hnd) MALI_GRALLOC_INTFMT_EXT_MASK <> 0 ->
  Access.validate_lock_input_parameters lock_pid hnd l t w h usage <> 0.
Proof.
  intros Hext. unfold Access.validate_lock_input_parameters.
  apply Z.eqb_neq in Hext. rewrite Hext. simpl.
  repeat match goal with
         | |- (if ?c then _ else _) <> 0 => destruct c
         end;
    unfold EINVAL, GRALLOC1_ERROR_UNSUPPORTED; lia.
Qed.

(** C10. A buffer whose [alloc_format] has a bit of the extension mask set
    is refused by every lock: mali_gralloc_lock, mali_gralloc_lock_ycbcr
    and mali_gralloc_lock_flex_async return a status other than 0, leave
    the handle as it was and write nothing through their out-pointer, and
    mali_gralloc_get_num_flex_planes answers GRALLOC1_ERROR_UNSUPPORTED
    without a plane count. *)
Theorem afbc_buffers_cannot_be_locked :
  forall (hnd : Handle.private_handle_t) (usage l t w h : Z),
    Z.land (Handle.alloc_format hnd) MALI_GRALLOC_INTFMT_EXT_MASK <> 0 ->
    (forall vaddr,
        exists r, Access.mali_gralloc_lock L lock_pid (Some hnd) usage l t w h vaddr = Some r
                  /\ Access.lock_status r <> 0
                  /\ Access.lock_handle r = Some hnd
                  /\ Access.lock_out r = vaddr)
    /\ (forall ycbcr,
           exists r, Access.mali_gralloc_lock_ycbcr L lock_pid (Some hnd) usage l t w h ycbcr
                     = Some r
                     /\ Access.lock_status r <> 0
                     /\ Access.lock_handle r = Some hnd
                     /\ Access.lock_out r = ycbcr)
    /\ (forall flex_layout fence_fd,
           exists r, Access.mali_gralloc_lock_flex_async lock_pid (Some hnd) usage l t w h
                       flex_layout fence_fd = Some r
                     /\ Access.lock_status r <> 0
                     /\ Access.lock_handle r = Some hnd
                     /\ Access.lock_out r = Some flex_layout)
    /\ (forall num_planes,
           Access.mali_gralloc_get_num_flex_planes (Some hnd) num_planes
           = Some (GRALLOC1_ERROR_UNSUPPORTED, num_planes))
    /\ GRALLOC1_ERROR_UNSUPPORTED <> GRALLOC1_ERROR_NONE.
Proof.
  intros hnd usage l t w h Hext.
  pose proof (validate_lock_rejects_afbc hnd l t w h usage Hext) as Hv.
  apply Z.eqb_neq in Hv.
  repeat split.
  - intros vaddr. unfold Access.mali_gralloc_lock.
    destruct (Handle.validate L (Some hnd) <? 0).
    + eexists. split; [reflexivity|]. simpl. repeat split. unfold EINVAL. lia.
    + rewrite Hv. simpl. eexists. split; [reflexivity|]. simpl. repeat split.
      now apply Z.eqb_neq.
  - intros ycbcr. unfold Access.mali_gralloc_lock_ycbcr.
    destruct (Handle.validate L (Some hnd) <? 0).
    + eexists. split; [reflexivity|]. simpl. repeat split. unfold EINVAL. lia.
    + rewrite Hv. simpl. eexists. split; [reflexivity|]. simpl. repeat split.
      now apply Z.eqb_neq.
  - intros flex_layout fence_fd. unfold Access.mali_gralloc_lock_flex_async.
    rewrite Hv. simpl. eexists. split; [reflexivity|]. simpl. repeat split.
    now apply Z.eqb_neq.
  - intros num_planes. unfold Access.mali_gralloc_get_num_flex_planes.
    apply Z.eqb_neq in Hext. rewrite Hext. reflexivity.
  - discriminate.
Qed.

End AfbcLocks.

Lemma afbc_buffers_cannot_be_locked_witness :
  Z.land (Handle.alloc_format (Examples.afbc_handle (P := aosp)))
         (MALI_GRALLOC_INTFMT_EXT_MASK (Platform := aosp)) <> 0
  /\ forall num_planes,
       Access.mali_gralloc_get_num_flex_planes (P := aosp)
         (Some (Examples.afbc_handle (P := aosp))) num_planes
       = Some (GRALLOC1_ERROR_UNSUPPORTED, num_planes).
Proof.
  assert (H : Z.land (Handle.alloc_format (Examples.afbc_handle (P := aosp)))
                     (MALI_GRALLOC_INTFMT_EXT_MASK (Platform := aosp)) <> 0)
    by (vm_compute; discriminate).
  split; [exact H|].
  apply (afbc_buffers_cannot_be_locked (P := aosp) Examples.lp64_layout 100
           Examples.afbc_handle 3 0 0 64 64 H).
Defined.

(** ** Format selection *)

Lemma land_low32 x : 0 <= x < 2 ^ 32 -> Z.land x 0xffffffff = x.
Proof.
  intros H. change 0xffffffff with (Z.ones 32).
  rewrite Z.land_ones by lia. now apply Z.mod_small.
Qed.

Lemma int_roundtrip x : 0 <= x < 2 ^ 31 -> to_uint64 (to_int32 x) = x.
Proof.
  intros H. rewrite to_int32_small by exact H. apply to_uint64_small. lia.
Qed.

Section SelectionFacts.
Context {P : Platform}.
Variable caps : runtime_caps.

Lemma determine_producer_known usage :
  tst usage GRALLOC_USAGE_SW_MASK = false -> fst (determine_producer usage) = true.
Proof.
  intros H. unfold determine_producer. rewrite H.
  repeat match goal with
         | |- fst (if ?c then _ else _) = true => destruct c
         end; reflexivity.
Qed.

Lemma determine_consumer_known usage :
  tst usage GRALLOC_USAGE_SW_MASK = false -> fst (determine_consumer caps usage) = true.
Proof.
  intros H. unfold determine_consumer. rewrite H.
  repeat match goal with
         | |- fst (if ?c then _ else _) = true => destruct c
         end; reflexivity.
Qed.

Lemma in_formats_yuv g : In g formats_yuv -> In g formats.
Proof.
  intros H. unfold formats. apply in_or_app. right.
  apply in_or_app. right. apply in_or_app. now left.
Qed.

Lemma nv12_in_formats :
  exists g, In g formats /\ id g = MALI_GRALLOC_FORMAT_INTERNAL_NV12 /\ is_yuv g = true.
Proof.
  eexists. split.
  - apply in_formats_yuv. unfold formats_yuv. do 3 right. left. reflexivity.
  - split; reflexivity.
Qed.

Lemma ycbcr_422_i_in_formats :
  exists g, In g formats /\ id g = HAL_PIXEL_FORMAT_YCbCr_422_I /\ is_yuv g = true.
Proof.
  eexists. split.
  - apply in_formats_yuv. unfold formats_yuv. do 7 right. left. reflexivity.
  - split; reflexivity.
Qed.

(** The identifier of a YUV entry is mapped to the identifier of a YUV
    entry, whatever the values of the flexible formats are. *)
Lemma map_flex_formats_yuv f :
  Forall (fun f => 0 <= id f < 2 ^ 31) formats ->
  In f formats -> is_yuv f = true ->
  exists g, In g formats /\ is_yuv g = true
            /\ to_uint64 (map_flex_formats (id f)) = id g.
Proof.
  intros Hrange Hin Hyuv.
  rewrite Forall_forall in Hrange.
  destruct nv12_in_formats as [nv [Hnv [Hnvid Hnvy]]].
  destruct ycbcr_422_i_in_formats as [yi [Hyi [Hyiid Hyiy]]].
  unfold map_flex_formats.
  destruct ((id f =? HAL_PIXEL_FORMAT_IMPLEMENTATION_DEFINED)
            || (id f =? HAL_PIXEL_FORMAT_YCbCr_420_888)).
  - destruct (MALI_GRALLOC_FORMAT_INTERNAL_NV12 =? MALI_GRALLOC_FORMAT_INTERNAL_YUV422_8BIT).
    + exists yi. rewrite <- Hyiid. auto using int_roundtrip.
    + exists nv. rewrite <- Hnvid. auto using int_roundtrip.
  - destruct (id f =? MALI_GRALLOC_FORMAT_INTERNAL_YUV422_8BIT).
    + exists yi. rewrite <- Hyiid. auto using int_roundtrip.
    + exists f. auto using int_roundtrip.
Qed.

(** Where the code reaches its check, it rejects. With pairwise distinct
    format identifiers below 2^31 and a 32-bit format field: for every YUV
    entry of the table, a usage with both bits of
    MALI_GRALLOC_USAGE_NO_AFBC, without the private-format flag and without
    CPU read or write bits, and a format by usage,
    mali_gralloc_select_format returns 0. *)
Lemma no_afbc_usage_rejects_yuv :
  NoDup (map id formats) ->
  Forall (fun f => 0 <= id f < 2 ^ 31) formats ->
  MALI_GRALLOC_INTFMT_FMT_MASK = 0xffffffff ->
  forall (f : format_info_t) (usage buffer_size : Z),
    In f formats -> is_yuv f = true ->
    all_of usage MALI_GRALLOC_USAGE_NO_AFBC = true ->
    tst usage MALI_GRALLOC_USAGE_PRIVATE_FORMAT = false ->
    tst usage GRALLOC_USAGE_SW_MASK = false ->
    mali_gralloc_select_format caps (id f) MALI_GRALLOC_FORMAT_TYPE_USAGE usage buffer_size
    = Some 0.
Proof.
  intros Hnd Hrange Hmask f usage buffer_size Hin Hyuv Hno Hpriv Hsw.
  unfold mali_gralloc_select_format. rewrite Hpriv. cbn [orb].
  pose proof (determine_producer_known usage Hsw) as Hp.
  pose proof (determine_consumer_known usage Hsw) as Hc.
  destruct (determine_producer usage) as [kp producer].
  destruct (determine_consumer caps usage) as [kc consumer].
  simpl in Hp, Hc. subst kp kc. cbn [negb orb].
  rewrite Hno, Hmask.
  rewrite land_low32
    by (rewrite Forall_forall in Hrange; specialize (Hrange f Hin); lia).
  destruct (map_flex_formats_yuv f Hrange Hin Hyuv) as [g [Hg [Hgy Hid]]].
  rewrite Hid. unfold is_android_yuv_format.
  rewrite (format_scan_entry g Hnd Hg). cbn [obind]. rewrite Hgy. reflexivity.
Qed.

(** C1. The rejection is not enforced for a CPU usage. With format
    identifiers that are positive and below 2^31 and a 32-bit format
    field: for every YUV entry of the table and every usage with both bits
    of MALI_GRALLOC_USAGE_NO_AFBC, without the private-format flag, and
    with a CPU read or write bit, mali_gralloc_select_format does not
    return 0: it leaves before the check of the no-AFBC usage and returns
    the identifier of a YUV entry, the one the format is mapped to. *)
Theorem no_afbc_yuv_with_cpu_usage_is_not_rejected :
  Forall (fun f => 0 < id f < 2 ^ 31) formats ->
  MALI_GRALLOC_INTFMT_FMT_MASK = 0xffffffff ->
  forall (f : format_info_t) (usage buffer_size : Z),
    In f formats -> is_yuv f = true ->
    all_of usage MALI_GRALLOC_USAGE_NO_AFBC = true ->
    tst usage MALI_GRALLOC_USAGE_PRIVATE_FORMAT = false ->
    tst usage GRALLOC_USAGE_SW_MASK = true ->
    exists g,
      In g formats /\ is_yuv g = true /\ id g <> 0
      /\ mali_gralloc_select_format caps (id f) MALI_GRALLOC_FORMAT_TYPE_USAGE usage
           buffer_size = Some (id g).
Proof.
  intros Hpos Hmask f usage buffer_size Hin Hyuv Hno Hpriv Hsw.
  assert (Hrange : Forall (fun f => 0 <= id f < 2 ^ 31) formats).
  { apply Forall_forall. intros h Hh. rewrite Forall_forall in Hpos.
    specialize (Hpos h Hh). lia. }
  destruct (map_flex_formats_yuv f Hrange Hin Hyuv) as [g [Hg [Hgy Hid]]].
  exists g. split; [exact Hg|]. split; [exact Hgy|]. split.
  - rewrite Forall_forall in Hpos. specialize (Hpos g Hg). lia.
  - unfold mali_gralloc_select_format. rewrite Hpriv. cbn [orb].
    unfold determine_producer. rewrite Hsw.
    destruct (determine_consumer caps usage) as [kc consumer]. cbn [negb orb].
    rewrite Hmask.
    rewrite land_low32
      by (rewrite Forall_forall in Hrange; specialize (Hrange f Hin); lia).
    rewrite Hid. reflexivity.
Qed.

End SelectionFacts.

Lemma aosp_ids_distinct : NoDup (map id (formats (P := aosp))).
Proof.
  vm_compute.
  repeat (constructor; [simpl; intuition discriminate|]). constructor.
Qed.

Lemma ids_range_by_computation (l : list format_info_t) :
  forallb (fun f => (0 <=? id f) && (id f <? 2 ^ 31)) l = true ->
  Forall (fun f => 0 <= id f < 2 ^ 31) l.
Proof.
  intros H. apply Forall_forall. intros f Hin.
  rewrite forallb_forall in H. specialize (H f Hin).
  apply andb_true_iff in H. destruct H as [H1 H2].
  apply Z.leb_le in H1. apply Z.ltb_lt in H2. lia.
Qed.

Lemma aosp_ids_range : Forall (fun f => 0 <= id f < 2 ^ 31) (formats (P := aosp)).
Proof. apply ids_range_by_computation. reflexivity. Qed.

Lemma no_afbc_usage_rejects_yuv_witness :
  mali_gralloc_select_format (P := aosp) Examples.gpu_caps 0x100
    MALI_GRALLOC_FORMAT_TYPE_USAGE (2 ^ 29 + 2 ^ 30 + 2 ^ 8) 0 = Some 0.
Proof.
  apply (no_afbc_usage_rejects_yuv (P := aosp) Examples.gpu_caps
           aosp_ids_distinct aosp_ids_range eq_refl
           (mk_format 0x100 2 3 8 [8;16;0] [8;16;0] 2 2 1 false true true true true 1)
           (2 ^ 29 + 2 ^ 30 + 2 ^ 8) 0).
  - vm_compute. do 10 right. left. reflexivity.
  - reflexivity.
  - reflexivity.
  - reflexivity.
  - reflexivity.
Defined.

Lemma aosp_ids_positive : Forall (fun f => 0 < id f < 2 ^ 31) (formats (P := aosp)).
Proof.
  apply Forall_forall. intros f Hin.
  assert (H : forallb (fun f => (0 <? id f) && (id f <? 2 ^ 31)) (formats (P := aosp)) = true)
    by reflexivity.
  rewrite forallb_forall in H. specialize (H f Hin).
  apply andb_true_iff in H. destruct H as [H1 H2].
  apply Z.ltb_lt in H1. apply Z.ltb_lt in H2. lia.
Qed.

Lemma no_afbc_yuv_with_cpu_usage_is_not_rejected_witness :
  exists g,
    In g (formats (P := aosp)) /\ is_yuv g = true /\ id g <> 0
    /\ mali_gralloc_select_format (P := aosp) Examples.no_caps
         (id (mk_format 0x100 2 3 8 [8;16;0] [8;16;0] 2 2 1 false true true true true 1))
         MALI_GRALLOC_FORMAT_TYPE_USAGE (2 ^ 29 + 2 ^ 30 + 2) 0 = Some (id g).
Proof.
  apply (no_afbc_yuv_with_cpu_usage_is_not_rejected (P := aosp) Examples.no_caps
           aosp_ids_positive eq_refl
           (mk_format 0x100 2 3 8 [8;16;0] [8;16;0] 2 2 1 false true true true true 1)
           (2 ^ 29 + 2 ^ 30 + 2) 0).
  - vm_compute. do 10 right. left. reflexivity.
  - reflexivity.
  - reflexivity.
  - reflexivity.
  - reflexivity.
Defined.

(** C1 on the failing input. NV12 is a YUV entry and the usage carries
    both bits of MALI_GRALLOC_USAGE_NO_AFBC together with a CPU read bit:
    the producer is the CPU, the format comes back as it was mapped, and
    the allocation of a 64 x 64 buffer goes on to request 6144 bytes of
    backing memory and returns 0. With the texture bit in the place of the
    CPU bit the same request is refused: the selection returns 0 and the
    allocation -EINVAL without a request. *)
Lemma no_afbc_yuv_with_cpu_usage_is_selected :
  (exists f, In f (formats (P := aosp)) /\ id f = 0x100 /\ is_yuv f = true)
  /\ all_of (2 ^ 29 + 2 ^ 30 + 2) (MALI_GRALLOC_USAGE_NO_AFBC (P := aosp)) = true
  /\ tst (2 ^ 29 + 2 ^ 30 + 2) (MALI_GRALLOC_USAGE_PRIVATE_FORMAT (P := aosp)) = false
  /\ mali_gralloc_select_format (P := aosp) Examples.no_caps 0x100
       MALI_GRALLOC_FORMAT_TYPE_USAGE (2 ^ 29 + 2 ^ 30 + 2) 0 = Some 0x100
  /\ option_map (fun r => (Alloc.result r, Ion.backing_allocations (Alloc.ion_requests r)))
       (Examples.allocate_granted (P := aosp)
          [Descriptor.mk_descriptor 64 64 (2 ^ 29 + 2 ^ 30 + 2) (2 ^ 29 + 2 ^ 30 + 2) 0x100 1
             MALI_GRALLOC_FORMAT_TYPE_USAGE 0 0 0 0 0 0 0 Examples.no_planes])
     = Some (0, [Ion.ION_ALLOC 6144 1 0 (Some 7)])
  /\ mali_gralloc_select_format (P := aosp) Examples.no_caps 0x100
       MALI_GRALLOC_FORMAT_TYPE_USAGE (2 ^ 29 + 2 ^ 30 + 2 ^ 8) 0 = Some 0
  /\ option_map (fun r => (Alloc.result r, Ion.backing_allocations (Alloc.ion_requests r)))
       (Examples.allocate_granted (P := aosp)
          [Descriptor.mk_descriptor 64 64 (2 ^ 29 + 2 ^ 30 + 2 ^ 8) (2 ^ 29 + 2 ^ 30 + 2 ^ 8)
             0x100 1 MALI_GRALLOC_FORMAT_TYPE_USAGE 0 0 0 0 0 0 0 Examples.no_planes])
     = Some (- EINVAL, []).
Proof.
  split.
  - exists (mk_format 0x100 2 3 8 [8;16;0] [8;16;0] 2 2 1 false true true true true 1).
    split; [|split; reflexivity].
    vm_compute. do 10 right. left. reflexivity.
  - repeat split; vm_compute; reflexivity.
Qed.

(** *** The front-buffer rule *)

Lemma Some_eq {A : Type} (a b : A) : Some a = Some b -> a = b.
Proof. congruence. Qed.





Section FrontBuffer.
Context {P : Platform}.
Variable caps : runtime_caps.

Hypothesis ids_range : Forall (fun f => 0 <= id f < 2 ^ 31) formats.
Hypothesis fmt_mask : MALI_GRALLOC_INTFMT_FMT_MASK = 0xffffffff.
Hypothesis db_above_format :
  Z.land 0xffffffff MALI_GRALLOC_INTFMT_AFBC_DOUBLE_BODY = 0.
Hypothesis db_basic :
  Z.land MALI_GRALLOC_INTFMT_AFBC_BASIC MALI_GRALLOC_INTFMT_AFBC_DOUBLE_BODY = 0.
Hypothesis db_split :
  Z.land MALI_GRALLOC_INTFMT_AFBC_SPLITBLK MALI_GRALLOC_INTFMT_AFBC_DOUBLE_BODY = 0.
Hypothesis db_wide :
  Z.land MALI_GRALLOC_INTFMT_AFBC_WIDEBLK MALI_GRALLOC_INTFMT_AFBC_DOUBLE_BODY = 0.
Hypothesis db_tiled :
  Z.land MALI_GRALLOC_INTFMT_AFBC_TILED_HEADERS MALI_GRALLOC_INTFMT_AFBC_DOUBLE_BODY = 0.








End FrontBuffer.



(** ** Plane geometry and allocation size *)

Lemma GRALLOC_ALIGN_bounds v b : 0 < b -> v <= GRALLOC_ALIGN v b < v + b.
Proof.
  intros Hb. unfold GRALLOC_ALIGN.
  pose proof (Z.div_mod (v + b - 1) b ltac:(lia)) as E.
  pose proof (Z.mod_pos_bound (v + b - 1) b Hb) as Hr.
  set (q := (v + b - 1) / b) in *. lia.
Qed.

Lemma GRALLOC_ALIGN_mono v1 v2 b : 0 < b -> v1 <= v2 -> GRALLOC_ALIGN v1 b <= GRALLOC_ALIGN v2 b.
Proof.
  intros Hb Hv. unfold GRALLOC_ALIGN.
  apply Z.mul_le_mono_nonneg_r; [lia|]. apply Z.div_le_mono; lia.
Qed.

Lemma GRALLOC_ALIGN_multiple v b : 0 < b -> (GRALLOC_ALIGN v b) mod b = 0.
Proof. intros Hb. unfold GRALLOC_ALIGN. apply Z.mod_mul. lia. Qed.

Lemma align_u32_eq v b :
  0 < b -> 0 <= v -> v + b <= 2 ^ 32 -> align_u32 v b = Some (GRALLOC_ALIGN v b).
Proof.
  intros Hb Hv Hs. unfold align_u32.
  destruct (Z.eqb_spec b 0) as [E|_]; [lia|].
  pose proof (GRALLOC_ALIGN_bounds v b Hb) as Hg. unfold GRALLOC_ALIGN in *.
  rewrite (to_uint32_small (v + b - 1)) by lia.
  assert (Hq : 0 <= (v + b - 1) / b <= v + b - 1).
  { split; [apply Z.div_pos; lia|]. apply Z.div_le_upper_bound; [lia|]. nia. }
  rewrite (to_uint32_small ((v + b - 1) / b)) by lia.
  rewrite to_uint32_small by lia. reflexivity.
Qed.

Lemma align_u32_None v : align_u32 v 0 = None.
Proof. reflexivity. Qed.

Lemma align_int_eq v b :
  0 < b -> 0 <= v -> v + b <= 2 ^ 31 -> align_int v b = GRALLOC_ALIGN v b.
Proof.
  intros Hb Hv Hs. unfold align_int.
  pose proof (GRALLOC_ALIGN_bounds v b Hb) as Hg. unfold GRALLOC_ALIGN in *.
  rewrite (to_int32_small (v + b - 1)) by lia.
  rewrite Z.quot_div_nonneg by lia.
  rewrite to_int32_small by lia. reflexivity.
Qed.

Lemma gcd_loop_nonneg fuel a b : 0 <= a -> 0 <= b -> 0 <= gcd_loop fuel a b.
Proof.
  revert a b. induction fuel as [|fuel IH]; intros a b Ha Hb; simpl; [exact Ha|].
  destruct (Z.eqb_spec b 0) as [E|E]; [exact Ha|].
  apply IH; [exact Hb|]. apply Z.mod_pos_bound. lia.
Qed.

Lemma gcd_nonneg a b : 0 <= a -> 0 <= b -> 0 <= gcd a b.
Proof.
  intros Ha Hb. unfold gcd.
  destruct (a =? b); [exact Ha|].
  destruct (a <? b); apply gcd_loop_nonneg; assumption.
Qed.

Lemma div_by_nonneg_le x g : 0 <= x -> 0 <= g -> 0 <= x / g <= x.
Proof.
  intros Hx Hg. destruct (Z.eq_dec g 0) as [->|Hne].
  - rewrite Z.div_0_r. lia.
  - split; [apply Z.div_pos; lia|].
    apply Z.div_le_upper_bound; [lia|]. nia.
Qed.

Lemma lcm_bounds a b :
  0 <= a <= 128 -> 0 <= b <= 128 -> 0 <= lcm a b <= 16384.
Proof.
  intros Ha Hb. unfold lcm.
  destruct (negb (a =? 0) && negb (b =? 0)).
  - assert (Hab : 0 <= a * b <= 16384) by nia.
    rewrite to_uint32_small by lia.
    pose proof (div_by_nonneg_le (a * b) (gcd a b) ltac:(lia)
                  (gcd_nonneg a b ltac:(lia) ltac:(lia))).
    lia.
  - rewrite !to_int32_small by lia. unfold max2.
    destruct (b <? a); rewrite to_uint32_small; lia.
Qed.

Lemma length_set_plane pi plane v : length (set_plane pi plane v) = length pi.
Proof.
  revert plane. induction pi as [|p pi IH]; intros [|plane]; simpl; auto.
Qed.

Lemma get_plane_set_plane_same pi plane v :
  (plane < length pi)%nat -> get_plane (set_plane pi plane v) plane = v.
Proof.
  unfold get_plane. revert plane.
  induction pi as [|p pi IH]; intros [|plane] H; simpl in *; try lia; auto.
  apply IH. lia.
Qed.

Lemma get_plane_set_plane_other pi plane q v :
  plane <> q -> get_plane (set_plane pi plane v) q = get_plane pi q.
Proof.
  unfold get_plane. revert plane q.
  induction pi as [|p pi IH]; intros [|plane] [|q] H; simpl in *; auto; try congruence.
Qed.

Lemma max2_bounds a b M : a <= M -> b <= M -> a <= max2 a b <= M /\ b <= max2 a b.
Proof. intros. unfold max2. destruct (Z.ltb_spec b a); lia. Qed.

Lemma max3_bounds a b c M :
  a <= M -> b <= M -> c <= M -> a <= max3 a b c <= M.
Proof.
  intros. unfold max3. pose proof (max2_bounds a b M).
  destruct (Z.ltb_spec (max2 a b) c); lia.
Qed.

Lemma max4_bounds a b c d M :
  a <= M -> b <= M -> c <= M -> d <= M -> a <= max4 a b c d <= M.
Proof.
  intros. unfold max4. pose proof (max3_bounds a b c M).
  destruct (Z.ltb_spec (max3 a b c) d); lia.
Qed.

Import Ranges.

Lemma at_plane_in_range a plane :
  forallb bits_in_range a = true -> 0 <= at_plane a plane <= 64.
Proof.
  intros H. unfold at_plane.
  destruct (nth_in_or_default plane a 0) as [Hin|E]; [|rewrite E; lia].
  rewrite forallb_forall in H. specialize (H _ Hin).
  unfold bits_in_range in H. lia.
Qed.

Lemma fields_in_range_spec f :
  fields_in_range f = true ->
  0 <= npln f <= 3 /\ 1 <= hsub f <= 4 /\ 1 <= vsub f <= 4
  /\ 0 <= tile_size f <= 16 /\ 0 <= pwa f <= 16
  /\ (forall plane, 0 <= at_plane (bpp f) plane <= 64)
  /\ (forall plane, 0 <= at_plane (bpp_afbc f) plane <= 64).
Proof.
  unfold fields_in_range. intros H.
  repeat (apply andb_prop in H; destruct H as [H ?]).
  repeat split; try lia; intros; apply at_plane_in_range; assumption.
Qed.

Lemma sb_size_cases t plane :
  let sb := get_afbc_sb_size t plane in
  (width sb = 0 /\ height sb = 0 /\ is_afbc t = false)
  \/ (width sb = 16 /\ height sb = 16)
  \/ (width sb = 32 /\ height sb = 8)
  \/ (width sb = 64 /\ height sb = 4).
Proof.
  unfold get_afbc_sb_size, is_afbc.
  destruct ((0 <? plane)%nat); destruct (primary_type t); destruct (is_multi_plane t);
    simpl; auto.
Qed.

(** The two alignments of get_pixel_w_h do not depend on the dimensions:
    with them the function has a closed form while nothing wraps. *)
Lemma get_pixel_w_h_closed {P : Platform} f t plane cpu :
  fields_in_range f = true ->
  exists Aw Ah,
    1 <= Aw <= 512 /\ 1 <= Ah <= 128
    /\ forall w h,
        0 <= w <= MAX_DIMENSION -> 0 <= h <= MAX_DIMENSION ->
        get_pixel_w_h (to_uint32 w) (to_uint32 h) f t plane cpu
        = Some (GRALLOC_ALIGN (if (0 <? plane)%nat
                               then GRALLOC_ALIGN w (hsub f) / hsub f
                               else GRALLOC_ALIGN w (hsub f)) Aw,
                GRALLOC_ALIGN (if (0 <? plane)%nat
                               then GRALLOC_ALIGN h (vsub f) / vsub f
                               else GRALLOC_ALIGN h (vsub f)) Ah).
Proof.
  intros Hf.
  destruct (fields_in_range_spec f Hf) as (Hn & Hh & Hv & Ht & Hp & Hb & Hba).
  unfold get_pixel_w_h. cbv zeta.
  pose proof (sb_size_cases t plane) as Hsb. cbv zeta in Hsb.
  set (sb := get_afbc_sb_size t plane) in *.
  set (pixel_align_w := if cpu then _ else _).
  set (tile := if is_tiled t then _ else sb).
  assert (Hpa : pixel_align_w <= 512).
  { subst pixel_align_w. unfold max2.
    destruct cpu; [lia|]. destruct (is_afbc t); [|lia].
    destruct (is_padded t && negb (is_yuv f));
      [change (4 <? 0) with false | change (0 <? 0) with false]; cbv iota; lia. }
  assert (Htw : width tile <= 512 /\ height tile <= 128).
  { subst tile. destruct (is_tiled t); [|lia].
    destruct (32 <? at_plane (bpp_afbc f) plane); simpl;
      destruct Hsb as [(-> & -> & _)|[(-> & ->)|[(-> & ->)|(-> & ->)]]];
      vm_compute; split; discriminate. }
  pose proof (max4_bounds 1 pixel_align_w (tile_size f) (width tile) 512
                ltac:(lia) Hpa ltac:(lia) ltac:(lia)) as Hw4.
  pose proof (max3_bounds 1 (tile_size f) (height tile) 128
                ltac:(lia) ltac:(lia) ltac:(lia)) as Hh3.
  exists (to_uint32 (max4 1 pixel_align_w (tile_size f) (width tile))),
         (to_uint32 (max3 1 (tile_size f) (height tile))).
  rewrite !to_uint32_small by lia.
  split; [lia|]. split; [lia|].
  intros w h Hw Hhh. unfold MAX_DIMENSION in *.
  rewrite (to_uint32_small w), (to_uint32_small h) by lia.
  pose proof (GRALLOC_ALIGN_bounds w (hsub f) ltac:(lia)) as Gw.
  pose proof (GRALLOC_ALIGN_bounds h (vsub f) ltac:(lia)) as Gh.
  rewrite (align_u32_eq w), (align_u32_eq h) by lia. cbn [obind].
  destruct (Z.eqb_spec (hsub f) 0) as [E|_]; [lia|].
  destruct (Z.eqb_spec (vsub f) 0) as [E|_]; [lia|].
  pose proof (div_by_nonneg_le (GRALLOC_ALIGN w (hsub f)) (hsub f) ltac:(lia) ltac:(lia)).
  pose proof (div_by_nonneg_le (GRALLOC_ALIGN h (vsub f)) (vsub f) ltac:(lia) ltac:(lia)).
  destruct (0 <? plane)%nat; cbn [obind];
    rewrite !align_u32_eq by lia; reflexivity.
Qed.

Ltac planes :=
  repeat first
    [ rewrite length_set_plane
    | rewrite get_plane_set_plane_same by (rewrite ?length_set_plane; lia)
    | rewrite get_plane_set_plane_other by lia ];
  cbn [offset byte_stride alloc_width alloc_height].

Lemma stride_align_bounds f plane (cpu hw : bool) :
  fields_in_range f = true ->
  0 <= lcm (if hw then (if is_yuv f then 128 else 64) else 0)
           (if cpu then to_uint32 (Z.quot (at_plane (bpp f) plane * pwa f) 8) else 0)
    <= 16384.
Proof.
  intros Hf.
  destruct (fields_in_range_spec f Hf) as (Hn & Hh & Hv & Ht & Hp & Hb & Hba).
  specialize (Hb plane).
  apply lcm_bounds.
  - destruct hw; [destruct (is_yuv f)|]; lia.
  - destruct cpu; [|lia].
    assert (0 <= at_plane (bpp f) plane * pwa f <= 1024) by nia.
    rewrite Z.quot_div_nonneg by lia.
    assert (0 <= at_plane (bpp f) plane * pwa f / 8 <= 128).
    { split; [apply Z.div_pos; lia|]. apply Z.div_le_upper_bound; lia. }
    rewrite to_uint32_small; lia.
Qed.

Lemma calc_byte_stride_mono {P : Platform} f t cpu hw plane aw1 aw2 pi1 pi2 pi1' :
  fields_in_range f = true ->
  (plane < 3)%nat -> length pi1 = 3%nat -> length pi2 = 3%nat ->
  0 <= aw1 <= aw2 -> aw2 <= 4610 ->
  (plane <> 0%nat ->
   0 <= byte_stride (get_plane pi1 0) <= byte_stride (get_plane pi2 0)
   /\ byte_stride (get_plane pi2 0) <= 2 ^ 17) ->
  calc_byte_stride t f cpu hw plane aw1 pi1 = Some pi1' ->
  exists pi2',
    calc_byte_stride t f cpu hw plane aw2 pi2 = Some pi2'
    /\ length pi1' = 3%nat /\ length pi2' = 3%nat
    /\ 0 <= byte_stride (get_plane pi1' plane) <= byte_stride (get_plane pi2' plane)
    /\ byte_stride (get_plane pi2' plane) <= 2 ^ 17
    /\ alloc_width (get_plane pi1' plane) = aw1
    /\ alloc_width (get_plane pi2' plane) = aw2
    /\ alloc_height (get_plane pi1' plane) = alloc_height (get_plane pi1 plane)
    /\ alloc_height (get_plane pi2' plane) = alloc_height (get_plane pi2 plane)
    /\ (plane <> 0%nat ->
        get_plane pi1' 0 = get_plane pi1 0 /\ get_plane pi2' 0 = get_plane pi2 0).
Proof.
  intros Hf Hpl L1 L2 Haw Haw2 Hluma.
  destruct (fields_in_range_spec f Hf) as (Hn & Hh & Hv & Ht & Hp & Hb & Hba).
  specialize (Hb plane). specialize (Hba plane).
  unfold calc_byte_stride. cbv zeta beta.
  assert (Hs : forall b, 0 <= b <= 64 ->
                 0 <= to_uint32 (aw1 * b) / 8 <= to_uint32 (aw2 * b) / 8
                 /\ to_uint32 (aw2 * b) / 8 <= 36880).
  { intros b Hb'.
    assert (0 <= aw1 * b <= aw2 * b) by nia.
    assert (aw2 * b <= 295040) by nia.
    rewrite !to_uint32_small by lia.
    split; [split|].
    - apply Z.div_pos; lia.
    - apply Z.div_le_mono; lia.
    - apply Z.div_le_upper_bound; lia. }
  destruct (is_afbc t).
  - intros H. apply Some_eq in H. subst pi1'.
    eexists. split; [reflexivity|].
    specialize (Hs _ Hba). planes.
    repeat split; try lia; rewrite get_plane_set_plane_other by lia; reflexivity.
  - specialize (Hs _ Hb).
    pose proof (stride_align_bounds f plane cpu hw Hf) as Hsa.
    set (sa := lcm _ _) in *.
    planes.
    destruct (Z.eq_dec sa 0) as [E|E]; [rewrite E; discriminate|].
    rewrite !align_u32_eq by lia. cbn [obind]. planes.
    set (b1 := to_uint32 (aw1 * at_plane (bpp f) plane) / 8) in *.
    set (b2 := to_uint32 (aw2 * at_plane (bpp f) plane) / 8) in *.
    pose proof (GRALLOC_ALIGN_bounds b1 sa ltac:(lia)) as G1.
    pose proof (GRALLOC_ALIGN_bounds b2 sa ltac:(lia)) as G2.
    pose proof (GRALLOC_ALIGN_mono b1 b2 sa ltac:(lia) ltac:(lia)) as G12.
    destruct ((id f =? MALI_GRALLOC_FORMAT_INTERNAL_YV12) && hw && cpu).
    + destruct plane as [|plane']; unfold update_yv12_stride.
      * planes.
        rewrite (to_uint32_small (2 * sa)) by lia.
        rewrite !align_u32_eq by lia. cbn [obind].
        intros H. apply Some_eq in H. subst pi1'.
        eexists. split; [reflexivity|]. planes.
        pose proof (GRALLOC_ALIGN_bounds (GRALLOC_ALIGN b1 sa) (2 * sa) ltac:(lia)).
        pose proof (GRALLOC_ALIGN_bounds (GRALLOC_ALIGN b2 sa) (2 * sa) ltac:(lia)).
        pose proof (GRALLOC_ALIGN_mono (GRALLOC_ALIGN b1 sa) (GRALLOC_ALIGN b2 sa) (2 * sa)
                      ltac:(lia) ltac:(lia)).
        repeat split; try lia; congruence.
      * planes. cbn [obind].
        intros H. apply Some_eq in H. subst pi1'.
        eexists. split; [reflexivity|]. planes.
        destruct (Hluma ltac:(lia)) as [Hl1 Hl2].
        pose proof (Z.div_le_mono _ _ 2 ltac:(lia) (proj2 Hl1)).
        pose proof (Z.div_pos (byte_stride (get_plane pi1 0)) 2 ltac:(lia) ltac:(lia)).
        pose proof (Z.div_le_upper_bound (byte_stride (get_plane pi2 0)) 2 (2 ^ 17)
                      ltac:(lia) ltac:(lia)).
        repeat split; try lia; reflexivity.
    + intros H. apply Some_eq in H. subst pi1'.
      eexists. split; [reflexivity|]. planes.
      repeat split; try lia; rewrite ?get_plane_set_plane_other by lia; reflexivity.
Qed.

Lemma afbc_buffer_align_mono tiled s1 s2 :
  0 <= s1 <= s2 -> s2 <= 2 ^ 30 ->
  s1 <= afbc_buffer_align tiled s1 <= afbc_buffer_align tiled s2
  /\ s2 <= afbc_buffer_align tiled s2 <= s2 + 4095.
Proof.
  intros H1 H2. unfold afbc_buffer_align. cbv zeta.
  set (a := if tiled then 4 * 1024 else 1024).
  assert (Ha : 0 < a <= 4096) by (subst a; destruct tiled; lia).
  rewrite !align_int_eq by lia.
  pose proof (GRALLOC_ALIGN_bounds s1 a ltac:(lia)).
  pose proof (GRALLOC_ALIGN_bounds s2 a ltac:(lia)).
  pose proof (GRALLOC_ALIGN_mono s1 s2 a ltac:(lia) ltac:(lia)).
  lia.
Qed.

Lemma calc_body_size_mono f t plane n1 n2 p1 p2 :
  fields_in_range f = true ->
  0 <= n1 <= n2 -> n2 <= 2 ^ 17 ->
  0 <= byte_stride p1 <= byte_stride p2 -> byte_stride p2 <= 2 ^ 17 ->
  0 <= alloc_height p1 <= alloc_height p2 -> alloc_height p2 <= 4226 ->
  0 <= calc_body_size t f plane n1 p1 <= calc_body_size t f plane n2 p2
  /\ calc_body_size t f plane n2 p2 <= 580000000.
Proof.
  intros Hf Hn Hn2 Hs Hs2 Hh Hh2.
  destruct (fields_in_range_spec f Hf) as (_ & _ & _ & _ & _ & _ & Hba).
  specialize (Hba plane).
  unfold calc_body_size. cbv zeta.
  destruct (is_afbc t) eqn:Eafbc.
  - set (sb := get_afbc_sb_size t plane).
    set (q := Z.quot (at_plane (bpp_afbc f) plane * width sb * height sb) 8).
    assert (Hq : 0 <= q <= 2048).
    { subst q sb.
      destruct (sb_size_cases t plane) as [(_ & _ & E)|[(-> & ->)|[(-> & ->)|(-> & ->)]]];
        [congruence| | |];
        rewrite Z.quot_div_nonneg by lia;
        (split; [apply Z.div_pos; lia | apply Z.div_le_upper_bound; lia]). }
    rewrite align_int_eq by lia.
    pose proof (GRALLOC_ALIGN_bounds q 128 ltac:(lia)) as Gq.
    set (sbb := GRALLOC_ALIGN q 128) in *.
    rewrite (to_uint32_small sbb) by lia.
    assert (Hb : 0 <= n1 * sbb <= n2 * sbb /\ n2 * sbb <= 131072 * 2175) by nia.
    rewrite !(to_uint32_small (_ * sbb)) by lia.
    rewrite !(to_int32_small (_ * sbb)) by lia.
    set (b1 := n1 * sbb) in *. set (b2 := n2 * sbb) in *.
    pose proof (afbc_buffer_align_mono (is_tiled t) b1 b2 ltac:(lia) ltac:(lia)) as A.
    set (c1 := if (1 <? npln f) && (plane <? 2)%nat
               then afbc_buffer_align (is_tiled t) b1 else b1).
    set (c2 := if (1 <? npln f) && (plane <? 2)%nat
               then afbc_buffer_align (is_tiled t) b2 else b2).
    assert (Hc : 0 <= c1 <= c2 /\ c2 <= b2 + 4095).
    { subst c1 c2. destruct ((1 <? npln f) && (plane <? 2)%nat); lia. }
    destruct (is_frontbuffer_safe t); [|lia].
    pose proof (afbc_buffer_align_mono (is_tiled t) c1 c2 ltac:(lia) ltac:(lia)) as A'.
    rewrite !to_int32_small by lia. lia.
  - assert (Hb : 0 <= byte_stride p1 * alloc_height p1 <= byte_stride p2 * alloc_height p2
                 /\ byte_stride p2 * alloc_height p2 <= 131072 * 4226) by nia.
    rewrite !to_uint32_small by lia. rewrite !to_int32_small by lia. lia.
Qed.

Lemma calc_header_size_mono t n1 n2 :
  0 <= n1 <= n2 -> n2 <= 2 ^ 17 ->
  0 <= calc_header_size t n1 <= calc_header_size t n2
  /\ calc_header_size t n2 <= 2200000.
Proof.
  intros Hn Hn2. unfold calc_header_size, AFBC_HEADER_BUFFER_BYTES_PER_BLOCKENTRY.
  destruct (is_afbc t); [|lia].
  rewrite !to_uint32_small by lia. rewrite !to_int32_small by lia.
  pose proof (afbc_buffer_align_mono (is_tiled t) (n1 * 16) (n2 * 16) ltac:(lia) ltac:(lia)).
  lia.
Qed.

Lemma to_size_t_small {P : Platform} x : 0 <= x < 2 ^ 32 -> to_size_t x = x.
Proof.
  intros H. unfold to_size_t, wrap. destruct LP64; apply Z.mod_small; lia.
Qed.

Lemma aligned_dimension_mono sub A (chroma : bool) v1 v2 :
  1 <= sub <= 4 -> 1 <= A -> 0 <= v1 <= v2 ->
  let plane_dim v := if chroma then GRALLOC_ALIGN v sub / sub else GRALLOC_ALIGN v sub in
  0 <= GRALLOC_ALIGN (plane_dim v1) A <= GRALLOC_ALIGN (plane_dim v2) A
  /\ GRALLOC_ALIGN (plane_dim v2) A <= v2 + 2 + A.
Proof.
  intros Hsub HA Hv plane_dim.
  pose proof (GRALLOC_ALIGN_bounds v1 sub ltac:(lia)) as G1.
  pose proof (GRALLOC_ALIGN_bounds v2 sub ltac:(lia)) as G2.
  pose proof (GRALLOC_ALIGN_mono v1 v2 sub ltac:(lia) ltac:(lia)) as G12.
  assert (Hd : 0 <= plane_dim v1 <= plane_dim v2 /\ plane_dim v2 <= v2 + 3).
  { subst plane_dim. cbv beta. destruct chroma; [|lia].
    pose proof (div_by_nonneg_le (GRALLOC_ALIGN v1 sub) sub ltac:(lia) ltac:(lia)).
    pose proof (div_by_nonneg_le (GRALLOC_ALIGN v2 sub) sub ltac:(lia) ltac:(lia)).
    pose proof (Z.div_le_mono _ _ sub ltac:(lia) G12). lia. }
  pose proof (GRALLOC_ALIGN_bounds (plane_dim v1) A ltac:(lia)).
  pose proof (GRALLOC_ALIGN_bounds (plane_dim v2) A ltac:(lia)).
  pose proof (GRALLOC_ALIGN_mono (plane_dim v1) (plane_dim v2) A ltac:(lia) ltac:(lia)).
  lia.
Qed.

(** One turn of the loop, on two runs: the smaller request keeps the
    smaller size and the smaller luma stride. *)
Lemma calc_plane_mono {P : Platform} f t cpu hw plane w1 w2 h1 h2 st1 st2 st1' :
  fields_in_range f = true ->
  (plane < 3)%nat ->
  0 <= w1 <= w2 -> w2 <= MAX_DIMENSION ->
  0 <= h1 <= h2 -> h2 <= MAX_DIMENSION ->
  length (calc_plane_info st1) = 3%nat ->
  length (calc_plane_info st2) = 3%nat ->
  0 <= calc_size st1 <= calc_size st2 ->
  calc_size st2 <= Z.of_nat plane * 2 ^ 30 ->
  (plane <> 0%nat ->
   0 <= byte_stride (get_plane (calc_plane_info st1) 0)
     <= byte_stride (get_plane (calc_plane_info st2) 0)
   /\ byte_stride (get_plane (calc_plane_info st2) 0) <= 2 ^ 17) ->
  calc_plane w1 h1 t f cpu hw st1 plane = Some st1' ->
  exists st2',
    calc_plane w2 h2 t f cpu hw st2 plane = Some st2'
    /\ length (calc_plane_info st1') = 3%nat
    /\ length (calc_plane_info st2') = 3%nat
    /\ 0 <= calc_size st1' <= calc_size st2'
    /\ calc_size st2' <= (Z.of_nat plane + 1) * 2 ^ 30
    /\ 0 <= byte_stride (get_plane (calc_plane_info st1') 0)
         <= byte_stride (get_plane (calc_plane_info st2') 0)
    /\ byte_stride (get_plane (calc_plane_info st2') 0) <= 2 ^ 17.
Proof.
  intros Hf Hpl Hw Hw2 Hh Hh2 L1 L2 Hsz Hsz2 Hluma.
  destruct (fields_in_range_spec f Hf) as (Hn & Hhs & Hvs & _).
  unfold calc_plane.
  replace (MAX_PLANES <=? plane)%nat with false
    by (symmetry; apply Nat.leb_gt; exact Hpl).
  destruct (get_pixel_w_h_closed f t plane cpu Hf) as (Aw & Ah & HAw & HAh & Hclosed).
  rewrite (Hclosed w1 h1), (Hclosed w2 h2) by lia. cbn [obind].
  pose proof (aligned_dimension_mono (hsub f) Aw (0 <? plane)%nat w1 w2
                Hhs ltac:(lia) Hw) as Ha.
  pose proof (aligned_dimension_mono (vsub f) Ah (0 <? plane)%nat h1 h2
                Hvs ltac:(lia) Hh) as Hb.
  cbv zeta beta in Ha, Hb. unfold MAX_DIMENSION in *.
  set (a1 := GRALLOC_ALIGN (if (0 <? plane)%nat then _ else GRALLOC_ALIGN w1 _) Aw) in *.
  set (a2 := GRALLOC_ALIGN (if (0 <? plane)%nat then _ else GRALLOC_ALIGN w2 _) Aw) in *.
  set (b1 := GRALLOC_ALIGN (if (0 <? plane)%nat then _ else GRALLOC_ALIGN h1 _) Ah) in *.
  set (b2 := GRALLOC_ALIGN (if (0 <? plane)%nat then _ else GRALLOC_ALIGN h2 _) Ah) in *.
  match goal with
  | |- obind (calc_byte_stride _ _ _ _ _ _ ?p1) _ = _ -> _ => set (pi1 := p1)
  end.
  match goal with
  | |- context [obind (calc_byte_stride t f cpu hw plane a2 ?p2) _] => set (pi2 := p2)
  end.
  destruct (calc_byte_stride t f cpu hw plane a1 pi1) as [pi1'|] eqn:E1; [|discriminate].
  destruct (calc_byte_stride_mono f t cpu hw plane a1 a2 pi1 pi2 pi1' Hf Hpl)
    as (pi2' & E2 & L1' & L2' & Hs & Hs2 & Wa1 & Wa2 & Ha1 & Ha2 & Hzero);
    try assumption; try lia.
  { subst pi1. planes. exact L1. }
  { subst pi2. planes. exact L2. }
  { intros Hne. subst pi1 pi2. planes. exact (Hluma Hne). }
  rewrite E2. cbn [obind].
  assert (Hah1 : alloc_height (get_plane pi1' plane) = b1).
  { rewrite Ha1. subst pi1. planes. reflexivity. }
  assert (Hah2 : alloc_height (get_plane pi2' plane) = b2).
  { rewrite Ha2. subst pi2. planes. reflexivity. }
  set (p1 := get_plane pi1' plane) in *. set (p2 := get_plane pi2' plane) in *.
  assert (Hprod : 0 <= alloc_width p1 * alloc_height p1 <= alloc_width p2 * alloc_height p2
                  /\ alloc_width p2 * alloc_height p2 <= 4610 * 4226).
  { rewrite Wa1, Wa2, Hah1, Hah2. nia. }
  unfold AFBC_PIXELS_PER_BLOCK. change (16 * 16) with 256.
  rewrite !(to_uint32_small (alloc_width _ * alloc_height _)) by lia.
  set (n1 := alloc_width p1 * alloc_height p1 / 256).
  set (n2 := alloc_width p2 * alloc_height p2 / 256).
  assert (Hnn : 0 <= n1 <= n2 /\ n2 <= 2 ^ 17).
  { subst n1 n2. split; [split|].
    - apply Z.div_pos; lia.
    - apply Z.div_le_mono; lia.
    - apply Z.div_le_upper_bound; lia. }
  pose proof (calc_body_size_mono f t plane n1 n2 p1 p2 Hf ltac:(lia) ltac:(lia)
                ltac:(lia) ltac:(lia) ltac:(lia) ltac:(lia)) as Hbody.
  pose proof (calc_header_size_mono t n1 n2 ltac:(lia) ltac:(lia)) as Hhead.
  set (body1 := calc_body_size t f plane n1 p1) in *.
  set (body2 := calc_body_size t f plane n2 p2) in *.
  set (head1 := calc_header_size t n1) in *.
  set (head2 := calc_header_size t n2) in *.
  assert (Hnat : 0 <= Z.of_nat plane <= 2) by lia.
  assert (Hfin : forall ps1 ps2 q1 q2,
             length q1 = 3%nat -> length q2 = 3%nat ->
             0 <= byte_stride (get_plane q1 0) <= byte_stride (get_plane q2 0) ->
             byte_stride (get_plane q2 0) <= 2 ^ 17 ->
             Some (mk_calc ps1 (to_size_t (calc_size st1 + to_int32 (body1 + head1))) q1)
             = Some st1' ->
             exists st2',
               Some (mk_calc ps2 (to_size_t (calc_size st2 + to_int32 (body2 + head2))) q2)
               = Some st2'
               /\ length (calc_plane_info st1') = 3%nat
               /\ length (calc_plane_info st2') = 3%nat
               /\ 0 <= calc_size st1' <= calc_size st2'
               /\ calc_size st2' <= (Z.of_nat plane + 1) * 2 ^ 30
               /\ 0 <= byte_stride (get_plane (calc_plane_info st1') 0)
                    <= byte_stride (get_plane (calc_plane_info st2') 0)
               /\ byte_stride (get_plane (calc_plane_info st2') 0) <= 2 ^ 17).
  { intros ps1 ps2 q1 q2 Lq1 Lq2 Hq Hq2 H. apply Some_eq in H. subst st1'.
    eexists. split; [reflexivity|]. cbn [calc_size calc_plane_info].
    rewrite !(to_int32_small (_ + _)) by lia.
    rewrite !to_size_t_small by lia.
    repeat split; try assumption; lia. }
  destruct plane as [|plane'].
  - destruct (negb (is_afbc t) && cpu).
    + destruct (at_plane (bpp f) 0 =? 0); [discriminate|]. cbn [obind].
      apply Hfin; try assumption; subst p1 p2; lia.
    + cbn [obind]. apply Hfin; try assumption; subst p1 p2; lia.
  - cbn [obind].
    destruct (Hzero ltac:(lia)) as [Z1 Z2].
    destruct (Hluma ltac:(lia)) as [Hl Hl2].
    assert (Z1' : get_plane pi1' 0 = get_plane (calc_plane_info st1) 0).
    { rewrite Z1. subst pi1. planes. reflexivity. }
    assert (Z2' : get_plane pi2' 0 = get_plane (calc_plane_info st2) 0).
    { rewrite Z2. subst pi2. planes. reflexivity. }
    apply Hfin; planes; try assumption; rewrite ?Z1', ?Z2'; assumption.
Qed.

Lemma calc_planes_mono {P : Platform} f t cpu hw w1 w2 h1 h2 :
  fields_in_range f = true ->
  0 <= w1 <= w2 -> w2 <= MAX_DIMENSION ->
  0 <= h1 <= h2 -> h2 <= MAX_DIMENSION ->
  forall n k st1 st2 s1,
    (k + n <= 3)%nat ->
    length (calc_plane_info st1) = 3%nat ->
    length (calc_plane_info st2) = 3%nat ->
    0 <= calc_size st1 <= calc_size st2 ->
    calc_size st2 <= Z.of_nat k * 2 ^ 30 ->
    (k <> 0%nat ->
     0 <= byte_stride (get_plane (calc_plane_info st1) 0)
       <= byte_stride (get_plane (calc_plane_info st2) 0)
     /\ byte_stride (get_plane (calc_plane_info st2) 0) <= 2 ^ 17) ->
    calc_planes w1 h1 t f cpu hw (seq k n) st1 = Some s1 ->
    exists s2,
      calc_planes w2 h2 t f cpu hw (seq k n) st2 = Some s2
      /\ 0 <= calc_size s1 <= calc_size s2
      /\ calc_size s2 <= 3 * 2 ^ 30.
Proof.
  intros Hf Hw Hw2 Hh Hh2.
  induction n as [|n IH]; intros k st1 st2 s1 Hk L1 L2 Hsz Hsz2 Hluma; simpl.
  - intros H. apply Some_eq in H. subst s1.
    exists st2. split; [reflexivity|]. lia.
  - destruct (calc_plane w1 h1 t f cpu hw st1 k) as [st1'|] eqn:E1; [|discriminate].
    destruct (calc_plane_mono f t cpu hw k w1 w2 h1 h2 st1 st2 st1' Hf ltac:(lia)
                Hw Hw2 Hh Hh2 L1 L2 Hsz Hsz2 Hluma E1)
      as (st2' & E2 & L1' & L2' & Hsz' & Hsz2' & Hl & Hl2).
    rewrite E2. cbn [obind].
    apply IH; try assumption; lia.
Qed.

Lemma table_fields_in_range {P : Platform} f : In f formats -> fields_in_range f = true.
Proof.
  assert (H : forallb fields_in_range formats = true).
  { unfold formats. rewrite !forallb_app.
    destruct (26 <=? PLATFORM_SDK_VERSION); destruct (28 <=? PLATFORM_SDK_VERSION);
      reflexivity. }
  rewrite forallb_forall in H. apply H.
Qed.

(** C2, as the code has it. For an entry of the table, any allocation type
    and usage flags, and dimensions from 0 to 4096: when the computation
    for the smaller request is defined, so is the one for the larger
    request, and its total size is not smaller. *)
Theorem calc_allocation_size_monotone_up_to_4096 {P : Platform} :
  forall (format : format_info_t) (alloc_type : alloc_type_t)
         (has_cpu_usage has_hw_usage : bool) (pixel_stride : Z)
         (plane_info : list plane_info_t) (width1 height1 width2 height2 : Z)
         (s1 : calc_state),
    In format formats ->
    length plane_info = MAX_PLANES ->
    0 <= width1 <= width2 -> width2 <= MAX_DIMENSION ->
    0 <= height1 <= height2 -> height2 <= MAX_DIMENSION ->
    calc_allocation_size width1 height1 alloc_type format has_cpu_usage has_hw_usage
                         pixel_stride plane_info = Some s1 ->
    exists s2,
      calc_allocation_size width2 height2 alloc_type format has_cpu_usage has_hw_usage
                           pixel_stride plane_info = Some s2
      /\ calc_size s1 <= calc_size s2.
Proof.
  intros format alloc_type cpu hw ps pi w1 h1 w2 h2 s1 Hin L Hw Hw2 Hh Hh2 H.
  pose proof (table_fields_in_range format Hin) as Hf.
  destruct (fields_in_range_spec format Hf) as (Hn & _).
  unfold calc_allocation_size in *. cbv zeta in *.
  set (st0 := mk_calc ps 0 _) in *.
  assert (L0 : length (calc_plane_info st0) = 3%nat).
  { subst st0. cbn [calc_plane_info]. rewrite length_set_plane. exact L. }
  assert (S0 : calc_size st0 = 0) by reflexivity.
  destruct (calc_planes_mono format alloc_type cpu hw w1 w2 h1 h2 Hf Hw Hw2 Hh Hh2
              (Z.to_nat (npln format)) 0%nat st0 st0 s1)
    as (s2 & E & Hle & _); try assumption; try lia.
  exists s2. split; [exact E | lia].
Qed.

Lemma calc_allocation_size_monotone_up_to_4096_witness :
  exists s2,
    calc_allocation_size (P := aosp) 1920 1080 Examples.linear_type
      (mk_format 0x100 2 3 8 [8;16;0] [8;16;0] 2 2 1 false true true true true 1)
      false true 0 Examples.no_planes = Some s2
    /\ 1382400 <= calc_size s2.
Proof.
  apply (calc_allocation_size_monotone_up_to_4096 (P := aosp)
           (mk_format 0x100 2 3 8 [8;16;0] [8;16;0] 2 2 1 false true true true true 1)
           Examples.linear_type false true 0 Examples.no_planes 1280 720 1920 1080
           (mk_calc 0 1382400
              [mk_plane_info 0 1280 1280 720; mk_plane_info 921600 1280 640 360;
               mk_plane_info 0 0 0 0])).
  - vm_compute. do 10 right. left. reflexivity.
  - reflexivity.
  - lia.
  - vm_compute. discriminate.
  - lia.
  - vm_compute. discriminate.
  - reflexivity.
Defined.

(** C2 as it is stated fails: the byte stride is computed in 32 bits. An
    RGBA_8888 buffer of 1 x 1 pixels with CPU usage takes 4 bytes; with a
    width of 2^27 pixels the product of width and bits per pixel is 2^32,
    the byte stride wraps to 0 and so does the total size. *)
Lemma calc_allocation_size_wraps_beyond_32_bits :
  In (mk_format 1 1 4 8 [32;0;0] [32;0;0] 1 1 1 true false true true true 1)
     (formats (P := aosp))
  /\ 0 <= 1 <= 2 ^ 27
  /\ exists s1 s2,
      calc_allocation_size (P := aosp) 1 1 Examples.linear_type
        (mk_format 1 1 4 8 [32;0;0] [32;0;0] 1 1 1 true false true true true 1)
        true false 0 Examples.no_planes = Some s1
      /\ calc_allocation_size (P := aosp) (2 ^ 27) 1 Examples.linear_type
           (mk_format 1 1 4 8 [32;0;0] [32;0;0] 1 1 1 true false true true true 1)
           true false 0 Examples.no_planes = Some s2
      /\ calc_size s1 = 4 /\ calc_size s2 = 0.
Proof.
  split; [vm_compute; do 2 right; left; reflexivity|].
  split; [lia|].
  eexists. eexists. split; [vm_compute; reflexivity|].
  split; [vm_compute; reflexivity|]. split; reflexivity.
Qed.

(** ** Shared backing store (mali_gralloc_ion.cpp) *)

Section SharedAllocation.
Import Ion.
Context {P : Platform}.
Variable K : kernel.
Variable L : Handle.layout.




Lemma try_heaps_trace m heap_type size flags fuel :
  forall i a,
    ret a < 0 ->
    let a' := try_heaps K m heap_type size flags fuel i a in
    exists new,
      requests a' = new ++ requests a
      /\ asks_for size new
      /\ ((ret a' < 0 /\ backing_allocations new = [])
          \/ (ret a' = 0
              /\ exists mask,
                  backing_allocations new = [ION_ALLOC size mask flags (Some (shared_fd a'))])).
Proof.
  induction fuel as [|fuel IH]; intros i a Hret; cbn [try_heaps]; cbv zeta.
  - destruct (heap_type =? type (nth i (heap_info m) zero_heap)).
    + destruct (ion_alloc_fd K (requests a) size _ flags) as [fd|] eqn:E; cbn.
      * eexists [_]. split; [reflexivity|]. split; [repeat constructor|].
        right. split; [reflexivity|]. eexists. reflexivity.
      * eexists [_]. split; [reflexivity|]. split; [repeat constructor|].
        left. split; [lia|reflexivity].
    + cbn. exists []. split; [reflexivity|]. split; [constructor|].
      left. split; [exact Hret|reflexivity].
  - destruct (heap_type =? type (nth i (heap_info m) zero_heap)).
    + destruct (ion_alloc_fd K (requests a) size _ flags) as [fd|] eqn:E; cbn [ret].
      * cbn. eexists [_]. split; [reflexivity|]. split; [repeat constructor|].
        right. split; [reflexivity|]. eexists. reflexivity.
      * change (-1 <? 0) with true. cbn [andb].
        match goal with
        | |- context [if ?c then try_heaps _ _ _ _ _ _ _ ?b else _] =>
            set (b0 := b);
            destruct c; [destruct (IH (S i) b0 ltac:(cbn; lia)) as (new & Hn & Ha & Hc)|]
        end.
        -- cbv zeta in Hn, Hc. eexists (new ++ [_]).
           split; [rewrite Hn, <- app_assoc; reflexivity|].
           split; [apply Forall_app; split; [exact Ha | repeat constructor]|].
           unfold backing_allocations in *. rewrite filter_app. cbn [filter is_backing_allocation].
           rewrite app_nil_r. exact Hc.
        -- cbn. eexists [_]. split; [reflexivity|]. split; [repeat constructor|].
           left. split; [lia|reflexivity].
    + cbn [ret].
      match goal with
      | |- context [if ?c then try_heaps _ _ _ _ _ _ _ ?b else _] =>
          set (b0 := b);
          destruct c; [destruct (IH (S i) b0 ltac:(cbn; lia)) as (new & Hn & Ha & Hc)|]
      end.
      * cbv zeta in Hn, Hc. exists new. auto.
      * cbn. exists []. split; [reflexivity|]. split; [constructor|].
        left. split; [exact Hret|reflexivity].
Qed.

Lemma try_legacy_trace heap_type size flags a :
  let a' := try_legacy K heap_type size flags a in
  exists new,
    requests a' = new ++ requests a
    /\ asks_for size new
    /\ ((ret a' < 0 /\ backing_allocations new = [])
        \/ (ret a' = 0
            /\ exists mask,
                backing_allocations new = [ION_ALLOC size mask flags (Some (shared_fd a'))])).
Proof.
  unfold try_legacy. cbv zeta.
  destruct (ion_alloc_fd K (requests a) size _ flags) as [fd|]; cbn.
  - eexists [_]. split; [reflexivity|]. split; [repeat constructor|].
    right. split; [reflexivity|]. eexists. reflexivity.
  - eexists [_]. split; [reflexivity|]. split; [repeat constructor|].
    left. split; [lia|reflexivity].
Qed.

(** A call of alloc_from_ion_heap that returns a descriptor was granted
    backing memory exactly once, and every request it made asked for
    [size] bytes. *)
Lemma alloc_from_ion_heap_trace m usage size heap_type flags min_pgsz t fd pgsz t' :
  alloc_from_ion_heap K m usage size heap_type flags min_pgsz t = (fd, pgsz, t') ->
  0 <= fd ->
  exists new,
    t' = new ++ t
    /\ asks_for size new
    /\ exists mask fl, backing_allocations new = [ION_ALLOC size mask fl (Some fd)].
Proof.
  unfold alloc_from_ion_heap. intros H Hfd.
  destruct min_pgsz as [pg|]; [|inversion H; lia].
  destruct ((ion_client m <? 0) || (size <=? 0) || (heap_type =? ION_HEAP_TYPE_INVALID));
    [inversion H; lia|].
  cbv zeta in H.
  set (start := mk_attempt (-1) (-1) false t) in H.
  set (modern := negb GRALLOC_USE_LEGACY_ION_API && negb (use_legacy_ion m)) in H.
  assert (Hfirst : forall ht fl a, ret a < 0 ->
            let a' := if modern
                      then try_heaps K m ht size fl (Z.to_nat (heap_cnt m)) 0 a
                      else try_legacy K ht size fl a in
            exists new,
              requests a' = new ++ requests a
              /\ asks_for size new
              /\ ((ret a' < 0 /\ backing_allocations new = [])
                  \/ (ret a' = 0
                      /\ exists mask,
                          backing_allocations new
                          = [ION_ALLOC size mask fl (Some (shared_fd a'))]))).
  { intros ht fl a Ha. destruct modern.
    - apply try_heaps_trace. exact Ha.
    - apply try_legacy_trace. }
  destruct (Hfirst heap_type flags start ltac:(cbn; lia)) as (new1 & Hn1 & Ha1 & Hc1).
  cbv zeta in Hn1, Hc1.
  set (a1 := if modern then _ else _) in *.
  change (requests start) with t in Hn1.
  destruct (Z.ltb_spec (ret a1) 0) as [Hneg|Hpos].
  - destruct Hc1 as [[_ Hnone]|[Hz _]]; [|lia].
    destruct (heap_type =? ION_HEAP_TYPE_SECURE); [inversion H; lia|].
    destruct (heap_type =? ION_HEAP_TYPE_SYSTEM); [inversion H; lia|].
    destruct (modern && negb (system_heap_exist a1)); [inversion H; lia|].
    match type of H with
    | context [try_heaps K m ?ht size ?fl _ _ a1] =>
        destruct (Hfirst ht fl a1 Hneg) as (new2 & Hn2 & Ha2 & Hc2)
    end.
    cbv zeta in Hn2, Hc2.
    set (a2 := if modern then try_heaps _ _ _ _ _ _ _ a1 else _) in *.
    destruct (Z.eqb_spec (ret a2) 0) as [Hz|Hnz]; cbn [negb] in H; cbv iota in H;
      [|inversion H; lia].
    destruct Hc2 as [[Hlt _]|[_ [mask Hone]]]; [lia|].
    inversion H; subst fd pgsz t'.
    exists (new2 ++ new1). split; [rewrite Hn2, Hn1, app_assoc; reflexivity|].
    split; [apply Forall_app; split; assumption|].
    unfold backing_allocations in *. rewrite filter_app, Hnone, app_nil_r.
    eauto.
  - destruct Hc1 as [[Hlt _]|[_ [mask Hone]]]; [lia|].
    inversion H; subst fd pgsz t'.
    exists new1. split; [exact Hn1|]. split; [exact Ha1|]. eauto.
Qed.








End SharedAllocation.



(** ** Requests of width 0 *)

Lemma align_u32_of_zero b r : 0 <= b < 2 ^ 32 -> align_u32 0 b = Some r -> r = 0.
Proof.
  intros Hb. unfold align_u32.
  destruct (Z.eqb_spec b 0) as [E|E]; [discriminate|].
  intros H. apply Some_eq in H. subst r.
  rewrite (to_uint32_small (0 + b - 1)) by lia.
  rewrite (Z.div_small (0 + b - 1) b) by lia.
  reflexivity.
Qed.

Lemma get_pixel_w_h_zero_width {P : Platform} f t plane cpu h aw ah :
  fields_in_range f = true ->
  get_pixel_w_h 0 h f t plane cpu = Some (aw, ah) -> aw = 0.
Proof.
  intros Hf.
  destruct (fields_in_range_spec f Hf) as (_ & Hh & Hv & _).
  unfold get_pixel_w_h. cbv zeta.
  destruct (align_u32 0 (hsub f)) as [w1|] eqn:E1; [|discriminate].
  apply align_u32_of_zero in E1; [|lia]. subst w1. cbn [obind].
  destruct (align_u32 h (vsub f)) as [h1|]; [|discriminate]. cbn [obind].
  assert (E2 : (if (0 <? plane)%nat
                then if hsub f =? 0 then None else Some (0 / hsub f)
                else Some 0) = Some 0).
  { rewrite Z.div_0_l by lia.
    destruct (0 <? plane)%nat; [|reflexivity].
    destruct (Z.eqb_spec (hsub f) 0); [lia|reflexivity]. }
  rewrite E2. cbn [obind].
  match goal with
  | |- obind ?o _ = _ -> _ => destruct o as [h2|]; [|discriminate]
  end.
  cbn [obind].
  match goal with
  | |- obind (align_u32 0 (to_uint32 ?x)) _ = _ -> _ =>
      pose proof (to_uint32_range x) as Hr;
      destruct (align_u32 0 (to_uint32 x)) as [w3|] eqn:E3; [|discriminate]
  end.
  apply align_u32_of_zero in E3; [|exact Hr]. subst w3. cbn [obind].
  match goal with
  | |- obind ?o _ = _ -> _ => destruct o as [h3|]; [|discriminate]
  end.
  cbn [obind]. intros H. apply Some_eq in H. congruence.
Qed.

Lemma calc_byte_stride_zero_width {P : Platform} f t cpu hw plane pi pi' :
  fields_in_range f = true ->
  (plane < 3)%nat -> length pi = 3%nat ->
  (plane <> 0%nat -> byte_stride (get_plane pi 0) = 0) ->
  calc_byte_stride t f cpu hw plane 0 pi = Some pi' ->
  length pi' = 3%nat
  /\ byte_stride (get_plane pi' plane) = 0
  /\ alloc_width (get_plane pi' plane) = 0
  /\ (plane <> 0%nat -> byte_stride (get_plane pi' 0) = 0).
Proof.
  intros Hf Hpl Hlen Hluma.
  unfold calc_byte_stride. cbv zeta beta.
  change (to_uint32 (0 * ?x)) with 0. change (0 / 8) with 0.
  destruct (is_afbc t).
  - intros H. apply Some_eq in H. subst pi'. planes.
    repeat split; try reflexivity; try assumption; intros; planes; auto.
  - pose proof (stride_align_bounds f plane cpu hw Hf) as Hsa.
    set (sa := lcm _ _) in *. planes.
    destruct (align_u32 0 sa) as [s|] eqn:E; [|discriminate].
    apply align_u32_of_zero in E; [|lia]. subst s. cbn [obind]. planes.
    destruct ((id f =? MALI_GRALLOC_FORMAT_INTERNAL_YV12) && hw && cpu).
    + destruct plane as [|plane']; unfold update_yv12_stride.
      * planes.
        destruct (align_u32 0 (to_uint32 (2 * sa))) as [s|] eqn:E; [|discriminate].
        apply align_u32_of_zero in E; [|apply to_uint32_range]. subst s. cbn [obind].
        intros H. apply Some_eq in H. subst pi'. planes.
        repeat split; try reflexivity; try assumption; congruence.
      * planes. rewrite Hluma by lia. cbn [obind]. change (0 / 2) with 0.
        intros H. apply Some_eq in H. subst pi'. planes.
        repeat split; try reflexivity; try assumption; intros; planes; auto.
    + intros H. apply Some_eq in H. subst pi'. planes.
      repeat split; try reflexivity; try assumption; intros; planes; auto.
Qed.

Lemma afbc_buffer_align_zero tiled : afbc_buffer_align tiled 0 = 0.
Proof. destruct tiled; reflexivity. Qed.

Lemma calc_body_size_zero f t plane p :
  byte_stride p = 0 -> calc_body_size t f plane 0 p = 0.
Proof.
  intros Hs. unfold calc_body_size. cbv zeta. rewrite Hs.
  change (to_int32 (to_uint32 (0 * ?x))) with 0.
  rewrite !afbc_buffer_align_zero.
  destruct (is_afbc t); [|reflexivity].
  destruct ((1 <? npln f) && (plane <? 2)%nat); destruct (is_frontbuffer_safe t);
    rewrite ?afbc_buffer_align_zero; reflexivity.
Qed.

Lemma calc_header_size_zero t : calc_header_size t 0 = 0.
Proof.
  unfold calc_header_size. destruct (is_afbc t); [|reflexivity].
  apply afbc_buffer_align_zero.
Qed.

Lemma calc_plane_zero_width {P : Platform} f t cpu hw plane h st st' :
  fields_in_range f = true ->
  (plane < 3)%nat ->
  length (calc_plane_info st) = 3%nat ->
  calc_size st = 0 ->
  (plane <> 0%nat -> byte_stride (get_plane (calc_plane_info st) 0) = 0) ->
  calc_plane 0 h t f cpu hw st plane = Some st' ->
  length (calc_plane_info st') = 3%nat
  /\ calc_size st' = 0
  /\ byte_stride (get_plane (calc_plane_info st') 0) = 0.
Proof.
  intros Hf Hpl Hlen Hsz Hluma.
  unfold calc_plane.
  replace (MAX_PLANES <=? plane)%nat with false
    by (symmetry; apply Nat.leb_gt; exact Hpl).
  change (to_uint32 0) with 0.
  destruct (get_pixel_w_h 0 (to_uint32 h) f t plane cpu) as [[aw ah]|] eqn:Ewh;
    [|discriminate].
  apply get_pixel_w_h_zero_width in Ewh; [|exact Hf]. subst aw. cbn [obind].
  match goal with
  | |- obind (calc_byte_stride _ _ _ _ _ _ ?p) _ = _ -> _ => set (pi0 := p)
  end.
  destruct (calc_byte_stride t f cpu hw plane 0 pi0) as [pi'|] eqn:Ebs; [|discriminate].
  apply calc_byte_stride_zero_width in Ebs; try assumption.
  2: { subst pi0. planes. exact Hlen. }
  2: { intros Hne. subst pi0. planes. auto. }
  destruct Ebs as (Hlen' & Hs & Hw & Hz). cbn [obind].
  rewrite Hw, Hsz. change (to_uint32 (0 * ?x)) with 0.
  unfold AFBC_PIXELS_PER_BLOCK. change (0 / (16 * 16)) with 0.
  rewrite calc_body_size_zero by exact Hs. rewrite calc_header_size_zero.
  change (to_int32 (0 + 0)) with 0. change (0 + 0) with 0.
  rewrite to_size_t_small by lia.
  match goal with
  | |- obind ?o _ = _ -> _ => destruct o as [ps|]; [|discriminate]
  end.
  cbn [obind]. intros H. apply Some_eq in H. subst st'.
  cbn [calc_size calc_plane_info].
  destruct plane as [|plane'].
  - repeat split; assumption.
  - planes. repeat split; auto.
Qed.

Lemma calc_planes_zero_width {P : Platform} f t cpu hw h :
  fields_in_range f = true ->
  forall n k st st',
    (k + n <= 3)%nat ->
    length (calc_plane_info st) = 3%nat ->
    calc_size st = 0 ->
    (k <> 0%nat -> byte_stride (get_plane (calc_plane_info st) 0) = 0) ->
    calc_planes 0 h t f cpu hw (seq k n) st = Some st' ->
    calc_size st' = 0.
Proof.
  intros Hf. induction n as [|n IH]; intros k st st' Hk Hlen Hsz Hluma; simpl.
  - intros H. apply Some_eq in H. subst st'. exact Hsz.
  - destruct (calc_plane 0 h t f cpu hw st k) as [st1|] eqn:E; [|discriminate].
    apply calc_plane_zero_width in E; try assumption; try lia.
    destruct E as (Hlen1 & Hsz1 & Hz1). cbn [obind].
    apply IH; auto. lia.
Qed.

(** A width of 0 gives a size of 0, whatever the height is. *)
Lemma calc_allocation_size_zero_width {P : Platform} f t cpu hw h ps pi st :
  In f formats -> length pi = MAX_PLANES ->
  calc_allocation_size 0 h t f cpu hw ps pi = Some st -> calc_size st = 0.
Proof.
  intros Hin Hlen. pose proof (table_fields_in_range f Hin) as Hf.
  destruct (fields_in_range_spec f Hf) as (Hn & _).
  unfold calc_allocation_size. cbv zeta.
  apply (calc_planes_zero_width f t cpu hw h Hf (Z.to_nat (npln f)) 0%nat); try lia.
  - cbn [calc_plane_info]. rewrite length_set_plane. exact Hlen.
  - reflexivity.
Qed.



Section ZeroWidth.
Context {P : Platform}.
Variable caps : runtime_caps.
Variable K : Ion.kernel.
Variable L : Handle.layout.
Variable A : Alloc.attr_service.


Lemma ion_free_trace hnd t :
  exists hnd' new,
    Ion.mali_gralloc_ion_free hnd t = (hnd', new ++ t)
    /\ Forall (fun e => Ion.requested_size e = None) new.
Proof.
  unfold Ion.mali_gralloc_ion_free.
  destruct (tst (Handle.flags hnd) Handle.PRIV_FLAGS_FRAMEBUFFER).
  - exists hnd, []. split; [reflexivity|constructor].
  - destruct (tst (Handle.flags hnd) Handle.PRIV_FLAGS_USES_ION).
    + destruct (negb (Handle.base hnd =? 0)).
      * eexists _, [_; _]. split; [reflexivity|repeat constructor].
      * eexists _, [_]. split; [reflexivity|repeat constructor].
    + exists hnd, []. split; [reflexivity|constructor].
Qed.

Lemma ion_free_internal_trace pHandle :
  forall t,
  exists pHandle' new,
    Ion.mali_gralloc_ion_free_internal pHandle t = (pHandle', new ++ t)
    /\ Forall (fun e => Ion.requested_size e = None) new.
Proof.
  induction pHandle as [|[hnd|] pHandle IH]; intros t; cbn [Ion.mali_gralloc_ion_free_internal].
  - exists [], []. split; [reflexivity|constructor].
  - destruct (ion_free_trace hnd t) as (hnd' & new1 & E1 & H1). rewrite E1.
    destruct (IH (new1 ++ t)) as (rest & new2 & E2 & H2). rewrite E2.
    exists (Some hnd' :: rest), (new2 ++ new1).
    split; [rewrite app_assoc; reflexivity | apply Forall_app; split; assumption].
  - destruct (IH t) as (rest & new & E & H). rewrite E.
    exists (None :: rest), new. split; [reflexivity|exact H].
Qed.



End ZeroWidth.



(** The status of a request of width 0 whose format is accepted is not
    always -1: on a module whose ION client is not open yet, with a kernel
    whose heap-count query fails with -EINVAL, open_and_query_ion returns
    that status and so does the allocation. *)
Lemma zero_width_status_of_failed_open :
  option_map Alloc.result
    (Alloc.mali_gralloc_buffer_allocate (P := aosp) Examples.no_caps
       Examples.failing_query_kernel Examples.lp64_layout Examples.plain_attr
       Examples.closed_module (fun _ => 0) [Examples.request_of 0 64 (2 ^ 8)] [None] 0 [])
  = Some (- EINVAL)
  /\ fst (Ion.open_and_query_ion (P := aosp) Examples.failing_query_kernel
            Examples.closed_module []) = - EINVAL.
Proof. split; vm_compute; reflexivity. Qed.
(** * Further properties of the code *)

(** ** format_info.cpp *)

Lemma scan_from_before {P : Platform} fs i key k g :
  (i + k < scan_from fs i key)%nat -> nth_error fs k = Some g -> id g <> key.
Proof.
  revert i k. induction fs as [|f rest IH]; intros i k Hlt Hk; [destruct k; discriminate|].
  simpl in Hlt. destruct (Z.eqb_spec (id f) key) as [E|Hne]; [lia|].
  destruct k as [|k]; simpl in Hk.
  - inversion Hk; subst. exact Hne.
  - apply (IH (S i) k); [lia | exact Hk].
Qed.

(** X1. get_format_index answers -1 exactly when no entry of the table has
    the identifier (compared as a uint32_t), and otherwise the index of the
    first entry that has it, which is inside the table. *)
Theorem get_format_index_first_entry {P : Platform} :
  forall base_format : Z,
    (get_format_index base_format = -1
     /\ forall f, In f formats -> id f <> to_uint32 base_format)
    \/ (exists i f,
           get_format_index base_format = Z.of_nat i
           /\ (i < num_formats)%nat
           /\ formats_at i = Some f
           /\ id f = to_uint32 base_format
           /\ forall j g, (j < i)%nat -> formats_at j = Some g ->
                          id g <> to_uint32 base_format).
Proof.
  intros base_format. unfold get_format_index. cbv zeta.
  set (key := to_uint32 base_format).
  destruct (Nat.leb_spec num_formats (format_scan key)) as [Hge|Hlt].
  - left. split; [reflexivity|].
    intros f Hin E.
    destruct (In_nth_error _ _ Hin) as [k Hk].
    assert (Hklt : (k < num_formats)%nat).
    { unfold num_formats. apply nth_error_Some. congruence. }
    apply (scan_from_before formats 0 key k f); [|exact Hk|exact E].
    unfold format_scan in Hge. lia.
  - right. destruct (formats_at_lt _ Hlt) as [f Hf].
    exists (format_scan key), f. split; [reflexivity|]. split; [exact Hlt|].
    split; [exact Hf|]. split; [exact (format_scan_found _ _ Hf)|].
    intros j g Hj Hg. apply (scan_from_before formats 0 key j g); [|exact Hg].
    unfold format_scan in Hj. lia.
Qed.

(** ** mali_gralloc_bufferallocation.cpp *)

Lemma gcd_loop_is_gcd fuel :
  forall a b, 0 <= a -> 0 <= b -> (Z.to_nat b < fuel)%nat -> gcd_loop fuel a b = Z.gcd a b.
Proof.
  induction fuel as [|fuel IH]; intros a b Ha Hb Hfuel; [lia|].
  cbn [gcd_loop]. destruct (Z.eqb_spec b 0) as [->|Hne].
  - rewrite Z.gcd_0_r. lia.
  - pose proof (Z.mod_pos_bound a b ltac:(lia)) as Hm.
    rewrite IH by lia.
    rewrite Z.gcd_comm. rewrite Z.gcd_mod by lia. apply Z.gcd_comm.
Qed.

Lemma gcd_eq_Z_gcd a b : 0 <= a -> 0 <= b -> gcd a b = Z.gcd a b.
Proof.
  intros Ha Hb. unfold gcd.
  destruct (Z.eqb_spec a b) as [->|Hne].
  - rewrite Z.gcd_diag. lia.
  - destruct (Z.ltb_spec a b).
    + rewrite gcd_loop_is_gcd by lia. apply Z.gcd_comm.
    + apply gcd_loop_is_gcd; lia.
Qed.

(** X2. gcd is the greatest common divisor: on operands that are not
    negative the loop of the source ends with the value of Z.gcd. *)
Theorem gcd_is_Z_gcd :
  forall a b : Z, 0 <= a -> 0 <= b -> gcd a b = Z.gcd a b.
Proof. exact gcd_eq_Z_gcd. Qed.

Lemma gcd_is_Z_gcd_witness : gcd 128 48 = Z.gcd 128 48.
Proof. apply (gcd_is_Z_gcd 128 48); lia. Defined.

(** X3. lcm is the least common multiple of two positive operands while
    their product fits 32 bits; when an operand is 0 it is the other
    operand, not 0. *)
Theorem lcm_is_Z_lcm :
  forall a b : Z,
    0 <= a < 2 ^ 31 -> 0 <= b < 2 ^ 31 -> a * b < 2 ^ 32 ->
    (0 < a -> 0 < b -> lcm a b = Z.lcm a b)
    /\ lcm 0 b = b /\ lcm a 0 = a.
Proof.
  intros a b Ha Hb Hab. unfold lcm. split; [|split].
  - intros Ha0 Hb0.
    destruct (Z.eqb_spec a 0) as [|_]; [lia|].
    destruct (Z.eqb_spec b 0) as [|_]; [lia|]. cbn [negb andb].
    rewrite to_uint32_small by nia.
    rewrite gcd_eq_Z_gcd by lia.
    assert (Hg : Z.gcd a b <> 0) by (intros E; apply Z.gcd_eq_0_l in E; lia).
    pose proof (Z.gcd_nonneg a b) as Hg0.
    unfold Z.lcm. rewrite Z.abs_eq.
    + rewrite Z.lcm_equiv1 by exact Hg. reflexivity.
    + apply Z.mul_nonneg_nonneg; [lia|]. apply Z.div_pos; lia.
  - cbn [Z.eqb negb andb]. rewrite !to_int32_small by lia. unfold max2.
    destruct (Z.ltb_spec b 0); [lia|]. apply to_uint32_small. lia.
  - destruct (a =? 0); cbn [Z.eqb negb andb]; rewrite ?andb_false_r;
      rewrite !to_int32_small by lia; unfold max2;
      (destruct (Z.ltb_spec 0 a); [apply to_uint32_small; lia|]);
      replace a with 0 by lia; reflexivity.
Qed.

Lemma lcm_is_Z_lcm_witness :
  (0 < 128 -> 0 < 48 -> lcm 128 48 = Z.lcm 128 48) /\ lcm 0 48 = 48 /\ lcm 128 0 = 128.
Proof. apply (lcm_is_Z_lcm 128 48); lia. Defined.

(** X4. Every AFBC superblock holds 16 x 16 pixels' worth: whatever the
    superblock type and the plane, width times height is 256; and the
    chroma planes of a multi-plane AFBC buffer use the 64 x 4 block. *)
Theorem afbc_superblock_has_256_pixels :
  forall (alloc_type : alloc_type_t) (plane : nat),
    is_afbc alloc_type = true ->
    width (get_afbc_sb_size alloc_type plane) * height (get_afbc_sb_size alloc_type plane)
    = AFBC_PIXELS_PER_BLOCK * AFBC_PIXELS_PER_BLOCK
    /\ ((0 < plane)%nat -> is_multi_plane alloc_type = true ->
        get_afbc_sb_size alloc_type plane = mk_rect 64 4).
Proof.
  intros alloc_type plane Hafbc. unfold get_afbc_sb_size. rewrite Hafbc.
  unfold is_afbc in Hafbc. split.
  - destruct ((0 <? plane)%nat); destruct (is_multi_plane alloc_type);
      destruct (primary_type alloc_type); try discriminate; reflexivity.
  - intros Hp Hm. apply Nat.ltb_lt in Hp. rewrite Hp, Hm. reflexivity.
Qed.

Lemma afbc_superblock_has_256_pixels_witness :
  width (get_afbc_sb_size (mk_alloc_type AFBC_WIDEBLK true true false false) 1)
  * height (get_afbc_sb_size (mk_alloc_type AFBC_WIDEBLK true true false false) 1)
  = AFBC_PIXELS_PER_BLOCK * AFBC_PIXELS_PER_BLOCK
  /\ ((0 < 1)%nat -> true = true ->
      get_afbc_sb_size (mk_alloc_type AFBC_WIDEBLK true true false false) 1 = mk_rect 64 4).
Proof.
  apply (afbc_superblock_has_256_pixels (mk_alloc_type AFBC_WIDEBLK true true false false) 1).
  reflexivity.
Defined.

Lemma GRALLOC_ALIGN_of_multiple v b : 0 < b -> v mod b = 0 -> GRALLOC_ALIGN v b = v.
Proof.
  intros Hb Hv.
  pose proof (GRALLOC_ALIGN_bounds v b Hb) as Hg.
  pose proof (GRALLOC_ALIGN_multiple v b Hb) as Hm.
  assert (E : (GRALLOC_ALIGN v b - v) mod b = 0).
  { rewrite Zminus_mod, Hm, Hv. reflexivity. }
  rewrite Z.mod_small in E by lia. lia.
Qed.

(** X5. afbc_buffer_align rounds a size up to the next multiple of 1024
    bytes, of 4096 bytes with tiled headers, as long as the size is at
    most 2^30. *)
Theorem afbc_buffer_align_rounds_up :
  forall (is_tiled : bool) (size : Z),
    0 <= size <= 2 ^ 30 ->
    let alignment := if is_tiled then 4096 else 1024 in
    (afbc_buffer_align is_tiled size) mod alignment = 0
    /\ size <= afbc_buffer_align is_tiled size < size + alignment.
Proof.
  intros tiled size Hs alignment. unfold afbc_buffer_align. cbv zeta.
  replace (if tiled then 4 * 1024 else 1024) with alignment
    by (subst alignment; destruct tiled; reflexivity).
  assert (Ha : 0 < alignment <= 4096) by (subst alignment; destruct tiled; lia).
  rewrite align_int_eq by lia.
  split; [apply GRALLOC_ALIGN_multiple; lia | apply GRALLOC_ALIGN_bounds; lia].
Qed.

Lemma afbc_buffer_align_rounds_up_witness :
  (afbc_buffer_align true 5000) mod 4096 = 0
  /\ 5000 <= afbc_buffer_align true 5000 < 5000 + 4096.
Proof. apply (afbc_buffer_align_rounds_up true 5000). lia. Defined.

(** X6. update_yv12_stride: the chroma stride derived from a luma stride
    that the plane-0 branch produced is exactly half of it, and it meets
    the alignment that the first assertion of the chroma branch states. *)
Theorem yv12_chroma_stride_is_aligned :
  forall (luma_stride stride_align byte_stride0 byte_stride1 luma chroma : Z),
    0 < stride_align -> 0 <= luma_stride ->
    luma_stride + 2 * stride_align < 2 ^ 32 ->
    update_yv12_stride 0 luma_stride stride_align byte_stride0 = Some luma ->
    update_yv12_stride 1 luma stride_align byte_stride1 = Some chroma ->
    2 * chroma = luma
    /\ update_yv12_stride_assert_aligned chroma stride_align = Some true.
Proof.
  intros ls sa b0 b1 luma chroma Hsa Hls Hfit H0 H1.
  unfold update_yv12_stride in *.
  rewrite (to_uint32_small (2 * sa)) in H0 by lia.
  rewrite align_u32_eq in H0 by lia. apply Some_eq in H0. apply Some_eq in H1.
  pose proof (GRALLOC_ALIGN_bounds ls (2 * sa) ltac:(lia)) as Hb.
  assert (Hk : exists k, luma = k * (2 * sa)).
  { subst luma. unfold GRALLOC_ALIGN. eauto. }
  destruct Hk as [k Hk].
  assert (Hc : chroma = k * sa).
  { subst chroma. rewrite Hk. replace (k * (2 * sa)) with (k * sa * 2) by lia.
    apply Z.div_mul. lia. }
  split; [lia|].
  unfold update_yv12_stride_assert_aligned.
  assert (0 <= chroma) by nia.
  rewrite align_u32_eq by lia. cbn [obind].
  rewrite GRALLOC_ALIGN_of_multiple; [rewrite Z.eqb_refl; reflexivity | lia |].
  rewrite Hc. apply Z.mod_mul. lia.
Qed.

Lemma yv12_chroma_stride_is_aligned_witness :
  2 * 960 = 1920 /\ update_yv12_stride_assert_aligned 960 64 = Some true.
Proof.
  apply (yv12_chroma_stride_is_aligned 1900 64 0 0 1920 960); try lia; reflexivity.
Defined.

(** X7. get_alloc_type, when it accepts: the type is compressed exactly
    when the internal format has an AFBC-enable bit; tiled headers,
    padding and front-buffer safety occur on compressed types only; a
    front-buffer-safe type has tiled headers; and with the extra-wide bit
    a compressed type has tiled headers. *)
Theorem get_alloc_type_invariants {P : Platform} :
  forall (internal_format : Z) (format_idx : nat) (usage : Z) (t : alloc_type_t),
    get_alloc_type internal_format format_idx usage = Some (true, t) ->
    is_afbc t = tst internal_format MALI_GRALLOC_INTFMT_AFBCENABLE_MASK
    /\ (is_tiled t = true -> is_afbc t = true)
    /\ (is_padded t = true -> is_afbc t = true)
    /\ (is_frontbuffer_safe t = true -> is_tiled t = true)
    /\ (tst internal_format MALI_GRALLOC_INTFMT_AFBC_EXTRAWIDEBLK = true ->
        is_afbc t = true -> is_tiled t = true).
Proof.
  intros internal_format format_idx usage t. unfold get_alloc_type.
  destruct (formats_at format_idx) as [f|]; [|discriminate]. cbn [obind]. cbv zeta.
  destruct (tst internal_format MALI_GRALLOC_INTFMT_AFBCENABLE_MASK).
  - destruct (tst internal_format MALI_GRALLOC_INTFMT_AFBC_TILED_HEADERS);
      destruct (tst internal_format MALI_GRALLOC_INTFMT_AFBC_EXTRAWIDEBLK);
      destruct (tst internal_format MALI_GRALLOC_INTFMT_AFBC_WIDEBLK);
      destruct (tst internal_format MALI_GRALLOC_INTFMT_AFBC_DOUBLE_BODY);
      destruct (tst usage MALI_GRALLOC_USAGE_AFBC_PADDING);
      cbn;
      repeat match goal with
             | |- context [if ?c then _ else _] => destruct c; cbn
             end;
      intros H; inversion H; subst t; cbn; repeat split; auto; discriminate.
  - intros H. inversion H. subst t. cbn. repeat split; auto; discriminate.
Qed.

Lemma get_alloc_type_invariants_witness :
  let t := mk_alloc_type AFBC false true false true in
  is_afbc t = tst (1 + 2 ^ 32 + 2 ^ 35 + 2 ^ 37)
                  (MALI_GRALLOC_INTFMT_AFBCENABLE_MASK (Platform := aosp))
  /\ (is_tiled t = true -> is_afbc t = true)
  /\ (is_padded t = true -> is_afbc t = true)
  /\ (is_frontbuffer_safe t = true -> is_tiled t = true)
  /\ (tst (1 + 2 ^ 32 + 2 ^ 35 + 2 ^ 37)
          (MALI_GRALLOC_INTFMT_AFBC_EXTRAWIDEBLK (Platform := aosp)) = true ->
      is_afbc t = true -> is_tiled t = true).
Proof.
  apply (get_alloc_type_invariants (P := aosp) (1 + 2 ^ 32 + 2 ^ 35 + 2 ^ 37) 2 0).
  reflexivity.
Defined.

(** X8. A request of width 0 is sized 0 bytes, whatever its height is,
    the negative ones included. *)
Theorem zero_width_has_zero_size {P : Platform} :
  forall (format : format_info_t) (alloc_type : alloc_type_t)
         (has_cpu_usage has_hw_usage : bool) (height pixel_stride : Z)
         (plane_info : list plane_info_t) (st : calc_state),
    In format formats ->
    length plane_info = MAX_PLANES ->
    calc_allocation_size 0 height alloc_type format has_cpu_usage has_hw_usage
                         pixel_stride plane_info = Some st ->
    calc_size st = 0.
Proof.
  intros format alloc_type cpu hw h ps pi st Hin Hlen H.
  exact (calc_allocation_size_zero_width format alloc_type cpu hw h ps pi st Hin Hlen H).
Qed.

Lemma zero_width_has_zero_size_witness :
  calc_size (mk_calc 0 0 Examples.no_planes) = 0.
Proof.
  apply (zero_width_has_zero_size (P := aosp)
           (mk_format 0x100 2 3 8 [8;16;0] [8;16;0] 2 2 1 false true true true true 1)
           Examples.linear_type false true (-1) 0 Examples.no_planes).
  - vm_compute. do 10 right. left. reflexivity.
  - reflexivity.
  - vm_compute. reflexivity.
Defined.

(** X9. validate_format, when it accepts: a compressed type comes with an
    AFBC-capable format whose number of planes agrees with the multi-plane
    flag; an uncompressed type comes with a format that has a linear
    layout; and a BLOB has a height of 1. *)
Theorem validate_format_accepts {P : Platform} :
  forall (format : format_info_t) (alloc_type : alloc_type_t) (height : Z),
    validate_format format alloc_type height = true ->
    (is_afbc alloc_type = true ->
     afbc format = true
     /\ (npln format = 1 -> is_multi_plane alloc_type = false)
     /\ (1 < npln format -> is_multi_plane alloc_type = true))
    /\ (is_afbc alloc_type = false -> linear format = true)
    /\ (id format = MALI_GRALLOC_FORMAT_INTERNAL_BLOB -> height = 1).
Proof.
  intros format alloc_type h. unfold validate_format.
  destruct (is_afbc alloc_type).
  - destruct (afbc format); cbn [negb orb]; [|discriminate].
    destruct (Z.eqb_spec (npln format) 1) as [E1|E1];
      destruct (Z.ltb_spec 1 (npln format)) as [E2|E2];
      destruct (is_multi_plane alloc_type); cbn; try discriminate; try lia;
      destruct (Z.eqb_spec (id format) MALI_GRALLOC_FORMAT_INTERNAL_BLOB) as [Eb|Eb];
      destruct (Z.eqb_spec h 1) as [Eh|Eh]; cbn; try discriminate; intros _;
      repeat split; auto; try discriminate; try lia; try congruence.
  - destruct (linear format); cbn [negb]; [|discriminate].
    destruct (Z.eqb_spec (id format) MALI_GRALLOC_FORMAT_INTERNAL_BLOB) as [Eb|Eb];
      destruct (Z.eqb_spec h 1) as [Eh|Eh]; cbn; try discriminate; intros _;
      repeat split; auto; try discriminate; try congruence.
Qed.

Lemma validate_format_accepts_witness :
  let format := mk_format 0x100 2 3 8 [8;16;0] [8;16;0] 2 2 1 false true true true true 1 in
  let alloc_type := mk_alloc_type AFBC_EXTRAWIDEBLK true true false false in
  (is_afbc alloc_type = true ->
   afbc format = true
   /\ (npln format = 1 -> is_multi_plane alloc_type = false)
   /\ (1 < npln format -> is_multi_plane alloc_type = true))
  /\ (is_afbc alloc_type = false -> linear format = true)
  /\ (id format = MALI_GRALLOC_FORMAT_INTERNAL_BLOB (Platform := aosp) -> 1080 = 1).
Proof.
  apply (validate_format_accepts (P := aosp)
           (mk_format 0x100 2 3 8 [8;16;0] [8;16;0] 2 2 1 false true true true true 1)
           (mk_alloc_type AFBC_EXTRAWIDEBLK true true false false) 1080).
  reflexivity.
Defined.
(** ** mali_gralloc_ion.cpp *)

Section IonProperties.
Import Ion.
Context {P : Platform}.
Variable K : kernel.
Variable L : Handle.layout.

Lemma sharable_from_same_heap m indeterminate ds :
  forall i heap_type flags,
    heap_type <> ION_HEAP_TYPE_INVALID ->
    sharable_from m indeterminate ds i heap_type flags = true ->
    Forall (fun d => pick_ion_heap m (Descriptor.usage d) = heap_type) ds.
Proof.
  induction ds as [|d ds IH]; intros i heap_type flags Hvalid H; [constructor|].
  cbn [sharable_from] in H. cbv zeta in H.
  destruct (Z.eqb_spec (pick_ion_heap m (Descriptor.usage d)) ION_HEAP_TYPE_INVALID);
    [discriminate|].
  destruct (Z.eqb_spec heap_type ION_HEAP_TYPE_INVALID); [contradiction|].
  cbn [negb] in H.
  destruct (Z.eqb_spec heap_type (pick_ion_heap m (Descriptor.usage d))) as [E|E];
    cbn [negb orb] in H; [|discriminate].
  match type of H with (if ?c then _ else _) = _ => destruct c; [discriminate|] end.
  constructor; [symmetry; exact E|]. exact (IH _ _ _ Hvalid H).
Qed.

(** X10. check_buffers_sharable accepts a batch only when it has at least
    two descriptors and pick_ion_heap gives all of them the same heap
    type, which is not the invalid one. *)
Theorem sharable_batch_has_one_heap_type :
  forall (m : mali_gralloc_module) (indeterminate : nat -> Z)
         (descriptors : list Descriptor.buffer_descriptor_t),
    check_buffers_sharable m indeterminate descriptors = true ->
    (2 <= length descriptors)%nat
    /\ exists heap_type,
        heap_type <> ION_HEAP_TYPE_INVALID
        /\ Forall (fun d => pick_ion_heap m (Descriptor.usage d) = heap_type) descriptors.
Proof.
  intros m indeterminate descriptors. unfold check_buffers_sharable.
  destruct (Nat.leb_spec (length descriptors) 1) as [|Hlen]; [discriminate|].
  intros H. split; [lia|].
  destruct descriptors as [|d ds]; [cbn in Hlen; lia|].
  cbn [sharable_from] in H. cbv zeta in H.
  destruct (Z.eqb_spec (pick_ion_heap m (Descriptor.usage d)) ION_HEAP_TYPE_INVALID)
    as [|Hvalid]; [discriminate|].
  rewrite Z.eqb_refl in H. cbn [negb] in H.
  exists (pick_ion_heap m (Descriptor.usage d)). split; [exact Hvalid|].
  constructor; [reflexivity|].
  exact (sharable_from_same_heap _ _ _ _ _ _ Hvalid H).
Qed.

Lemma max_index_from_first dflt all :
  forall ds pre k,
    all = pre ++ ds ->
    (k < length pre)%nat ->
    Forall (fun d => Descriptor.size d <= Descriptor.size (nth k all dflt)) pre ->
    (forall j, (j < k)%nat -> Descriptor.size (nth j all dflt) < Descriptor.size (nth k all dflt)) ->
    let r := max_index_from ds (length pre) k (Descriptor.size (nth k all dflt)) in
    (r < length all)%nat
    /\ Forall (fun d => Descriptor.size d <= Descriptor.size (nth r all dflt)) all
    /\ forall j, (j < r)%nat -> Descriptor.size (nth j all dflt) < Descriptor.size (nth r all dflt).
Proof.
  induction ds as [|d ds IH]; intros pre k Hall Hk Hpre Hfirst; cbn [max_index_from]; cbv zeta.
  - rewrite app_nil_r in Hall. subst all. repeat split; assumption.
  - assert (Hall' : all = (pre ++ [d]) ++ ds) by (rewrite <- app_assoc; exact Hall).
    assert (Hd : nth (length pre) all dflt = d).
    { rewrite Hall. rewrite app_nth2 by lia. rewrite Nat.sub_diag. reflexivity. }
    specialize (IH (pre ++ [d])).
    rewrite length_app in IH. cbn [length] in IH. rewrite Nat.add_1_r in IH.
    destruct (Z.ltb_spec (Descriptor.size (nth k all dflt)) (Descriptor.size d)) as [Hlt|Hge].
    + specialize (IH (length pre) Hall' ltac:(lia)). rewrite Hd in IH.
      apply IH.
      * apply Forall_app. split.
        -- eapply Forall_impl; [|exact Hpre]. cbv beta. intros; lia.
        -- repeat constructor. lia.
      * intros j Hj.
        assert (Hin : In (nth j all dflt) pre).
        { rewrite Hall. rewrite app_nth1 by lia. apply nth_In. lia. }
        rewrite Forall_forall in Hpre. specialize (Hpre _ Hin). lia.
    + apply IH; [exact Hall' | lia | | exact Hfirst].
      apply Forall_app. split; [exact Hpre|]. repeat constructor. lia.
Qed.

(** X11. get_max_buffer_descriptor_index: for a batch that is not empty,
    with sizes that are not negative, the index is inside the batch, no
    descriptor is larger than the one at the index, and every descriptor
    before it is strictly smaller. *)
Theorem max_buffer_descriptor_is_first_largest :
  forall (dflt : Descriptor.buffer_descriptor_t)
         (descriptors : list Descriptor.buffer_descriptor_t),
    descriptors <> [] ->
    Forall (fun d => 0 <= Descriptor.size d) descriptors ->
    let r := get_max_buffer_descriptor_index descriptors in
    (r < length descriptors)%nat
    /\ Forall (fun d => Descriptor.size d <= Descriptor.size (nth r descriptors dflt))
              descriptors
    /\ forall j, (j < r)%nat ->
                 Descriptor.size (nth j descriptors dflt)
                 < Descriptor.size (nth r descriptors dflt).
Proof.
  intros dflt ds Hne Hpos. destruct ds as [|d ds]; [congruence|].
  unfold get_max_buffer_descriptor_index. cbn [max_index_from].
  assert (Hd : 0 <= Descriptor.size d) by (inversion Hpos; assumption).
  assert (E : (if 0 <? Descriptor.size d
               then max_index_from ds 1 0 (Descriptor.size d)
               else max_index_from ds 1 0 0)
              = max_index_from ds 1 0 (Descriptor.size d)).
  { destruct (Z.ltb_spec 0 (Descriptor.size d)); [reflexivity|].
    replace (Descriptor.size d) with 0 by lia. reflexivity. }
  cbv zeta. rewrite E.
  apply (max_index_from_first dflt (d :: ds) ds [d] 0%nat);
    [reflexivity | cbn; lia | | intros j Hj; lia].
  repeat constructor. cbn. lia.
Qed.

(** X12. alloc_from_ion_heap: a call that returns a descriptor was granted
    backing memory exactly once, for that descriptor, and every request it
    made asked for [size] bytes; a call for a size of 0, or on a client
    that is not open, returns -1 and makes no request. *)
Theorem alloc_from_ion_heap_grants_once :
  forall (m : mali_gralloc_module) (usage size heap_type flags : Z)
         (min_pgsz : option Z) (t : trace) (fd : Z) (pgsz : option Z) (t' : trace),
    alloc_from_ion_heap K m usage size heap_type flags min_pgsz t = (fd, pgsz, t') ->
    (0 <= fd ->
     exists new mask fl,
       t' = new ++ t /\ asks_for size new
       /\ backing_allocations new = [ION_ALLOC size mask fl (Some fd)])
    /\ (size <= 0 \/ ion_client m < 0 -> fd = -1 /\ pgsz = min_pgsz /\ t' = t).
Proof.
  intros m usage size heap_type flags min_pgsz t fd pgsz t' H. split.
  - intros Hfd.
    destruct (alloc_from_ion_heap_trace K _ _ _ _ _ _ _ _ _ _ H Hfd)
      as (new & Ht & Ha & mask & fl & Hone).
    exists new, mask, fl. auto.
  - intros Hbad. unfold alloc_from_ion_heap in H.
    destruct min_pgsz as [pg|]; [|inversion H; auto].
    assert (E : (ion_client m <? 0) || (size <=? 0)
                || (heap_type =? ION_HEAP_TYPE_INVALID) = true).
    { destruct Hbad as [Hs|Hc].
      - apply Z.leb_le in Hs. rewrite Hs, orb_true_r. reflexivity.
      - apply Z.ltb_lt in Hc. rewrite Hc. reflexivity. }
    rewrite E in H. inversion H. auto.
Qed.

(** The requests of try_heaps go to heaps of the asked type, with the
    flags it was given. *)
Lemma try_heaps_heaps m heap_type size flags fuel :
  forall i a,
    let a' := try_heaps K m heap_type size flags fuel i a in
    exists new,
      requests a' = new ++ requests a
      /\ Forall (fun e => exists j res,
                    e = ION_ALLOC size
                          (HEAP_MASK_FROM_ID (heap_id (nth j (heap_info m) zero_heap)))
                          flags res
                    /\ type (nth j (heap_info m) zero_heap) = heap_type) new.
Proof.
  induction fuel as [|fuel IH]; intros i a; cbn [try_heaps]; cbv zeta.
  - destruct (Z.eqb_spec heap_type (type (nth i (heap_info m) zero_heap))) as [E|E].
    + destruct (ion_alloc_fd K (requests a) size _ flags) as [fd|]; cbn;
        (eexists [_]; split; [reflexivity|]; constructor; [|constructor];
         exists i; eexists; split; [reflexivity | symmetry; exact E]).
    + cbn. exists []. split; [reflexivity|constructor].
  - destruct (Z.eqb_spec heap_type (type (nth i (heap_info m) zero_heap))) as [E|E].
    + destruct (ion_alloc_fd K (requests a) size _ flags) as [fd|]; cbn [ret].
      * cbn. eexists [_]. split; [reflexivity|]. constructor; [|constructor].
        exists i. eexists. split; [reflexivity | symmetry; exact E].
      * match goal with
        | |- context [try_heaps _ _ _ _ _ _ _ ?b] => set (b0 := b)
        end.
        match goal with
        | |- context [if ?c then try_heaps _ _ _ _ _ _ _ _ else _] =>
            destruct c; [destruct (IH (S i) b0) as (new & Hn & Ha)|]
        end.
        -- cbv zeta in Hn. eexists (new ++ [_]).
           split; [rewrite Hn, <- app_assoc; reflexivity|].
           apply Forall_app. split; [exact Ha|]. constructor; [|constructor].
           exists i. eexists. split; [reflexivity | symmetry; exact E].
        -- cbn. eexists [_]. split; [reflexivity|]. constructor; [|constructor].
           exists i. eexists. split; [reflexivity | symmetry; exact E].
    + match goal with
      | |- context [try_heaps _ _ _ _ _ _ _ ?b] => set (b0 := b)
      end.
      match goal with
      | |- context [if ?c then try_heaps _ _ _ _ _ _ _ _ else _] =>
          destruct c; [destruct (IH (S i) b0) as (new & Hn & Ha)|]
      end.
      * cbv zeta in Hn. exists new. split; [exact Hn | exact Ha].
      * cbn. exists []. split; [reflexivity|constructor].
Qed.

(** X13. Protected memory never comes from another heap: when the asked
    heap type is the secure one, every request of alloc_from_ion_heap goes
    to the secure heap type (legacy interface) or to an enumerated heap of
    the secure type, with the flags given; there is no fall-back to the
    system heap. *)
Theorem secure_allocation_never_falls_back :
  forall (m : mali_gralloc_module) (usage size flags : Z)
         (min_pgsz : option Z) (t : trace) (fd : Z) (pgsz : option Z) (t' : trace),
    alloc_from_ion_heap K m usage size ION_HEAP_TYPE_SECURE flags min_pgsz t
    = (fd, pgsz, t') ->
    exists new,
      t' = new ++ t
      /\ Forall (fun e =>
                   exists mask res,
                     e = ION_ALLOC size mask flags res
                     /\ (mask = HEAP_MASK_FROM_TYPE ION_HEAP_TYPE_SECURE
                         \/ exists j,
                             type (nth j (heap_info m) zero_heap) = ION_HEAP_TYPE_SECURE
                             /\ mask = HEAP_MASK_FROM_ID
                                         (heap_id (nth j (heap_info m) zero_heap)))) new.
Proof.
  intros m usage size flags min_pgsz t fd pgsz t' H.
  unfold alloc_from_ion_heap in H.
  destruct min_pgsz as [pg|]; [|inversion H; exists []; split; [reflexivity|constructor]].
  destruct ((ion_client m <? 0) || (size <=? 0)
            || (ION_HEAP_TYPE_SECURE =? ION_HEAP_TYPE_INVALID));
    [inversion H; exists []; split; [reflexivity|constructor]|].
  cbv zeta in H. rewrite Z.eqb_refl in H.
  set (start := mk_attempt (-1) (-1) false t) in H.
  set (a1 := if negb GRALLOC_USE_LEGACY_ION_API && negb (use_legacy_ion m)
             then try_heaps K m ION_HEAP_TYPE_SECURE size flags (Z.to_nat (heap_cnt m)) 0 start
             else try_legacy K ION_HEAP_TYPE_SECURE size flags start) in H.
  assert (Hreq : exists new,
             requests a1 = new ++ t
             /\ Forall (fun e =>
                   exists mask res,
                     e = ION_ALLOC size mask flags res
                     /\ (mask = HEAP_MASK_FROM_TYPE ION_HEAP_TYPE_SECURE
                         \/ exists j,
                             type (nth j (heap_info m) zero_heap) = ION_HEAP_TYPE_SECURE
                             /\ mask = HEAP_MASK_FROM_ID
                                         (heap_id (nth j (heap_info m) zero_heap)))) new).
  { subst a1. destruct (negb GRALLOC_USE_LEGACY_ION_API && negb (use_legacy_ion m)).
    - destruct (try_heaps_heaps m ION_HEAP_TYPE_SECURE size flags
                  (Z.to_nat (heap_cnt m)) 0%nat start) as (new & Hn & Ha).
      exists new. split; [exact Hn|].
      eapply Forall_impl; [|exact Ha]. cbv beta.
      intros e (j & res & -> & Hj). eauto 8.
    - unfold try_legacy. cbv zeta.
      destruct (ion_alloc_fd K (requests start) size _ flags) as [fd'|]; cbn;
        (eexists [_]; split; [reflexivity|]; repeat constructor; eauto). }
  destruct Hreq as (new & Hn & Ha).
  destruct (ret a1 <? 0); inversion H; subst; exists new; auto.
Qed.

(** X14. A protected buffer on a device without a secure heap: with the
    ION client open, mali_gralloc_ion_allocate returns -1 for every batch
    that starts with such a descriptor, does not report a shared backend,
    and makes no request for backing memory. *)
Theorem protected_request_needs_secure_heap :
  forall (m : mali_gralloc_module) (indeterminate : nat -> Z)
         (d : Descriptor.buffer_descriptor_t)
         (rest : list Descriptor.buffer_descriptor_t)
         (pHandle : list (option Handle.private_handle_t)) (t : trace),
    0 <= ion_client m ->
    secure_heap_exists m = false ->
    tst (Descriptor.usage d) GRALLOC_USAGE_PROTECTED = true ->
    let a := mali_gralloc_ion_allocate K L m indeterminate (d :: rest) pHandle t in
    status a = -1 /\ shared_backend a = false
    /\ exists new,
        requests_after a = new ++ t
        /\ Forall (fun e => requested_size e = None) new.
Proof.
  intros m indeterminate d rest pHandle t Hclient Hsecure Hprot.
  assert (Hpick : pick_ion_heap m (Descriptor.usage d) = ION_HEAP_TYPE_INVALID).
  { unfold pick_ion_heap. rewrite Hprot, Hsecure. reflexivity. }
  unfold mali_gralloc_ion_allocate.
  destruct (Z.ltb_spec (ion_client m) 0) as [|_]; [lia|].
  change (0 <? 0) with false. cbv iota zeta.
  assert (Hshared : check_buffers_sharable m indeterminate (d :: rest) = false).
  { unfold check_buffers_sharable.
    destruct (length (d :: rest) <=? 1)%nat; [reflexivity|].
    cbn [sharable_from]. cbv zeta. rewrite Hpick, Z.eqb_refl. reflexivity. }
  rewrite Hshared. cbn [allocate_each]. cbv zeta. rewrite Hpick, Z.eqb_refl.
  destruct (ion_free_internal_trace (firstn (length (d :: rest)) pHandle) t)
    as (pH' & new & E & Hnew).
  rewrite E. change (-1 <? 0) with true. cbn.
  split; [reflexivity|]. split; [reflexivity|]. exists new. auto.
Qed.

(** X15. mali_gralloc_ion_free_internal keeps the length of the array, and
    every handle of an ION buffer that is not the frame buffer is zeroed
    and its descriptor closed. *)
Theorem ion_free_internal_releases_every_buffer :
  forall (pHandle : list (option Handle.private_handle_t)) (t : trace),
  exists pHandle' new,
    mali_gralloc_ion_free_internal pHandle t = (pHandle', new ++ t)
    /\ length pHandle' = length pHandle
    /\ forall i hnd,
        nth_error pHandle i = Some (Some hnd) ->
        tst (Handle.flags hnd) Handle.PRIV_FLAGS_FRAMEBUFFER = false ->
        tst (Handle.flags hnd) Handle.PRIV_FLAGS_USES_ION = true ->
        nth_error pHandle' i = Some (Some Handle.zeroed)
        /\ In (CLOSE (Handle.share_fd hnd)) new.
Proof.
  induction pHandle as [|[hnd|] pHandle IH]; intros t;
    cbn [mali_gralloc_ion_free_internal].
  - exists [], []. split; [reflexivity|]. split; [reflexivity|].
    intros [|i] hnd H; discriminate.
  - unfold mali_gralloc_ion_free.
    destruct (tst (Handle.flags hnd) Handle.PRIV_FLAGS_FRAMEBUFFER) eqn:Efb.
    + destruct (IH t) as (rest & new & E & Hl & Hall). rewrite E.
      exists (Some hnd :: rest), new. split; [reflexivity|].
      split; [cbn; lia|].
      intros [|i] h Hi Hfb Hion; cbn in Hi.
      * inversion Hi; subst h. congruence.
      * apply (Hall i h Hi Hfb Hion).
    + destruct (tst (Handle.flags hnd) Handle.PRIV_FLAGS_USES_ION) eqn:Eion.
      * set (t1 := CLOSE (Handle.share_fd hnd) :: _).
        destruct (IH t1) as (rest & new & E & Hl & Hall). rewrite E.
        assert (Ht1 : exists mid, t1 = mid ++ t /\ In (CLOSE (Handle.share_fd hnd)) mid).
        { subst t1. destruct (negb (Handle.base hnd =? 0)).
          - eexists [_; _]. split; [reflexivity|]. left. reflexivity.
          - eexists [_]. split; [reflexivity|]. left. reflexivity. }
        destruct Ht1 as (mid & Hmid & Hin).
        exists (Some Handle.zeroed :: rest), (new ++ mid).
        split; [rewrite Hmid, app_assoc; reflexivity|].
        split; [cbn; lia|].
        intros [|i] h Hi Hfb Hion; cbn in Hi.
        -- inversion Hi; subst h. split; [reflexivity|].
           apply in_or_app. right. exact Hin.
        -- destruct (Hall i h Hi Hfb Hion) as [Hz Hc]. split; [exact Hz|].
           apply in_or_app. left. exact Hc.
      * destruct (IH t) as (rest & new & E & Hl & Hall). rewrite E.
        exists (Some hnd :: rest), new. split; [reflexivity|].
        split; [cbn; lia|].
        intros [|i] h Hi Hfb Hion; cbn in Hi.
        -- inversion Hi; subst h. congruence.
        -- apply (Hall i h Hi Hfb Hion).
  - destruct (IH t) as (rest & new & E & Hl & Hall). rewrite E.
    exists (None :: rest), new. split; [reflexivity|]. split; [cbn; lia|].
    intros [|i] h Hi Hfb Hion; cbn in Hi; [discriminate|].
    apply (Hall i h Hi Hfb Hion).
Qed.

(** X16. open_and_query_ion, with a heap-count query that answers 0 or a
    negative error: a status of 0 means that the client is the descriptor
    ion_open returned and is not negative, and with the modern interface
    that the heap count does not exceed ION_NUM_HEAP_IDS, the size of the
    array of cached heaps; a secure heap that was known stays known. *)
Theorem open_and_query_ion_success :
  forall (m : mali_gralloc_module) (t : trace) (m' : mali_gralloc_module),
    fst (ion_query_heap_cnt K t) <= 0 ->
    open_and_query_ion K m t = (0, m') ->
    ion_client m' = ion_open K t
    /\ 0 <= ion_client m'
    /\ (use_legacy_ion m' = false ->
        GRALLOC_USE_LEGACY_ION_API = false
        /\ to_int32 (heap_cnt m') <= ION_NUM_HEAP_IDS)
    /\ (secure_heap_exists m = true -> secure_heap_exists m' = true).
Proof.
  intros m t m' Hquery. unfold open_and_query_ion. cbv zeta.
  destruct (Z.ltb_spec (ion_open K t) 0) as [Hneg|Hopen]; [intros H; inversion H|].
  destruct GRALLOC_USE_LEGACY_ION_API.
  { intros H. inversion H; subst m'. cbn.
    repeat split; auto; try discriminate. intros ->. reflexivity. }
  destruct (negb (ion_is_legacy K t =? 0)) eqn:Elegacy; cbn [negb].
  { intros H. inversion H; subst m'. cbn.
    repeat split; auto; try discriminate. intros ->. reflexivity. }
  destruct (ion_query_heap_cnt K t) as [ret cnt]. cbn [fst] in Hquery.
  destruct (Z.eqb_spec ret 0) as [->|Hret].
  - destruct (Z.ltb_spec ION_NUM_HEAP_IDS (to_int32 cnt)) as [Hbig|Hcnt];
      [intros H; inversion H|].
    destruct (ion_query_get_heaps K t cnt) as [ret2 heap_data].
    destruct (Z.eqb_spec ret2 0) as [->|Hret2].
    + destruct (ION_NUM_HEAP_IDS <? Z.of_nat (length heap_data)); [intros H; inversion H|].
      intros H. inversion H; subst m'. cbn.
      repeat split; auto. intros ->. reflexivity.
    + destruct (Z.ltb_spec ret2 0) as [Hr|Hr]; [intros H; inversion H; lia|].
      intros H. inversion H; subst m'. cbn. repeat split; auto.
  - destruct (Z.ltb_spec ret 0) as [Hr|Hr]; [intros H; inversion H; lia|]. lia.
Qed.

End IonProperties.

Lemma sharable_batch_has_one_heap_type_witness :
  (2 <= length [Examples.descriptor_of (2 ^ 8) 4096;
                Examples.descriptor_of (2 ^ 8) 16384])%nat
  /\ exists heap_type,
      heap_type <> Ion.ION_HEAP_TYPE_INVALID
      /\ Forall (fun d => Ion.pick_ion_heap (P := aosp) Examples.legacy_module
                            (Descriptor.usage d) = heap_type)
           [Examples.descriptor_of (2 ^ 8) 4096; Examples.descriptor_of (2 ^ 8) 16384].
Proof.
  apply (sharable_batch_has_one_heap_type (P := aosp) Examples.legacy_module (fun _ => 0)
           [Examples.descriptor_of (2 ^ 8) 4096; Examples.descriptor_of (2 ^ 8) 16384]).
  reflexivity.
Defined.

Lemma max_buffer_descriptor_is_first_largest_witness :
  let ds := [Examples.descriptor_of (2 ^ 8) 4096; Examples.descriptor_of (2 ^ 8) 16384;
             Examples.descriptor_of (2 ^ 8) 16384] in
  let r := Ion.get_max_buffer_descriptor_index ds in
  (r < length ds)%nat
  /\ Forall (fun d => Descriptor.size d
                      <= Descriptor.size (nth r ds (Examples.descriptor_of 0 0))) ds
  /\ forall j, (j < r)%nat ->
               Descriptor.size (nth j ds (Examples.descriptor_of 0 0))
               < Descriptor.size (nth r ds (Examples.descriptor_of 0 0)).
Proof.
  apply (max_buffer_descriptor_is_first_largest (Examples.descriptor_of 0 0)
           [Examples.descriptor_of (2 ^ 8) 4096; Examples.descriptor_of (2 ^ 8) 16384;
            Examples.descriptor_of (2 ^ 8) 16384]).
  - discriminate.
  - repeat constructor; vm_compute; discriminate.
Defined.

Lemma alloc_from_ion_heap_grants_once_witness :
  (0 <= 7 ->
   exists new mask fl,
     [Ion.ION_ALLOC 4096 1 0 (Some 7); Ion.ION_ALLOC 4096 2 0 None] = new ++ []
     /\ Ion.asks_for 4096 new
     /\ Ion.backing_allocations new = [Ion.ION_ALLOC 4096 mask fl (Some 7)])
  /\ (4096 <= 0 \/ Ion.ion_client Examples.legacy_module < 0 ->
      7 = -1 /\ Some 4096 = Some 0
      /\ [Ion.ION_ALLOC 4096 1 0 (Some 7); Ion.ION_ALLOC 4096 2 0 None] = []).
Proof.
  apply (alloc_from_ion_heap_grants_once (P := aosp) Examples.system_heap_kernel
           Examples.legacy_module (2 ^ 12) 4096
           1 0 (Some 0) []).
  reflexivity.
Defined.

Lemma open_and_query_ion_success_witness :
  let m' := Ion.mk_module 3 true false 0 [] in
  Ion.ion_client m' = Ion.ion_open Examples.granting_kernel []
  /\ 0 <= Ion.ion_client m'
  /\ (Ion.use_legacy_ion m' = false ->
      GRALLOC_USE_LEGACY_ION_API (Platform := aosp) = false
      /\ to_int32 (Ion.heap_cnt m') <= ION_NUM_HEAP_IDS (Platform := aosp))
  /\ (Ion.secure_heap_exists (Ion.mk_module (-1) false false 0 []) = true ->
      Ion.secure_heap_exists m' = true).
Proof.
  apply (open_and_query_ion_success (P := aosp) Examples.granting_kernel
           (Ion.mk_module (-1) false false 0 []) []).
  - vm_compute. discriminate.
  - reflexivity.
Defined.

Lemma secure_allocation_never_falls_back_witness :
  exists new,
    [Ion.ION_ALLOC 4096 64 0 None] = new ++ []
    /\ Forall (fun e =>
                 exists mask res,
                   e = Ion.ION_ALLOC 4096 mask 0 res
                   /\ (mask = Ion.HEAP_MASK_FROM_TYPE (Ion.ION_HEAP_TYPE_SECURE (P := aosp))
                       \/ exists j,
                           Ion.type (nth j (Ion.heap_info Examples.legacy_module) Ion.zero_heap)
                           = Ion.ION_HEAP_TYPE_SECURE (P := aosp)
                           /\ mask = Ion.HEAP_MASK_FROM_ID
                                       (Ion.heap_id (nth j (Ion.heap_info Examples.legacy_module)
                                                         Ion.zero_heap)))) new.
Proof.
  apply (secure_allocation_never_falls_back (P := aosp) Examples.system_heap_kernel
           Examples.legacy_module (2 ^ 14) 4096 0 (Some 0) [] (-1) (Some 0)).
  reflexivity.
Defined.

Lemma protected_request_needs_secure_heap_witness :
  let a := Ion.mali_gralloc_ion_allocate (P := aosp) Examples.granting_kernel
             Examples.lp64_layout Examples.legacy_module (fun _ => 0)
             [Examples.descriptor_of (2 ^ 14) 4096; Examples.descriptor_of (2 ^ 8) 4096]
             [None; None] [] in
  Ion.status a = -1 /\ Ion.shared_backend a = false
  /\ exists new,
      Ion.requests_after a = new ++ []
      /\ Forall (fun e => Ion.requested_size e = None) new.
Proof.
  apply (protected_request_needs_secure_heap (P := aosp) Examples.granting_kernel
           Examples.lp64_layout Examples.legacy_module (fun _ => 0)
           (Examples.descriptor_of (2 ^ 14) 4096) [Examples.descriptor_of (2 ^ 8) 4096]
           [None; None] []).
  - vm_compute. discriminate.
  - reflexivity.
  - reflexivity.
Defined.
(** ** mali_gralloc_buffer.h *)

(** X17. A handle made by the constructor validates, for every layout and
    every argument, and dynamicCast returns it. *)
Theorem constructed_handle_validates :
  forall (L : Handle.layout)
         (pid flags size min_pgsz consumer_usage producer_usage shared_fd req_format
          internal_format alloc_format width height stride internal_width
          internal_height byte_stride backing_store_size layer_count : Z)
         (plane_info : list plane_info_t),
    let hnd := Handle.new_private_handle_t L pid flags size min_pgsz consumer_usage
                 producer_usage shared_fd req_format internal_format alloc_format width
                 height stride internal_width internal_height byte_stride
                 backing_store_size layer_count plane_info in
    Handle.validate L (Some hnd) = 0
    /\ Release.dynamicCast L (Some hnd) = Some hnd
    /\ Handle.validate L None = - EINVAL
    /\ Release.dynamicCast L None = None.
Proof.
  intros. subst hnd. unfold Release.dynamicCast, Handle.validate.
  cbn [Handle.version Handle.numInts Handle.numFds Handle.magic Handle.new_private_handle_t].
  rewrite !Z.eqb_refl. cbn. repeat split.
Qed.

(** ** mali_gralloc_bufferaccess.cpp *)

Section AccessProperties.
Context {P : Platform}.
Variable L : Handle.layout.
Variable lock_pid : Z.

(** X18. validate_lock_input_parameters accepts a request only when the
    region lies inside the buffer, without overflow of the sums, the
    locking process is the allocating or the registered one, the buffer is
    mapped, and the allocated format has no AFBC modifier. *)
Theorem accepted_lock_region_is_inside_buffer :
  forall (hnd : Handle.private_handle_t) (l t w h usage : Z),
    - 2 ^ 31 <= l < 2 ^ 31 -> - 2 ^ 31 <= t < 2 ^ 31 ->
    - 2 ^ 31 <= w < 2 ^ 31 -> - 2 ^ 31 <= h < 2 ^ 31 ->
    Access.validate_lock_input_parameters lock_pid hnd l t w h usage = 0 ->
    0 <= l /\ 0 <= t /\ 0 <= w /\ 0 <= h
    /\ l + w <= Handle.width hnd /\ t + h <= Handle.height hnd
    /\ (Handle.allocating_pid hnd = lock_pid \/ Handle.remote_pid hnd = lock_pid)
    /\ Handle.base hnd <> Handle.NULL
    /\ Z.land (Handle.alloc_format hnd) MALI_GRALLOC_INTFMT_EXT_MASK = 0.
Proof.
  intros hnd l t w h usage Hl Ht Hw Hh.
  unfold Access.validate_lock_input_parameters, EINVAL, GRALLOC1_ERROR_UNSUPPORTED.
  destruct (Z.ltb_spec l 0); [discriminate|].
  destruct (Z.ltb_spec t 0); [discriminate|].
  destruct (Z.ltb_spec w 0); [discriminate|].
  destruct (Z.ltb_spec h 0); [discriminate|]. cbn [orb].
  assert (Hsum : forall a b, 0 <= a < 2 ^ 31 -> 0 <= b < 2 ^ 31 ->
                   (to_int32 (a + b) <? 0) = false -> to_int32 (a + b) = a + b).
  { intros a b Ha Hb Hs. apply Z.ltb_ge in Hs.
    destruct (Z_lt_le_dec (a + b) (2 ^ 31)) as [Hlt|Hge]; [apply to_int32_small; lia|].
    exfalso. unfold to_int32, to_uint32, wrap in Hs.
    rewrite (Z.mod_small (a + b)) in Hs by lia.
    destruct (Z.ltb_spec (a + b) (2 ^ 31)); lia. }
  destruct (to_int32 (l + w) <? 0) eqn:E1; [discriminate|].
  destruct (to_int32 (t + h) <? 0) eqn:E2; [discriminate|]. cbn [orb].
  rewrite (Hsum l w) by first [assumption | lia].
  rewrite (Hsum t h) by first [assumption | lia].
  destruct (Z.ltb_spec (Handle.height hnd) (t + h)); [discriminate|].
  destruct (Z.ltb_spec (Handle.width hnd) (l + w)); [discriminate|]. cbn [orb].
  cbv zeta.
  destruct (Z.eqb_spec (Handle.allocating_pid hnd) lock_pid) as [Ea|Ea];
    destruct (Z.eqb_spec (Handle.remote_pid hnd) lock_pid) as [Er|Er];
    cbn [orb negb]; try discriminate;
    (destruct (Z.eqb_spec (Handle.base hnd) Handle.NULL) as [Eb|Eb]; [discriminate|]);
    (destruct (Z.eqb_spec (Z.land (Handle.alloc_format hnd) MALI_GRALLOC_INTFMT_EXT_MASK) 0)
       as [Ee|Ee]; cbn [negb];
     [|destruct GRALLOC_USE_GRALLOC1_API; discriminate]);
    intros _; repeat split; auto; lia.
Qed.

Lemma lock_outcome :
  forall (hnd : Handle.private_handle_t) (usage l t w h : Z) (vaddr : option Z)
         (r : Access.locked Z),
    Access.mali_gralloc_lock L lock_pid (Some hnd) usage l t w h vaddr = Some r ->
    (Access.lock_status r <> 0 -> Access.lock_out r = vaddr)
    /\ (Access.lock_status r = 0 -> tst usage GRALLOC_USAGE_SW_MASK = true ->
        Access.lock_out r = Some (Handle.base hnd)
        /\ Access.validate_lock_input_parameters lock_pid hnd l t w h usage = 0)
    /\ exists owner,
        Access.lock_handle r = Some hnd
        \/ Access.lock_handle r = Some (Handle.set_writeOwner hnd owner).
Proof.
  intros hnd usage l t w h vaddr r. unfold Access.mali_gralloc_lock, Access.leave.
  assert (Hneg : - EINVAL <> 0) by (unfold EINVAL; lia).
  destruct (Handle.validate L (Some hnd) <? 0).
  { intros H. apply Some_eq in H. subst r. cbn.
    split; [reflexivity|]. split; [intros C; congruence|]. exists 0. left. reflexivity. }
  cbv zeta.
  destruct (Z.eqb_spec (Access.validate_lock_input_parameters lock_pid hnd l t w h usage) 0)
    as [Ev|Ev]; cbn [negb].
  2: { intros H. apply Some_eq in H. subst r. cbn.
       split; [reflexivity|]. split; [intros C; congruence|]. exists 0. left. reflexivity. }
  match goal with |- (if ?c then _ else _) = _ -> _ => destruct c end.
  { intros H. apply Some_eq in H. subst r. cbn.
    split; [reflexivity|]. split; [intros C; congruence|]. exists 0. left. reflexivity. }
  match goal with |- (if ?c then _ else _) = _ -> _ => destruct c end.
  { intros H. apply Some_eq in H. subst r. cbn.
    split; [reflexivity|]. split; [intros C; congruence|]. exists 0. left. reflexivity. }
  assert (Hnote : exists owner,
             Access.note_write_owner hnd usage = hnd
             \/ Access.note_write_owner hnd usage = Handle.set_writeOwner hnd owner).
  { unfold Access.note_write_owner.
    destruct (tst (Handle.flags hnd) Handle.PRIV_FLAGS_USES_ION);
      [eexists; right; reflexivity | exists 0; left; reflexivity]. }
  assert (Hbase : Handle.base (Access.note_write_owner hnd usage) = Handle.base hnd).
  { unfold Access.note_write_owner.
    destruct (tst (Handle.flags hnd) Handle.PRIV_FLAGS_USES_ION); reflexivity. }
  unfold tst.
  destruct (negb (Z.land usage GRALLOC_USAGE_SW_MASK =? 0)).
  - destruct vaddr as [v|].
    + intros H. apply Some_eq in H. subst r. cbn [Access.lock_status Access.lock_out
        Access.lock_handle].
      split; [intros C; congruence|]. split; [intros _ _; rewrite Hbase; auto|].
      destruct Hnote as [owner [E|E]]; exists owner; rewrite E; auto.
    + intros H. apply Some_eq in H. subst r. cbn [Access.lock_status Access.lock_out
        Access.lock_handle].
      split; [reflexivity|]. split; [intros C; congruence|].
      exists 0. right. f_equal.
      unfold Access.note_write_owner.
      destruct (tst (Handle.flags hnd) Handle.PRIV_FLAGS_USES_ION); reflexivity.
  - intros H. apply Some_eq in H. subst r. cbn [Access.lock_status Access.lock_out
      Access.lock_handle].
    split; [intros C; congruence|]. split; [intros _ C; discriminate|].
    destruct Hnote as [owner [E|E]]; exists owner; rewrite E; auto.
Qed.

(** X19. mali_gralloc_lock: a lock that fails writes nothing through
    [vaddr]; a lock with a CPU usage bit that succeeds stores the mapped
    address of the buffer there, for a region inside the buffer; and the
    only member of the handle a lock changes is writeOwner. *)
Theorem lock_reports_mapped_address :
  forall (hnd : Handle.private_handle_t) (usage l t w h : Z) (vaddr : option Z)
         (r : Access.locked Z),
    Access.mali_gralloc_lock L lock_pid (Some hnd) usage l t w h vaddr = Some r ->
    (Access.lock_status r <> 0 -> Access.lock_out r = vaddr)
    /\ (Access.lock_status r = 0 -> tst usage GRALLOC_USAGE_SW_MASK = true ->
        Access.lock_out r = Some (Handle.base hnd)
        /\ Access.validate_lock_input_parameters lock_pid hnd l t w h usage = 0)
    /\ exists owner,
        Access.lock_handle r = Some hnd
        \/ Access.lock_handle r = Some (Handle.set_writeOwner hnd owner).
Proof. exact lock_outcome. Qed.

Lemma land_single_bit x k : 0 <= k -> Z.land x (2 ^ k) = 0 \/ Z.land x (2 ^ k) = 2 ^ k.
Proof.
  intros Hk. destruct (Z.testbit x k) eqn:E; [right|left];
    apply Z.bits_inj'; intros n Hn; rewrite Z.land_spec, ?Z.bits_0, Z.pow2_bits_eqb by lia;
    destruct (Z.eqb_spec k n) as [->|]; rewrite ?E, ?andb_false_r; reflexivity.
Qed.

(** X20. Locking for writing and unlocking: after a lock of an ION buffer
    that succeeds, mali_gralloc_unlock returns 0; it synchronises the
    buffer through its shared descriptor when the lock had a CPU write
    usage bit and the buffer is not in the DMA heap, and makes no call
    otherwise. *)
Theorem write_lock_is_synced_at_unlock :
  forall (m : Ion.mali_gralloc_module) (hnd : Handle.private_handle_t)
         (usage l t w h : Z) (vaddr : option Z) (r : Access.locked Z),
    tst (Handle.flags hnd) Handle.PRIV_FLAGS_USES_ION = true ->
    Access.mali_gralloc_lock L lock_pid (Some hnd) usage l t w h vaddr = Some r ->
    Access.lock_status r = 0 ->
    exists hnd',
      Access.lock_handle r = Some hnd'
      /\ Release.mali_gralloc_unlock L (Some m) (Some hnd')
         = (0,
            if tst usage GRALLOC_USAGE_SW_WRITE_MASK
               && negb (tst (Handle.flags hnd) Handle.PRIV_FLAGS_USES_ION_DMA_HEAP)
            then Some (Ion.ion_client m, Handle.share_fd hnd)
            else None).
Proof.
  intros m hnd usage l t w h vaddr r Hion.
  assert (Hneg : - EINVAL <> 0) by (unfold EINVAL; lia).
  assert (Hland : 0 <= Z.land usage GRALLOC_USAGE_SW_WRITE_MASK < 2 ^ 31).
  { unfold GRALLOC_USAGE_SW_WRITE_MASK.
    replace (Z.land usage 0xF0) with (Z.land (Z.land usage 0xF0) (Z.ones 8))
      by (rewrite <- Z.land_assoc; reflexivity).
    rewrite Z.land_ones by lia.
    pose proof (Z.mod_pos_bound (Z.land usage 0xF0) (2 ^ 8) ltac:(lia)). lia. }
  assert (Hflag : Z.land (Handle.flags hnd) Handle.PRIV_FLAGS_USES_ION
                  = Handle.PRIV_FLAGS_USES_ION).
  { unfold tst in Hion. apply negb_true_iff, Z.eqb_neq in Hion.
    change Handle.PRIV_FLAGS_USES_ION with (2 ^ 2) in *.
    destruct (land_single_bit (Handle.flags hnd) 2 ltac:(lia)); congruence. }
  unfold Access.mali_gralloc_lock, Access.leave.
  destruct (Handle.validate L (Some hnd) <? 0) eqn:Eval;
    [intros H; apply Some_eq in H; subst r; cbn; congruence|].
  cbv zeta.
  destruct (Z.eqb_spec (Access.validate_lock_input_parameters lock_pid hnd l t w h usage) 0)
    as [Ev|Ev]; cbn [negb];
    [|intros H; apply Some_eq in H; subst r; cbn; congruence].
  match goal with |- (if ?c then _ else _) = _ -> _ => destruct c end;
    [intros H; apply Some_eq in H; subst r; cbn; congruence|].
  match goal with |- (if ?c then _ else _) = _ -> _ => destruct c end;
    [intros H; apply Some_eq in H; subst r; cbn; congruence|].
  assert (Hnote : Access.note_write_owner hnd usage
                  = Handle.set_writeOwner hnd (Z.land usage GRALLOC_USAGE_SW_WRITE_MASK)).
  { unfold Access.note_write_owner. rewrite Hion, to_int32_small by exact Hland.
    reflexivity. }
  rewrite Hnote.
  assert (Hunlock :
            Release.mali_gralloc_unlock L (Some m)
              (Some (Handle.set_writeOwner hnd (Z.land usage GRALLOC_USAGE_SW_WRITE_MASK)))
            = (0,
               if tst usage GRALLOC_USAGE_SW_WRITE_MASK
                  && negb (tst (Handle.flags hnd) Handle.PRIV_FLAGS_USES_ION_DMA_HEAP)
               then Some (Ion.ion_client m, Handle.share_fd hnd)
               else None)).
  { unfold Release.mali_gralloc_unlock, Release.mali_gralloc_ion_sync.
    change (Handle.validate L (Some (Handle.set_writeOwner hnd ?o)))
      with (Handle.validate L (Some hnd)).
    rewrite Eval. cbn [Handle.flags Handle.writeOwner Handle.share_fd Handle.set_writeOwner].
    rewrite Hion, Hflag, Z.eqb_refl. unfold tst. cbn [andb].
    destruct (negb (Z.land usage GRALLOC_USAGE_SW_WRITE_MASK =? 0)); [|reflexivity].
    cbn [andb].
    destruct (negb (negb (Z.land (Handle.flags hnd) Handle.PRIV_FLAGS_USES_ION_DMA_HEAP
                          =? 0))); reflexivity. }
  destruct (negb (Z.land usage GRALLOC_USAGE_SW_MASK =? 0)).
  - destruct vaddr as [v|];
      intros H; apply Some_eq in H; subst r; cbn; [|congruence].
    intros _. eexists. split; [reflexivity|exact Hunlock].
  - intros H. apply Some_eq in H. subst r. cbn.
    intros _. eexists. split; [reflexivity|exact Hunlock].
Qed.

(** ** mali_gralloc_public_interface.cpp *)

Lemma lor_nonzero_l x y m : Z.land x m <> 0 -> Z.land (Z.lor x y) m <> 0.
Proof.
  intros H C. rewrite Z.land_lor_distr_l in C. apply Z.lor_eq_0_iff in C. tauto.
Qed.

Lemma land_lor_nonzero_r x a b : Z.land x a <> 0 -> Z.land x (Z.lor a b) <> 0.
Proof.
  intros H C. rewrite Z.land_lor_distr_r in C. apply Z.lor_eq_0_iff in C. tauto.
Qed.

Lemma test_lock_usage_outcome producerUsage consumerUsage :
  (Gralloc1.mali_gralloc1_test_lock_usage producerUsage consumerUsage = GRALLOC1_ERROR_NONE
   \/ Gralloc1.mali_gralloc1_test_lock_usage producerUsage consumerUsage
      = Gralloc1.GRALLOC1_ERROR_BAD_VALUE)
  /\ (Gralloc1.mali_gralloc1_test_lock_usage producerUsage consumerUsage = GRALLOC1_ERROR_NONE ->
      ((producerUsage = 0 /\ consumerUsage <> 0) \/ (producerUsage <> 0 /\ consumerUsage = 0))
      /\ tst (Z.lor producerUsage consumerUsage) GRALLOC_USAGE_SW_MASK = true).
Proof.
  unfold Gralloc1.mali_gralloc1_test_lock_usage, Gralloc1.GRALLOC1_PRODUCER_USAGE_NONE,
    Gralloc1.GRALLOC1_CONSUMER_USAGE_NONE, Gralloc1.GRALLOC1_ERROR_BAD_VALUE,
    GRALLOC1_ERROR_NONE, GRALLOC_USAGE_SW_MASK.
  destruct (Z.eqb_spec producerUsage 0) as [->|Hp].
  - destruct (Z.eqb_spec (Z.land consumerUsage GRALLOC_USAGE_SW_READ_MASK) 0) as [E|E].
    + split; [right; reflexivity|discriminate].
    + split; [left; reflexivity|]. intros _. split.
      * left. split; [reflexivity|]. intros ->. apply E. reflexivity.
      * apply tst_true. rewrite Z.lor_0_l. apply land_lor_nonzero_r. exact E.
  - destruct (Z.eqb_spec consumerUsage 0) as [->|Hc].
    + destruct (Z.eqb_spec (Z.land producerUsage
                              (Z.lor GRALLOC_USAGE_SW_READ_MASK GRALLOC_USAGE_SW_WRITE_MASK)) 0)
        as [E|E].
      * split; [right; reflexivity|discriminate].
      * split; [left; reflexivity|]. intros _. split; [right; split; [exact Hp|reflexivity]|].
        apply tst_true. rewrite Z.lor_0_r. exact E.
    + split; [right; reflexivity|discriminate].
Qed.

(** X21. mali_gralloc1_test_lock_usage answers GRALLOC1_ERROR_NONE or
    GRALLOC1_ERROR_BAD_VALUE; it accepts only when exactly one of the two
    usages is NONE, and then the combined usage that the lock is called
    with has a CPU read or write bit. *)
Theorem accepted_lock_usage_has_one_cpu_side :
  forall producerUsage consumerUsage : Z,
    (Gralloc1.mali_gralloc1_test_lock_usage producerUsage consumerUsage = GRALLOC1_ERROR_NONE
     \/ Gralloc1.mali_gralloc1_test_lock_usage producerUsage consumerUsage
        = Gralloc1.GRALLOC1_ERROR_BAD_VALUE)
    /\ (Gralloc1.mali_gralloc1_test_lock_usage producerUsage consumerUsage
        = GRALLOC1_ERROR_NONE ->
        ((producerUsage = 0 /\ consumerUsage <> 0) \/ (producerUsage <> 0 /\ consumerUsage = 0))
        /\ tst (Z.lor producerUsage consumerUsage) GRALLOC_USAGE_SW_MASK = true).
Proof. exact test_lock_usage_outcome. Qed.

(** X22. mali_gralloc1_lock_async answers one of the four statuses its
    description lists; when it answers GRALLOC1_ERROR_NONE, exactly one of
    the usages is NONE, the region is inside the buffer, and the mapped
    address of the buffer was stored through [outData]; when it answers
    anything else, what [outData] points to is as before. *)
Theorem gralloc1_lock_statuses :
  forall (hnd : Handle.private_handle_t) (producerUsage consumerUsage : Z)
         (accessRegion : option Gralloc1.gralloc1_rect_t) (outData : option Z)
         (acquireFence : Z) (r : Access.locked Z),
    Gralloc1.mali_gralloc1_lock_async L lock_pid (Some hnd) producerUsage consumerUsage
      accessRegion outData acquireFence = Some r ->
    In (Access.lock_status r)
       [GRALLOC1_ERROR_NONE; Gralloc1.GRALLOC1_ERROR_BAD_HANDLE;
        Gralloc1.GRALLOC1_ERROR_BAD_VALUE; GRALLOC1_ERROR_UNSUPPORTED]
    /\ (Access.lock_status r = GRALLOC1_ERROR_NONE ->
        ((producerUsage = 0 /\ consumerUsage <> 0) \/ (producerUsage <> 0 /\ consumerUsage = 0))
        /\ Access.lock_out r = Some (Handle.base hnd)
        /\ exists region,
            accessRegion = Some region
            /\ Access.validate_lock_input_parameters lock_pid hnd
                 (Gralloc1.left region) (Gralloc1.top region)
                 (Gralloc1.width region) (Gralloc1.height region)
                 (Z.lor producerUsage consumerUsage) = 0)
    /\ (Access.lock_status r <> GRALLOC1_ERROR_NONE -> Access.lock_out r = outData).
Proof.
  intros hnd p c accessRegion outData acquireFence r.
  unfold Gralloc1.mali_gralloc1_lock_async.
  assert (Hcodes : GRALLOC1_ERROR_NONE = 0 /\ Gralloc1.GRALLOC1_ERROR_BAD_HANDLE = 2
                   /\ Gralloc1.GRALLOC1_ERROR_BAD_VALUE = 3
                   /\ GRALLOC1_ERROR_UNSUPPORTED = 7) by (repeat split).
  destruct Hcodes as (HN & HH & HV & HU).
  destruct (Handle.validate L (Some hnd) <? 0).
  { intros H. apply Some_eq in H. subst r. cbn.
    split; [auto|]. split; [rewrite HN, HH; discriminate | reflexivity]. }
  destruct accessRegion as [region|].
  2: { intros H. apply Some_eq in H. subst r. cbn.
       split; [auto|]. split; [rewrite HN, HV; discriminate | reflexivity]. }
  cbv zeta.
  destruct (test_lock_usage_outcome p c) as [Hor Hacc].
  destruct (Z.eqb_spec (Gralloc1.mali_gralloc1_test_lock_usage p c) GRALLOC1_ERROR_NONE)
    as [Et|Et]; cbn [negb].
  2: { intros H. apply Some_eq in H. subst r. cbn.
       destruct Hor as [E|E]; [contradiction|]. rewrite E.
       split; [auto|]. split; [rewrite HN, HV; discriminate | reflexivity]. }
  destruct (Hacc Et) as [Hone Hcpu].
  unfold Access.mali_gralloc_lock_async.
  destruct (Access.mali_gralloc_lock L lock_pid (Some hnd) (Z.lor p c)
              (Gralloc1.left region) (Gralloc1.top region)
              (Gralloc1.width region) (Gralloc1.height region) outData) as [r0|] eqn:El;
    [|discriminate].
  cbn [obind]. destruct (lock_outcome _ _ _ _ _ _ _ _ El) as (Hfail & Hok & _).
  intros H. apply Some_eq in H. subst r. cbn [Access.lock_status Access.lock_out].
  destruct (Z.eqb_spec (Access.lock_status r0) 0) as [E0|E0]; cbn [negb].
  - split; [simpl; auto|]. split; [|intros C; congruence].
    intros _. destruct (Hok E0 Hcpu) as [Hout Hv].
    split; [exact Hone|]. split; [exact Hout|]. exists region. auto.
  - split.
    + destruct (Access.lock_status r0 =? - EINVAL); simpl; auto.
    + split; [|intros _; exact (Hfail E0)].
      destruct (Access.lock_status r0 =? - EINVAL); rewrite HN, ?HV, ?HU; discriminate.
Qed.

End AccessProperties.

Lemma accepted_lock_region_is_inside_buffer_witness :
  0 <= 0 /\ 0 <= 0 /\ 0 <= 64 /\ 0 <= 64
  /\ 0 + 64 <= Handle.width Examples.rgba_handle
  /\ 0 + 64 <= Handle.height Examples.rgba_handle
  /\ (Handle.allocating_pid Examples.rgba_handle = 100
      \/ Handle.remote_pid Examples.rgba_handle = 100)
  /\ Handle.base Examples.rgba_handle <> Handle.NULL
  /\ Z.land (Handle.alloc_format Examples.rgba_handle)
            (MALI_GRALLOC_INTFMT_EXT_MASK (Platform := aosp)) = 0.
Proof.
  apply (accepted_lock_region_is_inside_buffer (P := aosp) 100 Examples.rgba_handle
           0 0 64 64 3); try lia. reflexivity.
Defined.

Lemma lock_reports_mapped_address_witness :
  let r := Access.mk_locked 0 (Some (Handle.set_writeOwner Examples.rgba_handle 0))
             (Some 8192) in
  (Access.lock_status r <> 0 -> Access.lock_out r = Some 0)
  /\ (Access.lock_status r = 0 -> tst 3 GRALLOC_USAGE_SW_MASK = true ->
      Access.lock_out r = Some (Handle.base Examples.rgba_handle)
      /\ Access.validate_lock_input_parameters (P := aosp) 100 Examples.rgba_handle
           0 0 64 64 3 = 0)
  /\ exists owner,
      Access.lock_handle r = Some Examples.rgba_handle
      \/ Access.lock_handle r = Some (Handle.set_writeOwner Examples.rgba_handle owner).
Proof.
  apply (lock_reports_mapped_address (P := aosp) Examples.lp64_layout 100
           Examples.rgba_handle 3 0 0 64 64 (Some 0)).
  reflexivity.
Defined.

Lemma write_lock_is_synced_at_unlock_witness :
  exists hnd',
    Some (Handle.set_writeOwner Examples.rgba_handle 48) = Some hnd'
    /\ Release.mali_gralloc_unlock Examples.lp64_layout (Some Examples.legacy_module)
         (Some hnd')
       = (0,
          if tst 0x30 GRALLOC_USAGE_SW_WRITE_MASK
             && negb (tst (Handle.flags Examples.rgba_handle)
                          Handle.PRIV_FLAGS_USES_ION_DMA_HEAP)
          then Some (Ion.ion_client Examples.legacy_module,
                     Handle.share_fd Examples.rgba_handle)
          else None).
Proof.
  apply (write_lock_is_synced_at_unlock (P := aosp) Examples.lp64_layout 100
           Examples.legacy_module Examples.rgba_handle 0x30 0 0 64 64 (Some 0)
           (Access.mk_locked 0 (Some (Handle.set_writeOwner Examples.rgba_handle 48))
              (Some 8192))).
  - reflexivity.
  - reflexivity.
  - reflexivity.
Defined.

Lemma gralloc1_lock_statuses_witness :
  let r := Access.mk_locked 0 (Some (Handle.set_writeOwner Examples.rgba_handle 0))
             (Some 8192) in
  In (Access.lock_status r)
     [GRALLOC1_ERROR_NONE; Gralloc1.GRALLOC1_ERROR_BAD_HANDLE;
      Gralloc1.GRALLOC1_ERROR_BAD_VALUE; GRALLOC1_ERROR_UNSUPPORTED]
  /\ (Access.lock_status r = GRALLOC1_ERROR_NONE ->
      ((0 = 0 /\ 3 <> 0) \/ (0 <> 0 /\ 3 = 0))
      /\ Access.lock_out r = Some (Handle.base Examples.rgba_handle)
      /\ exists region,
          Some (Gralloc1.mk_gralloc1_rect 0 0 64 64) = Some region
          /\ Access.validate_lock_input_parameters (P := aosp) 100 Examples.rgba_handle
               (Gralloc1.left region) (Gralloc1.top region)
               (Gralloc1.width region) (Gralloc1.height region) (Z.lor 0 3) = 0)
  /\ (Access.lock_status r <> GRALLOC1_ERROR_NONE -> Access.lock_out r = Some 0).
Proof.
  apply (gralloc1_lock_statuses (P := aosp) Examples.lp64_layout 100 Examples.rgba_handle
           0 3 (Some (Gralloc1.mk_gralloc1_rect 0 0 64 64)) (Some 0) (-1)).
  reflexivity.
Defined.
(** ** mali_gralloc_formats.cpp *)

Lemma land_high32_zero x : 0 <= x < 2 ^ 32 -> Z.land x 0xffffffff00000000 = 0.
Proof.
  intros H. change 0xffffffff00000000 with (Z.shiftl (Z.ones 32) 32).
  apply Z.bits_inj'. intros n Hn. rewrite Z.land_spec, Z.bits_0.
  destruct (Z.ltb_spec n 32) as [Hlt|Hge].
  - rewrite (Z.shiftl_spec_low (Z.ones 32) 32 n) by lia. apply andb_false_r.
  - destruct (Z.eq_dec x 0) as [->|Hx]; [rewrite Z.bits_0; reflexivity|].
    rewrite (Z.bits_above_log2 x n); [reflexivity | lia |].
    apply Z.log2_lt_pow2; [lia|].
    pose proof (Z.pow_le_mono_r 2 32 n ltac:(lia) Hge). lia.
Qed.

(** X23. A request with a CPU read or write usage, by public format and
    without the private-format usage, is answered at once with the mapped
    base format: whatever the capabilities of the IP blocks, the answer
    carries no AFBC or other modifier bit. *)
Theorem cpu_usage_never_selects_afbc :
  forall (caps : runtime_caps) (req_format usage buffer_size : Z),
    tst usage GRALLOC_USAGE_SW_MASK = true ->
    tst usage (MALI_GRALLOC_USAGE_PRIVATE_FORMAT (P := aosp)) = false ->
    Z.land req_format (MALI_GRALLOC_INTFMT_FMT_MASK (Platform := aosp)) < 2 ^ 31 ->
    exists internal_format,
      mali_gralloc_select_format (P := aosp) caps req_format MALI_GRALLOC_FORMAT_TYPE_USAGE
        usage buffer_size = Some internal_format
      /\ internal_format
         = to_uint64 (map_flex_formats (P := aosp)
                        (Z.land req_format (MALI_GRALLOC_INTFMT_FMT_MASK (Platform := aosp))))
      /\ Z.land internal_format (MALI_GRALLOC_INTFMT_EXT_MASK (Platform := aosp)) = 0.
Proof.
  intros caps req usage size Hcpu Hpriv Hlow.
  unfold mali_gralloc_select_format. rewrite Hpriv. cbn [orb].
  unfold determine_producer. rewrite Hcpu.
  destruct (determine_consumer caps usage) as [kc c]. cbn [negb orb].
  eexists. split; [reflexivity|]. split; [reflexivity|].
  set (b := Z.land req MALI_GRALLOC_INTFMT_FMT_MASK) in *.
  assert (Hb : 0 <= b < 2 ^ 31).
  { split; [|exact Hlow]. subst b. apply Z.land_nonneg. right. cbn. lia. }
  assert (Hm : 0 <= to_uint64 (map_flex_formats (P := aosp) b) < 2 ^ 31).
  { unfold map_flex_formats.
    destruct ((b =? HAL_PIXEL_FORMAT_IMPLEMENTATION_DEFINED)
              || (b =? HAL_PIXEL_FORMAT_YCbCr_420_888)).
    - vm_compute. split; [discriminate | reflexivity].
    - cbv zeta.
      destruct (b =? MALI_GRALLOC_FORMAT_INTERNAL_YUV422_8BIT).
      + vm_compute. split; [discriminate | reflexivity].
      + rewrite int_roundtrip by exact Hb. exact Hb. }
  set (r := to_uint64 (map_flex_formats b)) in *.
  apply land_high32_zero. lia.
Qed.

Lemma cpu_usage_never_selects_afbc_witness :
  exists internal_format,
    mali_gralloc_select_format (P := aosp) Examples.gpu_caps 0x23
      MALI_GRALLOC_FORMAT_TYPE_USAGE 0x33 0 = Some internal_format
    /\ internal_format
       = to_uint64 (map_flex_formats (P := aosp)
                      (Z.land 0x23 (MALI_GRALLOC_INTFMT_FMT_MASK (Platform := aosp))))
    /\ Z.land internal_format (MALI_GRALLOC_INTFMT_EXT_MASK (Platform := aosp)) = 0.
Proof.
  apply (cpu_usage_never_selects_afbc Examples.gpu_caps 0x23 0x33 0).
  - reflexivity.
  - reflexivity.
  - reflexivity.
Defined.

(** X24. mali_gralloc_adjust_dimensions never makes a dimension smaller:
    the width grows by less than 16 and the height by less than 32, and
    for a GPU producer of an AFBC format both become multiples of 16; the
    width changes for no other producer. *)
Theorem adjusted_dimensions_never_shrink {P : Platform} :
  forall internal_format usage width height : Z,
    0 <= width -> width + 16 <= 2 ^ 31 ->
    0 <= height -> height + 32 <= 2 ^ 31 ->
    let adjusted := Fallback.mali_gralloc_adjust_dimensions internal_format usage width height in
    width <= fst adjusted < width + 16
    /\ height <= snd adjusted < height + 32
    /\ (tst internal_format MALI_GRALLOC_INTFMT_AFBC_BASIC = false -> adjusted = (width, height))
    /\ (tst internal_format MALI_GRALLOC_INTFMT_AFBC_BASIC = true ->
        snd (determine_producer usage) = MALI_GRALLOC_PRODUCER_GPU
        \/ snd (determine_producer usage) = MALI_GRALLOC_PRODUCER_GPU_OR_DISPLAY ->
        fst adjusted mod 16 = 0 /\ snd adjusted mod 16 = 0)
    /\ (snd (determine_producer usage) <> MALI_GRALLOC_PRODUCER_GPU ->
        snd (determine_producer usage) <> MALI_GRALLOC_PRODUCER_GPU_OR_DISPLAY ->
        fst adjusted = width).
Proof.
  intros internal_format usage width height Hw0 Hw1 Hh0 Hh1.
  unfold Fallback.mali_gralloc_adjust_dimensions.
  destruct (determine_producer usage) as [known producer]. cbn [snd].
  destruct (tst internal_format MALI_GRALLOC_INTFMT_AFBC_BASIC) eqn:Eafbc.
  2: { rewrite !andb_false_r. cbn [andb]. cbv zeta. cbn [fst snd].
       repeat split; try lia; discriminate. }
  rewrite !andb_true_r.
  match goal with
  | |- context [if producer_eqb producer MALI_GRALLOC_PRODUCER_VIDEO_DECODER && ?c
                then _ else _] => set (yuv420 := c)
  end.
  pose proof (GRALLOC_ALIGN_bounds width 16 ltac:(lia)) as Bw.
  pose proof (GRALLOC_ALIGN_multiple width 16 ltac:(lia)) as Mw.
  pose proof (GRALLOC_ALIGN_bounds height 16 ltac:(lia)) as Bh.
  pose proof (GRALLOC_ALIGN_multiple height 16 ltac:(lia)) as Mh.
  destruct producer; cbn [producer_eqb andb orb]; cbv zeta; cbn [fst snd];
    try (rewrite !align_int_eq by lia);
    try (destruct yuv420; try (rewrite to_int32_small by lia));
    (split; [lia|]); (split; [lia|]); (split; [discriminate|]);
    (split; [intros _ [C|C]; try discriminate C; split; assumption|]);
    intros C1 C2; try reflexivity; try (exfalso; apply C1; reflexivity);
    try (exfalso; apply C2; reflexivity).
Qed.

Lemma adjusted_dimensions_never_shrink_witness :
  let adjusted :=
    Fallback.mali_gralloc_adjust_dimensions (P := aosp)
      (Z.lor (MALI_GRALLOC_FORMAT_INTERNAL_RGBA_8888 (Platform := aosp))
             (MALI_GRALLOC_INTFMT_AFBC_BASIC (Platform := aosp)))
      (GRALLOC_USAGE_HW_RENDER (Platform := aosp)) 100 50 in
  100 <= fst adjusted < 100 + 16
  /\ 50 <= snd adjusted < 50 + 32
  /\ (tst (Z.lor (MALI_GRALLOC_FORMAT_INTERNAL_RGBA_8888 (Platform := aosp))
                 (MALI_GRALLOC_INTFMT_AFBC_BASIC (Platform := aosp)))
          (MALI_GRALLOC_INTFMT_AFBC_BASIC (Platform := aosp)) = false ->
      adjusted = (100, 50))
  /\ (tst (Z.lor (MALI_GRALLOC_FORMAT_INTERNAL_RGBA_8888 (Platform := aosp))
                 (MALI_GRALLOC_INTFMT_AFBC_BASIC (Platform := aosp)))
          (MALI_GRALLOC_INTFMT_AFBC_BASIC (Platform := aosp)) = true ->
      snd (determine_producer (P := aosp) (GRALLOC_USAGE_HW_RENDER (Platform := aosp)))
      = MALI_GRALLOC_PRODUCER_GPU
      \/ snd (determine_producer (P := aosp) (GRALLOC_USAGE_HW_RENDER (Platform := aosp)))
         = MALI_GRALLOC_PRODUCER_GPU_OR_DISPLAY ->
      fst adjusted mod 16 = 0 /\ snd adjusted mod 16 = 0)
  /\ (snd (determine_producer (P := aosp) (GRALLOC_USAGE_HW_RENDER (Platform := aosp)))
      <> MALI_GRALLOC_PRODUCER_GPU ->
      snd (determine_producer (P := aosp) (GRALLOC_USAGE_HW_RENDER (Platform := aosp)))
      <> MALI_GRALLOC_PRODUCER_GPU_OR_DISPLAY ->
      fst adjusted = 100).
Proof.
  apply (adjusted_dimensions_never_shrink (P := aosp)); lia.
Defined.

Lemma find_index_Some (p : format_info_t -> bool) fs i k :
  find_index p fs i = Some k ->
  exists g, nth_error fs (k - i) = Some g /\ p g = true /\ (i <= k)%nat.
Proof.
  revert i. induction fs as [|f rest IH]; intros i H; simpl in H; [discriminate|].
  destruct (p f) eqn:Ep.
  - apply Some_eq in H. subst k. exists f. rewrite Nat.sub_diag. auto.
  - destruct (IH _ H) as (g & Hg & Hp & Hle). exists g.
    replace (k - i)%nat with (S (k - S i)) by lia. simpl. repeat split; auto; lia.
Qed.

Lemma convert_yuv_result {P : Platform} format_idx f found new_idx :
  formats_at format_idx = Some f ->
  Fallback.convert_yuv_to_afbc_single_plane format_idx = Some (found, new_idx) ->
  (found = false -> new_idx = format_idx)
  /\ (found = true ->
      is_yuv f = true
      /\ exists g, formats_at new_idx = Some g
                   /\ npln g = 1 /\ afbc g = true /\ is_yuv g = true
                   /\ bps g = bps f /\ hsub g = hsub f /\ vsub g = vsub f).
Proof.
  intros Hf. unfold Fallback.convert_yuv_to_afbc_single_plane. rewrite Hf. cbn [obind].
  cbv zeta. destruct (is_yuv f) eqn:Ey; cbn [negb].
  2: { intros H. apply Some_eq in H. inversion H; subst. split; [auto | discriminate]. }
  destruct ((npln f =? 1) && afbc f) eqn:E1.
  { intros H. apply Some_eq in H. inversion H; subst. split; [discriminate|].
    intros _. split; [reflexivity|]. exists f.
    apply andb_true_iff in E1. destruct E1 as [En Ea]. apply Z.eqb_eq in En. auto 10. }
  match goal with |- context [find_index ?p formats 0] =>
    destruct (find_index p formats 0) as [i|] eqn:Ei end.
  2: { intros H. apply Some_eq in H. inversion H; subst. split; [auto | discriminate]. }
  intros H. apply Some_eq in H. inversion H; subst. split; [discriminate|].
  intros _. split; [reflexivity|].
  destruct (find_index_Some _ _ _ _ Ei) as (g & Hg & Hp & _).
  rewrite Nat.sub_0_r in Hg. exists g.
  repeat (apply andb_true_iff in Hp; destruct Hp as [Hp ?]).
  repeat match goal with H : (_ =? _) = true |- _ => apply Z.eqb_eq in H end.
  match goal with H : Bool.eqb _ _ = true |- _ => apply Bool.eqb_prop in H; rename H into Hy end.
  split; [exact Hg|]. repeat split; try assumption; congruence.
Qed.

(** X25. convert_yuv_to_afbc_single_plane: when it answers false the index
    is as before; when it answers true the format it started from is YUV
    and the index is that of a single-plane YUV entry of the table that
    supports AFBC and has the same bit depth and sub-sampling. *)
Theorem single_plane_conversion_result {P : Platform} :
  forall (format_idx : nat) (f : format_info_t) (found : bool) (new_idx : nat),
    formats_at format_idx = Some f ->
    Fallback.convert_yuv_to_afbc_single_plane format_idx = Some (found, new_idx) ->
    (found = false -> new_idx = format_idx)
    /\ (found = true ->
        is_yuv f = true
        /\ exists g, formats_at new_idx = Some g
                     /\ npln g = 1 /\ afbc g = true /\ is_yuv g = true
                     /\ bps g = bps f /\ hsub g = hsub f /\ vsub g = vsub f).
Proof. intros format_idx f found new_idx. apply convert_yuv_result. Qed.

(** X26. afbc_format_fallback, called with an index of the table, leaves
    an index of the table: the one it was given, or that of a single-plane
    YUV entry with AFBC and the same bit depth and sub-sampling. The index
    is the one it was given for a format that has one plane and supports
    AFBC, and for a format that is not YUV. *)
Theorem afbc_format_fallback_index {P : Platform} (caps : runtime_caps) :
  forall (format_idx : nat) (usage : Z) (force : bool) (f : format_info_t),
    formats_at format_idx = Some f ->
    exists res new_idx,
      Fallback.afbc_format_fallback caps format_idx usage force = Some (res, new_idx)
      /\ (new_idx < num_formats)%nat
      /\ (new_idx = format_idx
          \/ exists g, formats_at new_idx = Some g
                       /\ npln g = 1 /\ afbc g = true /\ is_yuv g = true
                       /\ bps g = bps f /\ hsub g = hsub f /\ vsub g = vsub f)
      /\ (npln f <= 1 -> afbc f = true -> new_idx = format_idx)
      /\ (is_yuv f = false -> new_idx = format_idx).
Proof.
  intros format_idx usage force f Hf.
  destruct (formats_at_Some _ _ Hf) as [Hlt _].
  unfold Fallback.afbc_format_fallback. cbv zeta.
  destruct (determine_producer usage) as [kp producer].
  destruct (determine_consumer caps usage) as [kc consumer].
  match goal with |- context [if ?c then _ else _] => destruct c end.
  2: { exists true, format_idx. repeat split; auto. }
  rewrite Hf. cbn [obind].
  destruct ((1 <? npln f) || negb (afbc f)) eqn:E.
  2: { exists true, format_idx. repeat split; auto. }
  destruct (convert_yuv_defined format_idx Hlt) as [[found new_idx] Hc].
  rewrite Hc. cbn [obind].
  destruct (convert_yuv_result _ _ _ _ Hf Hc) as [Hno Hyes].
  exists true, new_idx. split; [destruct found; reflexivity|].
  destruct found.
  - destruct (Hyes eq_refl) as (Hy & g & Hg & Hrest).
    split; [exact (proj1 (formats_at_Some _ _ Hg))|].
    split; [right; exists g; auto|].
    split.
    + intros Hn Ha. exfalso. apply orb_true_iff in E. destruct E as [E|E].
      * apply Z.ltb_lt in E. lia.
      * rewrite Ha in E. discriminate.
    + intros C. congruence.
  - rewrite (Hno eq_refl). repeat split; auto.
Qed.

Lemma single_plane_conversion_result_witness :
  exists f,
    formats_at (P := aosp) 10 = Some f
    /\ (true = false -> 9%nat = 10%nat)
    /\ (true = true ->
        is_yuv f = true
        /\ exists g, formats_at (P := aosp) 9 = Some g
                     /\ npln g = 1 /\ afbc g = true /\ is_yuv g = true
                     /\ bps g = bps f /\ hsub g = hsub f /\ vsub g = vsub f).
Proof.
  eexists. split; [reflexivity|].
  apply (single_plane_conversion_result (P := aosp) 10 _ true 9); reflexivity.
Defined.

Lemma afbc_format_fallback_index_witness :
  exists f,
    formats_at (P := aosp) 10 = Some f
    /\ exists res new_idx,
        Fallback.afbc_format_fallback (P := aosp) Examples.gpu_caps 10 0 true
        = Some (res, new_idx)
        /\ (new_idx < num_formats (P := aosp))%nat
        /\ (new_idx = 10%nat
            \/ exists g, formats_at (P := aosp) new_idx = Some g
                         /\ npln g = 1 /\ afbc g = true /\ is_yuv g = true
                         /\ bps g = bps f /\ hsub g = hsub f /\ vsub g = vsub f)
        /\ (npln f <= 1 -> afbc f = true -> new_idx = 10%nat)
        /\ (is_yuv f = false -> new_idx = 10%nat).
Proof.
  eexists. split; [reflexivity|].
  apply (afbc_format_fallback_index (P := aosp) Examples.gpu_caps 10 0 true). reflexivity.
Defined.

(** ** mali_gralloc_bufferaccess.cpp: flex layouts *)

Lemma flex_table_agrees hnd :
  forallb (fun f => match Access.flex_planes (P := aosp) hnd (id f) with
                    | Some (_, ps) => flex f && (Z.of_nat (length ps) =? ncmp f)
                    | None => negb (flex f)
                    end)
          (formats (P := aosp)) = true.
Proof. vm_compute. reflexivity. Qed.

Lemma flex_planes_of_entry hnd f :
  In f (formats (P := aosp)) ->
  match Access.flex_planes (P := aosp) hnd (id f) with
  | Some (_, ps) => flex f = true /\ Z.of_nat (length ps) = ncmp f
  | None => flex f = false
  end.
Proof.
  intros Hin. pose proof (flex_table_agrees hnd) as H.
  rewrite forallb_forall in H. specialize (H f Hin). cbv beta in H.
  destruct (Access.flex_planes hnd (id f)) as [[fmt ps]|].
  - apply andb_true_iff in H. destruct H as [H1 H2]. apply Z.eqb_eq in H2. auto.
  - now apply negb_true_iff in H.
Qed.

(** X27. The switch of mali_gralloc_lock_flex_async and the table agree:
    for an entry of the table that is marked flex the switch has a case,
    which fills as many planes as the entry has components; for an entry
    that is not marked flex the switch has no case. *)
Theorem flex_planes_match_table :
  forall (hnd : Handle.private_handle_t) (f : format_info_t),
    In f (formats (P := aosp)) ->
    match Access.flex_planes (P := aosp) hnd (id f) with
    | Some (_, ps) => flex f = true /\ Z.of_nat (length ps) = ncmp f
    | None => flex f = false
    end.
Proof. exact flex_planes_of_entry. Qed.

Lemma flex_planes_match_table_witness :
  match Access.flex_planes (P := aosp) Examples.rgba_handle
          (id (mk_format 0x100 2 3 8 [8;16;0] [8;16;0] 2 2 1 false true true true true 1)) with
  | Some (_, ps) =>
      flex (mk_format 0x100 2 3 8 [8;16;0] [8;16;0] 2 2 1 false true true true true 1) = true
      /\ Z.of_nat (length ps)
         = ncmp (mk_format 0x100 2 3 8 [8;16;0] [8;16;0] 2 2 1 false true true true true 1)
  | None =>
      flex (mk_format 0x100 2 3 8 [8;16;0] [8;16;0] 2 2 1 false true true true true 1) = false
  end.
Proof.
  apply (flex_planes_match_table Examples.rgba_handle
           (mk_format 0x100 2 3 8 [8;16;0] [8;16;0] 2 2 1 false true true true true 1)).
  vm_compute. do 10 right. left. reflexivity.
Defined.

(** X28. What mali_gralloc_get_num_flex_planes reports is what
    mali_gralloc_lock_flex_async fills in: when the first answers
    GRALLOC1_ERROR_NONE with a number of planes, a lock of the same buffer
    whose parameters validate answers GRALLOC1_ERROR_NONE, sets num_planes
    to that number and writes exactly that many planes, leaving the rest
    of the caller's array as it was. *)
Theorem reported_flex_planes_are_filled :
  forall (lock_pid : Z) (hnd : Handle.private_handle_t) (num_planes n usage l t w h : Z)
         (flex_layout : Access.android_flex_layout) (fence_fd : Z),
    Access.mali_gralloc_get_num_flex_planes (P := aosp) (Some hnd) num_planes
    = Some (GRALLOC1_ERROR_NONE, n) ->
    Access.validate_lock_input_parameters (P := aosp) lock_pid hnd l t w h usage = 0 ->
    exists fmt ps,
      Access.mali_gralloc_lock_flex_async (P := aosp) lock_pid (Some hnd) usage l t w h
        flex_layout fence_fd
      = Some (Access.leave GRALLOC1_ERROR_NONE (Access.note_write_owner hnd usage)
                (Some (Access.mk_flex_layout fmt n
                         (ps ++ skipn (length ps) (Access.planes flex_layout)))))
      /\ Z.of_nat (length ps) = n.
Proof.
  intros lock_pid hnd n0 n usage l t w h layout fence Hnum Hv.
  unfold Access.mali_gralloc_get_num_flex_planes in Hnum.
  unfold Access.mali_gralloc_lock_flex_async. cbv zeta in *. rewrite Hv.
  change (negb (0 =? 0)) with false. cbv iota.
  set (base_format := Z.land (Handle.alloc_format hnd) MALI_GRALLOC_INTFMT_FMT_MASK) in *.
  destruct (negb (Z.land (Handle.alloc_format hnd) MALI_GRALLOC_INTFMT_EXT_MASK =? 0));
    [apply Some_eq in Hnum; inversion Hnum|].
  destruct (get_format_index base_format =? -1) eqn:Eidx;
    [apply Some_eq in Hnum; inversion Hnum|].
  destruct (formats_at (Z.to_nat (get_format_index base_format))) as [f|] eqn:Ef;
    [|discriminate]. cbn [obind] in *.
  destruct (flex f) eqn:Eflex; cbn [negb] in *;
    [|apply Some_eq in Hnum; inversion Hnum].
  apply Some_eq in Hnum. inversion Hnum as [Hn]. clear Hnum.
  assert (Hid : id f = base_format).
  { unfold get_format_index in Ef, Eidx. cbv zeta in Ef, Eidx.
    destruct (num_formats <=? format_scan (to_uint32 base_format))%nat; [discriminate|].
    rewrite Nat2Z.id in Ef. rewrite (format_scan_found _ _ Ef).
    apply to_uint32_small. subst base_format.
    change (MALI_GRALLOC_INTFMT_FMT_MASK (Platform := aosp)) with (Z.ones 32).
    rewrite Z.land_ones by lia. apply Z.mod_pos_bound. lia. }
  destruct (formats_at_Some _ _ Ef) as [_ Hin].
  pose proof (flex_planes_of_entry (Access.note_write_owner hnd usage) f Hin) as Hfp.
  rewrite Hid in Hfp.
  destruct (Access.flex_planes (Access.note_write_owner hnd usage) base_format)
    as [[fmt ps]|].
  - destruct Hfp as [_ Hlen]. exists fmt, ps. split; [reflexivity | exact Hlen].
  - congruence.
Qed.

Lemma reported_flex_planes_are_filled_witness :
  exists fmt ps,
    Access.mali_gralloc_lock_flex_async (P := aosp) 100 (Some Examples.rgba_handle)
      3 0 0 64 64 (Access.mk_flex_layout Access.FLEX_FORMAT_Y 0 []) (-1)
    = Some (Access.leave GRALLOC1_ERROR_NONE
              (Access.note_write_owner Examples.rgba_handle 3)
              (Some (Access.mk_flex_layout fmt 4
                       (ps ++ skipn (length ps)
                                (Access.planes
                                   (Access.mk_flex_layout Access.FLEX_FORMAT_Y 0 []))))))
    /\ Z.of_nat (length ps) = 4.
Proof.
  apply (reported_flex_planes_are_filled 100 Examples.rgba_handle 0 4 3 0 0 64 64
           (Access.mk_flex_layout Access.FLEX_FORMAT_Y 0 []) (-1)).
  - reflexivity.
  - reflexivity.
Defined.
